(** * TelaOS BLE assistant: the host-side bridge of [tools/ble_assistant.py]

    A shallow embedding of the request/response correlator ([send],
    [_on_tx_notify]), the binary chunk reassembler ([_on_bin_notify]), the
    chunked sender ([send_binary]), the HTTP fetch proxy ([_handle_fetch],
    [_send_fetch_response]) and the session supervisor ([connect], [sync],
    [_on_disconnect], [run]), and the properties the specification states
    about them; then the command line ([_exec_cli], [_split_args],
    [_auto_type], [_push_app]), the discovery ([scan]) and the reading of
    the local zone ([get_local_timezone]), with further properties of the
    whole.

    Conventions of the embedding.
    - Python [int] is [Z]; [str] is a [string] holding the UTF-8 encoding of
      the text, a lone surrogate as the three bytes of its code point;
      [bytes] and [bytearray] are [list byte].
    - A decoded JSON value is a [json]; a Python [dict] obtained from JSON is
      an association list in insertion order, each key once.  The values are
      those [json.loads] returns: an integer stays within the digits that
      [int] converts from and to text.
    - The module-level globals and the attributes of [BLEAssistant] are the
      fields of one record [state], threaded through every operation; a
      statement is a function from the state to an outcome (a value or an
      exception) and the state it leaves.
    - The process is single-threaded and cooperative.  A callback of the
      transport, and the stretch of a coroutine between two suspension
      points, is one turn of the event loop and runs undisturbed; a suspended
      coroutine is a value ([await], [pc]) that the following turns resume.
    - The collaborators are inputs: the decoded notification, the clock
      readings of [sync], the answer of [requests.request] and of
      [resp.json()], the outcome of [client.connect()].
    - [_handle_fetch] is given a request with the field types of the wire
      interface ([fetch_request]); of a frame with other field types only the
      first line of the handler is followed ([run_fetch_task_full]).
    - [log] appends a structured entry to [logbook]: what the line reports,
      not its text, its truncation or its clock prefix.
    - What the command line prints, and the file it writes, is returned by
      [_exec_cli] and [_push_app] as a list of [cli_effect].  The words of the
      line, the files at a path, the devices discovered and the offset of the
      local zone are inputs, and so are [int], [float] and [json.loads] on a
      text.
    - [send_binary] runs undisturbed: its sleeps between two chunks are not
      turns of the loop.

    The source is read twice.
    - The definitions that carry the names of the source ([send],
      [_on_tx_notify], [sync], [_handle_fetch], [run], ...) follow it on a
      terminal that prints every line, for texts that encode as UTF-8, over a
      link that takes every write ([write_gatt_char] appends the packet to
      [outbox] and returns), with the deadline of [asyncio.wait_for] and the
      [except] branch it triggers as one turn.  The properties of the
      binary chunks, of the binary push, of the request ids, of the session
      flags and of the command line are stated over this reading, and so is
      the instance [fetch_non_object_body_status_0] of the fetch proxy.
    - The definitions with the suffix [_full] drop these four readings: a
      line or a text with a lone surrogate makes [print] or [str.encode]
      raise [UnicodeEncodeError] at the place where the source calls them, a
      write may raise what the link raises, and the future of a call whose
      time is up is cancelled some turns before the call resumes and removes
      its entry ([Cancel], [Expire]).  The correlator, the handshake, the
      fetch proxy and the run loop are stated over this reading; the TX
      callback of the first reading is the one of the second whenever its
      line prints ([tx_notify_full_eq]), and so is the start of [send]
      ([send_begin_full_ok]). *)

From Stdlib Require Import ZArith String Ascii List Bool Lia.
From Stdlib.Strings Require Import Byte.
From Stdlib Require Import Decimal DecimalString.
From stdpp Require Import gmap strings list.
Import ListNotations.

Set Warnings "-register-all".

Local Open Scope string_scope.
Local Open Scope list_scope.
Local Open Scope Z_scope.

(** ** JSON values as [json.loads] returns them *)

(** A Python [float]: a finite binary float is an integer mantissa scaled by a
    power of two; [json.loads] also accepts the three non-finite literals. *)
Inductive pyfloat : Type :=
| Finite (m e : Z)
| PosInf
| NegInf
| NaN.

Inductive json : Type :=
| JNull
| JBool (b : bool)
| JInt (z : Z)
| JFloat (f : pyfloat)
| JStr (s : string)
| JList (l : list json)
| JObj (kvs : list (string * json)).

Definition dict : Type := list (string * json).

(** [d.get(k)] and [k in d] for a dict with string keys. *)
Fixpoint dict_get (k : string) (d : dict) : option json :=
  match d with
  | [] => None
  | (k', v) :: d' => if String.eqb k k' then Some v else dict_get k d'
  end.

Definition dict_get_default (k : string) (dflt : json) (d : dict) : json :=
  match dict_get k d with Some v => v | None => dflt end.

Definition dict_has (k : string) (d : dict) : bool :=
  match dict_get k d with Some _ => true | None => false end.

(** [d[k] = v]: replaces the value of an existing key in place, otherwise
    appends the new item. *)
Fixpoint dict_set (k : string) (v : json) (d : dict) : dict :=
  match d with
  | [] => [(k, v)]
  | (k', v') :: d' =>
      if String.eqb k k' then (k', v) :: d' else (k', v') :: dict_set k v d'
  end.

(** The value of a finite float when it is a whole number. *)
Definition float_integral (f : pyfloat) : option Z :=
  match f with
  | Finite m e =>
      if 0 <=? e then Some (m * 2 ^ e)
      else if m mod 2 ^ (- e) =? 0 then Some (m / 2 ^ (- e)) else None
  | _ => None
  end.

(** Truth value of a JSON value in a Python condition. *)
Definition py_truthy (v : json) : bool :=
  match v with
  | JNull => false
  | JBool b => b
  | JInt z => negb (z =? 0)
  | JFloat (Finite m _) => negb (m =? 0)
  | JFloat _ => true
  | JStr s => negb (String.eqb s "")
  | JList l => match l with [] => false | _ => true end
  | JObj d => match d with [] => false | _ => true end
  end.

(** ** [json.dumps] *)

Definition dquote : ascii := "034"%char.
Definition backslash : ascii := "092"%char.

Definition str1 (c : ascii) : string := String c EmptyString.

Definition hex_digit (n : Z) : ascii :=
  ascii_of_N (Z.to_N (if n <? 10 then 48 + n else 87 + n)).

(** [ '\\u{0:04x}'.format(n) ] *)
Definition u_escape (n : Z) : string :=
  String backslash (String "u"%char
    (String (hex_digit (Z.land (Z.shiftr n 12) 15))
    (String (hex_digit (Z.land (Z.shiftr n 8) 15))
    (String (hex_digit (Z.land (Z.shiftr n 4) 15))
    (String (hex_digit (Z.land n 15)) EmptyString))))).

Definition code (c : ascii) : Z := Z.of_N (N_of_ascii c).

(** The two-character escapes shared by both encoders, [ESCAPE_DCT]. *)
Definition short_escape (c : ascii) : option string :=
  let n := code c in
  if n =? 34 then Some (String backslash (str1 dquote))
  else if n =? 92 then Some (String backslash (str1 backslash))
  else if n =? 10 then Some (String backslash "n")
  else if n =? 13 then Some (String backslash "r")
  else if n =? 9 then Some (String backslash "t")
  else if n =? 8 then Some (String backslash "b")
  else if n =? 12 then Some (String backslash "f")
  else None.

(** [ensure_ascii=False]: only quotes, backslash and control characters are
    escaped; every byte of a multi-byte UTF-8 sequence passes unchanged. *)
Fixpoint escape_plain (s : string) : string :=
  match s with
  | EmptyString => EmptyString
  | String c s' =>
      String.append
        (match short_escape c with
         | Some e => e
         | None => if code c <? 32 then u_escape (code c) else str1 c
         end)
        (escape_plain s')
  end.

(** Code points of a UTF-8 string.  The continuation bytes that a lead byte
    announces are consumed when present. *)
Definition cont (c : ascii) : Z := Z.land (code c) 63.

Fixpoint code_points (s : string) : list Z :=
  match s with
  | EmptyString => []
  | String c0 s0 =>
      let b := code c0 in
      if b <? 128 then b :: code_points s0
      else
        match s0 with
        | String c1 s1 =>
            if b <? 224 then
              (Z.lor (Z.shiftl (Z.land b 31) 6) (cont c1)) :: code_points s1
            else
              match s1 with
              | String c2 s2 =>
                  if b <? 240 then
                    (Z.lor (Z.shiftl (Z.land b 15) 12)
                       (Z.lor (Z.shiftl (cont c1) 6) (cont c2)))
                      :: code_points s2
                  else
                    match s2 with
                    | String c3 s3 =>
                        (Z.lor (Z.shiftl (Z.land b 7) 18)
                           (Z.lor (Z.shiftl (cont c1) 12)
                              (Z.lor (Z.shiftl (cont c2) 6) (cont c3))))
                          :: code_points s3
                    | EmptyString => [b]
                    end
              | EmptyString => [b]
              end
        | EmptyString => [b]
        end
  end.

(** [ensure_ascii=True]: everything outside [' '..'~'] becomes a [\uXXXX]
    escape, astral code points as a surrogate pair. *)
Definition escape_code_point (n : Z) : string :=
  if n <? 128 then
    let c := ascii_of_N (Z.to_N n) in
    match short_escape c with
    | Some e => e
    | None => if (32 <=? n) && (n <=? 126) then str1 c else u_escape n
    end
  else if n <? 65536 then u_escape n
  else
    let v := n - 65536 in
    String.append (u_escape (Z.lor 55296 (Z.land (Z.shiftr v 10) 1023)))
                  (u_escape (Z.lor 56320 (Z.land v 1023))).

Definition escape_ascii (s : string) : string :=
  String.concat "" (map escape_code_point (code_points s)).

Definition quote (ensure_ascii : bool) (s : string) : string :=
  String dquote
    (String.append (if ensure_ascii then escape_ascii s else escape_plain s)
       (str1 dquote)).

Definition str_of_int (z : Z) : string := NilZero.string_of_int (Z.to_int z).

Section Dumps.

(** [float.__repr__] on a finite float is the one part of the encoder that is
    taken as given. *)
Variable float_repr : Z -> Z -> string.

Definition dumps_float (f : pyfloat) : string :=
  match f with
  | Finite m e => float_repr m e
  | PosInf => "Infinity"
  | NegInf => "-Infinity"
  | NaN => "NaN"
  end.

(** [json.dumps(v, ensure_ascii=...)] with the default separators
    [', '] and [': ']. *)
Fixpoint json_dumps (ensure_ascii : bool) (v : json) : string :=
  match v with
  | JNull => "null"
  | JBool true => "true"
  | JBool false => "false"
  | JInt z => str_of_int z
  | JFloat f => dumps_float f
  | JStr s => quote ensure_ascii s
  | JList l =>
      String.append "["
        (String.append (String.concat ", " (map (json_dumps ensure_ascii) l)) "]")
  | JObj d =>
      String.append "{"
        (String.append
           (String.concat ", "
              (map (fun kv =>
                      match kv with
                      | (k, x) =>
                          String.append (quote ensure_ascii k)
                            (String.append ": " (json_dumps ensure_ascii x))
                      end) d))
           "}")
  end.

End Dumps.


(** ** Exceptions and the state of the process *)

Inductive exn_class : Type :=
| TypeError
| AttributeError
| KeyError
| JSONDecodeError
| InvalidStateError
| StructError
| RequestsTimeout
| UnicodeEncodeError
| OtherException.

(** An exception object: its class and [str(e)]. *)
Record exn : Type := Exn { exn_cls : exn_class; exn_msg : string }.

Inductive outcome (A : Type) : Type :=
| Return (a : A)
| Raise (e : exn).
Arguments Return {A} a.
Arguments Raise {A} e.

(** An [asyncio.Future] created by [send]. *)
Inductive future : Type :=
| FPending
| FDone (status payload : json)
| FCancelled.

(** What has been handed to [client.write_gatt_char]. *)
Inductive packet : Type :=
| ToRx (text : string)        (* RX_CHAR_UUID, [text.encode("utf-8")] *)
| ToBin (data : list byte).   (* BIN_CHAR_UUID *)

Inductive log_entry : Type :=
| LogRaw (text : string)
| LogRx (rid status payload : json)
| LogRxOther (msg : json)
| LogTx (rid : Z) (subsystem cmd : string) (args : json)
| LogTimeout (rid : Z)
| LogDisconnected
| LogBinaryReceived (len chunks : Z)
| LogBinarySent (total chunks : Z)
| LogSync (utc tz : string)
| LogSynced (os proto : json)
| LogSyncFailed (data : json)
| LogFetch (rid : json) (method url : string)
| LogFetchDone (rid : json) (status : Z)
| LogFetchTimeout (rid : json)
| LogFetchError (rid : json) (msg : string)
| LogFetchLarge (rid : json) (len : Z)
| LogNotFound
| LogConnecting
| LogConnectFailed
| LogConnected
| LogRetry
| LogDaemon
| LogReconnecting.

Record state : Type := State {
  request_id : Z;
  pending_responses : gmap Z nat;   (* id -> the future waiting for it *)
  futures : list future;            (* every future created so far *)
  bin_buffer : list byte;
  bin_expected_size : Z;
  connected : bool;
  synced : bool;
  spawned : list json;              (* [_handle_fetch] tasks given to the loop *)
  outbox : list packet;
  logbook : list log_entry
}.

Definition initial_state : state :=
  State 0 ∅ [] [] 0 false false [] [] [].

Definition set_request_id (x : Z) (st : state) : state :=
  State x (pending_responses st) (futures st) (bin_buffer st)
    (bin_expected_size st) (connected st) (synced st) (spawned st)
    (outbox st) (logbook st).
Definition set_pending_responses (x : gmap Z nat) (st : state) : state :=
  State (request_id st) x (futures st) (bin_buffer st)
    (bin_expected_size st) (connected st) (synced st) (spawned st)
    (outbox st) (logbook st).
Definition set_futures (x : list future) (st : state) : state :=
  State (request_id st) (pending_responses st) x (bin_buffer st)
    (bin_expected_size st) (connected st) (synced st) (spawned st)
    (outbox st) (logbook st).
Definition set_bin_buffer (x : list byte) (st : state) : state :=
  State (request_id st) (pending_responses st) (futures st) x
    (bin_expected_size st) (connected st) (synced st) (spawned st)
    (outbox st) (logbook st).
Definition set_bin_expected_size (x : Z) (st : state) : state :=
  State (request_id st) (pending_responses st) (futures st) (bin_buffer st)
    x (connected st) (synced st) (spawned st) (outbox st) (logbook st).
Definition set_connected (x : bool) (st : state) : state :=
  State (request_id st) (pending_responses st) (futures st) (bin_buffer st)
    (bin_expected_size st) x (synced st) (spawned st) (outbox st) (logbook st).
Definition set_synced (x : bool) (st : state) : state :=
  State (request_id st) (pending_responses st) (futures st) (bin_buffer st)
    (bin_expected_size st) (connected st) x (spawned st) (outbox st)
    (logbook st).
Definition set_spawned (x : list json) (st : state) : state :=
  State (request_id st) (pending_responses st) (futures st) (bin_buffer st)
    (bin_expected_size st) (connected st) (synced st) x (outbox st)
    (logbook st).
Definition set_outbox (x : list packet) (st : state) : state :=
  State (request_id st) (pending_responses st) (futures st) (bin_buffer st)
    (bin_expected_size st) (connected st) (synced st) (spawned st) x
    (logbook st).
Definition set_logbook (x : list log_entry) (st : state) : state :=
  State (request_id st) (pending_responses st) (futures st) (bin_buffer st)
    (bin_expected_size st) (connected st) (synced st) (spawned st)
    (outbox st) x.

(** ** Statements: state passing with exceptions

    A statement run from a state ends normally with a value or raises; in
    both cases the mutations made so far stay. *)

Definition M (A : Type) : Type := state -> outcome A * state.

Definition ret {A} (a : A) : M A := fun st => (Return a, st).
Definition raise {A} (e : exn) : M A := fun st => (Raise e, st).
Definition bind {A B} (c : M A) (k : A -> M B) : M B :=
  fun st =>
    match c st with
    | (Return a, st') => k a st'
    | (Raise e, st') => (Raise e, st')
    end.
Definition modify (f : state -> state) : M unit := fun st => (Return tt, f st).
Definition gets {A} (f : state -> A) : M A := fun st => (Return (f st), st).

(** [try: c except <classes in handles>: h e]. *)
Definition try_except {A} (c : M A) (handles : exn_class -> bool)
    (h : exn -> M A) : M A :=
  fun st =>
    match c st with
    | (Return a, st') => (Return a, st')
    | (Raise e, st') =>
        if handles (exn_cls e) then h e st' else (Raise e, st')
    end.

Declare Scope py_scope.
Delimit Scope py_scope with py.
Notation "x <- c ;; k" := (bind c (fun x => k))
  (at level 100, c at next level, right associativity) : py_scope.
Notation "c >> k" := (bind c (fun _ => k))
  (at level 100, right associativity) : py_scope.
Local Open Scope py_scope.

Definition log (e : log_entry) : M unit :=
  modify (fun st => set_logbook (logbook st ++ [e]) st).

Definition write_gatt_char (p : packet) : M unit :=
  modify (fun st => set_outbox (outbox st ++ [p]) st).

Definition next_id : M Z :=
  modify (fun st => set_request_id (request_id st + 1) st) >>
  gets request_id.

(** ** Small pieces of Python the handlers rely on

    The texts of the exceptions are those of CPython 3.12. *)

(** A string literal of the source, written here with ['] for its double
    quotes. *)
Fixpoint sq (s : string) : string :=
  match s with
  | EmptyString => EmptyString
  | String c s' => String (if Ascii.eqb c "'"%char then dquote else c) (sq s')
  end.

Definition type_name (v : json) : string :=
  match v with
  | JNull => "NoneType"
  | JBool _ => "bool"
  | JInt _ => "int"
  | JFloat _ => "float"
  | JStr _ => "str"
  | JList _ => "list"
  | JObj _ => "dict"
  end.

(** [k in pending_responses] hashes [k].  The keys of the table are ints, and
    an int, a bool and a whole float that compare equal are the same key. *)
Definition table_key (k : json) : outcome (option Z) :=
  match k with
  | JInt z => Return (Some z)
  | JBool b => Return (Some (if b then 1 else 0))
  | JFloat f => Return (float_integral f)
  | JStr _ | JNull => Return None
  | JList _ | JObj _ =>
      Raise (Exn TypeError
               (String.append "unhashable type: '"
                  (String.append (type_name k) "'")))
  end.

Definition is_str (k : string) (v : json) : bool :=
  match v with JStr s => String.eqb s k | _ => false end.

Fixpoint is_substring (k s : string) : bool :=
  String.prefix k s
  || match s with
     | EmptyString => false
     | String _ s' => is_substring k s'
     end.

(** [k in data] for a string [k]. *)
Definition py_contains (data : json) (k : string) : outcome bool :=
  match data with
  | JObj d => Return (dict_has k d)
  | JList l => Return (existsb (is_str k) l)
  | JStr s => Return (is_substring k s)
  | _ =>
      Raise (Exn TypeError
               (String.append "argument of type '"
                  (String.append (type_name data) "' is not iterable")))
  end.

(** [data[k]] for a string [k]. *)
Definition py_getitem (data : json) (k : string) : outcome json :=
  match data with
  | JObj d =>
      match dict_get k d with
      | Some v => Return v
      | None => Raise (Exn KeyError (String.append "'" (String.append k "'")))
      end
  | JList _ =>
      Raise (Exn TypeError "list indices must be integers or slices, not str")
  | JStr _ => Raise (Exn TypeError "string indices must be integers, not 'str'")
  | _ =>
      Raise (Exn TypeError
               (String.append "'"
                  (String.append (type_name data)
                     "' object is not subscriptable")))
  end.

(** [data.get(k, dflt)]. *)
Definition py_get (data : json) (k : string) (dflt : json) : outcome json :=
  match data with
  | JObj d => Return (dict_get_default k dflt d)
  | _ =>
      Raise (Exn AttributeError
               (String.append "'"
                  (String.append (type_name data)
                     "' object has no attribute 'get'")))
  end.

Definition lift {A} (o : outcome A) : M A := fun st => (o, st).

(** What [struct.pack("<H", n)] raises outside [0..65535]. *)
Definition struct_error : exn :=
  Exn StructError "'H' format requires 0 <= number <= 65535".

(** [struct.pack("<H", n)] and [struct.unpack("<H", b)[0]]: the low byte
    first. *)
Definition pack_H (n : Z) : outcome (list byte) :=
  if (0 <=? n) && (n <=? 65535) then
    match Byte.of_N (Z.to_N (n mod 256)), Byte.of_N (Z.to_N (n / 256)) with
    | Some lo, Some hi => Return [lo; hi]
    | _, _ => Raise struct_error
    end
  else Raise struct_error.

Definition unpack_H (lo hi : byte) : Z :=
  Z.of_N (Byte.to_N lo) + 256 * Z.of_N (Byte.to_N hi).

Definition len {A} (l : list A) : Z := Z.of_nat (length l).

(** [data[lo:hi]] with Python's treatment of negative and oversized bounds. *)
Definition clamp_index (n i : Z) : Z :=
  if i <? 0 then Z.max (i + n) 0 else Z.min i n.

Definition py_slice {A} (l : list A) (lo hi : Z) : list A :=
  let a := clamp_index (len l) lo in
  let b := clamp_index (len l) hi in
  firstn (Z.to_nat (b - a)) (skipn (Z.to_nat a) l).

Definition PROTOCOL_VERSION : string := "2.7".

Section Bridge.

Variable float_repr : Z -> Z -> string.

Local Abbreviation dumps := (json_dumps float_repr).

(** *** Connection callbacks *)

Definition _on_disconnect : M unit :=
  modify (set_connected false) >>
  modify (set_synced false) >>
  log LogDisconnected.

(** The bytes of a TX notification after [decode] and [json.loads]. *)
Inductive inbound : Type :=
| NotJson (text : string)     (* [json.loads] raised JSONDecodeError *)
| Json (msg : json).

Definition is_fetch_request (msg : json) : bool :=
  match msg with
  | JObj d => dict_has "method" d && dict_has "url" d
  | _ => false
  end.

(** [asyncio.get_event_loop().create_task(self._handle_fetch(msg))] *)
Definition create_task (msg : json) : M unit :=
  modify (fun st => set_spawned (spawned st ++ [msg]) st).

(** [future.set_result(r)] *)
Definition set_result (ref : nat) (status payload : json) : M unit :=
  fun st =>
    match futures st !! ref with
    | Some FPending =>
        (Return tt,
         set_futures (<[ref := FDone status payload]> (futures st)) st)
    | _ => (Raise (Exn InvalidStateError "invalid state"), st)
    end.

(** [rid in pending_responses], giving the entry when there is one. *)
Definition table_find (rid : json) : M (option (Z * nat)) :=
  k <- lift (table_key rid) ;;
  tbl <- gets pending_responses ;;
  ret (match k with
       | Some z => match tbl !! z with
                   | Some ref => Some (z, ref)
                   | None => None
                   end
       | None => None
       end).

Definition _on_tx_notify (data : inbound) : M unit :=
  match data with
  | NotJson text => log (LogRaw text)
  | Json msg =>
      if is_fetch_request msg then create_task msg
      else
        match msg with
        | JList (rid :: status :: rest) =>
            let payload :=
              match rest with p :: _ => p | [] => JObj [] end in
            log (LogRx rid status payload) >>
            found <- table_find rid ;;
            match found with
            | Some (z, ref) =>
                set_result ref status payload >>
                modify (fun st =>
                          set_pending_responses
                            (delete z (pending_responses st)) st)
            | None => ret tt
            end
        | _ => log (LogRxOther msg)
        end
  end.

(** *** Binary chunks from the watch *)

Definition _on_bin_notify (data : list byte) : M unit :=
  match data with
  | lo :: hi :: chunk_data =>
      let chunk_id := unpack_H lo hi in
      (if chunk_id =? 0 then modify (set_bin_buffer []) else ret tt) >>
      modify (fun st => set_bin_buffer (bin_buffer st ++ chunk_data) st) >>
      expected <- gets bin_expected_size ;;
      buf <- gets bin_buffer ;;
      if (0 <? expected) && (expected <=? len buf)
      then log (LogBinaryReceived (len buf) (chunk_id + 1))
      else ret tt
  | _ => ret tt                     (* [len(data) < 2] *)
  end.

(** The completion test of the caller that waits for a transfer. *)
Definition is_complete (st : state) : bool :=
  bin_expected_size st <=? len (bin_buffer st).

(** *** Commands *)

Definition timeout_result : json * json :=
  (JStr "error", JObj [("code", JStr "timeout")]).

(** [send] up to and including the write: the id, and the future when the
    caller waits. *)
Definition send_begin (subsystem cmd : string) (args : json)
    (wait : bool) : M (Z * option nat) :=
  rid <- next_id ;;
  let msg :=
    [JInt rid; JStr subsystem; JStr cmd]
      ++ (if py_truthy args then [args] else []) in
  let text := dumps false (JList msg) in
  log (LogTx rid subsystem cmd (if py_truthy args then args else JList [])) >>
  ref <- (if wait then
            ref <- gets (fun st => length (futures st)) ;;
            modify (fun st => set_futures (futures st ++ [FPending]) st) >>
            modify (fun st =>
                      set_pending_responses
                        (<[rid := ref]> (pending_responses st)) st) >>
            ret (Some ref)
          else ret None) ;;
  write_gatt_char (ToRx text) >>
  ret (rid, ref).

(** The deadline of the call [rid] passes: [wait_for] cancels the future
    and the [except asyncio.TimeoutError] branch runs. *)
Definition on_deadline (rid : Z) : M unit :=
  tbl <- gets pending_responses ;;
  match tbl !! rid with
  | Some ref =>
      modify (fun st => set_futures (<[ref := FCancelled]> (futures st)) st) >>
      modify (fun st =>
                set_pending_responses (delete rid (pending_responses st)) st) >>
      log (LogTimeout rid)
  | None => ret tt                  (* resolved before: the timer is gone *)
  end.

(** One turn of the event loop: a transport callback, the deadline of a
    waiting call, or another task calling [send]. *)
Inductive event : Type :=
| TxNotify (data : inbound)
| BinNotify (data : list byte)
| Disconnect
| Deadline (rid : Z)
| Submit (subsystem cmd : string) (args : json) (wait : bool).

(** What the loop calls for an event. *)
Definition handler (e : event) : M unit :=
  match e with
  | TxNotify data => _on_tx_notify data
  | BinNotify data => _on_bin_notify data
  | Disconnect => _on_disconnect
  | Deadline rid => on_deadline rid
  | Submit subsystem cmd args wait =>
      send_begin subsystem cmd args wait >> ret tt
  end.

(** An exception of a callback is reported by the loop and goes no
    further. *)
Definition handle_event (st : state) (e : event) : state := snd (handler e st).

(** The turns [es], one after the other. *)
Definition run_events (st : state) (es : list event) : state :=
  fold_left handle_event es st.

(** What [await asyncio.wait_for(future, timeout)] gives once the future is
    settled. *)
Definition poll (ref : nat) (st : state) : option (json * json) :=
  match futures st !! ref with
  | Some (FDone status payload) => Some (status, payload)
  | Some FCancelled => Some timeout_result
  | _ => None
  end.

(** The suspended call resumes at the first turn after which its future is
    settled; [None] when the events given do not settle it. *)
Fixpoint await (ref : nat) (es : list event) (st : state)
    : option ((json * json) * state) :=
  match poll ref st with
  | Some r => Some (r, st)
  | None =>
      match es with
      | [] => None
      | e :: es' => await ref es' (handle_event st e)
      end
  end.

(** [send], given the turns of the loop that follow its write; the end of
    its [timeout] is the turn [Deadline rid].  [None]: the call is still
    suspended after the turns given. *)
Definition send (subsystem cmd : string) (args : json) (wait : bool)
    (es : list event) (st : state) : option (outcome (json * json) * state) :=
  match send_begin subsystem cmd args wait st with
  | (Return (_, Some ref), st1) =>
      match await ref es st1 with
      | Some (r, st2) => Some (Return r, st2)
      | None => None
      end
  | (Return (_, None), st1) => Some (Return (JStr "ok", JObj []), st1)
  | (Raise e, st1) => Some (Raise e, st1)
  end.

(** *** Time sync *)

Definition str_eq (v : json) (s : string) : bool :=
  match v with JStr x => String.eqb x s | _ => false end.

(** [sync] after [send] has returned [(status, data)]. *)
Definition sync_end (r : json * json) : M bool :=
  let status := fst r in
  let data := snd r in
  if str_eq status "ok" then
    proto <- lift (py_get data "protocol" (JStr "?")) ;;
    osv <- lift (py_get data "os" (JStr "?")) ;;
    log (LogSynced osv proto) >>
    modify (set_synced true) >>
    ret true
  else
    log (LogSyncFailed data) >>
    ret false.

Definition sync_args (utc tz : string) : json :=
  JList [JStr PROTOCOL_VERSION; JStr utc; JStr tz].

(** [utc] and [tz] are the readings of [get_utc_iso] and
    [get_local_timezone]. *)
Definition sync_begin (utc tz : string) : M (Z * option nat) :=
  log (LogSync utc tz) >>
  send_begin "sys" "sync" (sync_args utc tz) true.

(** [sync], given the turns of the loop that follow the write of its
    command. *)
Definition sync (utc tz : string) (es : list event) (st : state)
    : option (outcome bool * state) :=
  match sync_begin utc tz st with
  | (Return (_, Some ref), st1) =>
      match await ref es st1 with
      | Some (r, st2) => Some (sync_end r st2)
      | None => None
      end
  | (Return (_, None), st1) => Some (sync_end (JStr "ok", JObj []) st1)
  | (Raise e, st1) => Some (Raise e, st1)
  end.

(** *** HTTP proxy *)

(** An inbound fetch request with the field types of the wire interface. *)
Record fetch_request : Type := FetchRequest {
  f_id : json;
  f_method : string;
  f_url : string;
  f_body : option string;
  f_format : option string;
  f_fields : list string
}.

(** What the handler reads of a [requests.Response]; [resp_json] is the
    result of [resp.json()], [None] when it raises [JSONDecodeError]. *)
Record response : Type := Response {
  status_code : Z;
  resp_text : string;
  resp_json : option json
}.

(** [requests.request(method, url, data, headers, timeout=15)]. *)
Definition http_client : Type :=
  string -> string -> option string -> outcome response.

(** The reply is one frame, logged when it is longer than 500 bytes and
    written whole all the same. *)
Definition _send_fetch_response (rid : json) (status : Z) (body : string)
    : M unit :=
  let msg :=
    dumps false
      (JObj [("id", rid); ("status", JInt status); ("body", JStr body)]) in
  (if 500 <? Z.of_nat (String.length msg)
   then log (LogFetchLarge rid (Z.of_nat (String.length msg)))
   else ret tt) >>
  write_gatt_char (ToRx msg).

(** [{k: data[k] for k in fields if k in data}] *)
Fixpoint filter_fields (fields : list string) (data : json) (acc : dict)
    : outcome dict :=
  match fields with
  | [] => Return acc
  | k :: rest =>
      match py_contains data k with
      | Raise e => Raise e
      | Return false => filter_fields rest data acc
      | Return true =>
          match py_getitem data k with
          | Raise e => Raise e
          | Return v => filter_fields rest data (dict_set k v acc)
          end
      end
  end.

(** [resp.json()] *)
Definition call_json (resp : response) : outcome json :=
  match resp_json resp with
  | Some v => Return v
  | None => Raise (Exn JSONDecodeError "Expecting value")
  end.

Definition nonempty {A} (l : list A) : bool :=
  match l with [] => false | _ => true end.

(** [except (json.JSONDecodeError, KeyError)] *)
Definition handles_filter_failure (c : exn_class) : bool :=
  match c with JSONDecodeError | KeyError => true | _ => false end.

(** [body.encode("utf-8") if body else None] *)
Definition request_data (req : fetch_request) : option string :=
  match f_body req with
  | Some b => if String.eqb b "" then None else Some b
  | None => None
  end.

(** [fields and fmt == "json"] *)
Definition wants_filter (req : fetch_request) : bool :=
  nonempty (f_fields req)
  && match f_format req with
     | Some fmt => String.eqb fmt "json"
     | None => false
     end.

(** The body of the [try] statement of [_handle_fetch]. *)
Definition fetch_try (http : http_client) (req : fetch_request) : M unit :=
  resp <- lift (http (f_method req) (f_url req) (request_data req)) ;;
  resp_body <-
    (if wants_filter req then
       try_except
         (parsed <- lift (call_json resp) ;;
          filtered <- lift (filter_fields (f_fields req) parsed []) ;;
          ret (dumps false (JObj filtered)))
         handles_filter_failure
         (fun _ => ret (resp_text resp))
     else ret (resp_text resp)) ;;
  log (LogFetchDone (f_id req) (status_code resp)) >>
  _send_fetch_response (f_id req) (status_code resp) resp_body.

(** [requests_installed] is false when the import of [requests] failed.  The
    two [except] clauses of the statement are one handler: what a clause
    raises is not caught by the other. *)
Definition _handle_fetch (requests_installed : bool) (http : http_client)
    (req : fetch_request) : M unit :=
  let rid := f_id req in
  log (LogFetch rid (f_method req) (f_url req)) >>
  if negb requests_installed then
    _send_fetch_response rid 0 (sq "{'error':'requests not installed'}")
  else
    try_except (fetch_try http req) (fun _ => true)
      (fun e =>
         match exn_cls e with
         | RequestsTimeout =>
             log (LogFetchTimeout rid) >>
             _send_fetch_response rid 408 (sq "{'error':'timeout'}")
         | _ =>
             log (LogFetchError rid (exn_msg e)) >>
             _send_fetch_response rid 0
               (dumps true (JObj [("error", JStr (exn_msg e))]))
         end).

(** The frame of an inbound fetch request and its reading by
    [msg.get(...)]. *)
Definition fetch_request_of (d : dict) : option fetch_request :=
  match dict_get_default "method" (JStr "GET") d,
        dict_get_default "url" (JStr "") d,
        dict_get_default "body" JNull d,
        dict_get_default "format" JNull d,
        dict_get_default "fields" (JList []) d with
  | JStr method, JStr url, body, fmt, JList fields =>
      match (match body with
             | JNull => Some None
             | JStr b => Some (Some b)
             | _ => None
             end),
            (match fmt with
             | JNull => Some None
             | JStr f => Some (Some f)
             | _ => None
             end),
            (foldr (fun v acc =>
                      match v, acc with
                      | JStr k, Some ks => Some (k :: ks)
                      | _, _ => None
                      end) (Some []) fields) with
      | Some b, Some f, Some ks =>
          Some (FetchRequest (dict_get_default "id" (JInt 0) d)
                  method url b f ks)
      | _, _, _ => None
      end
  | _, _, _, _, _ => None
  end.

(** *** Binary push *)

(** The [while offset < total] loop.  [struct.pack] refuses a sequence number
    above 65535, so the loop makes at most 65536 full rounds; [fuel] counts
    the rounds still allowed, and [None] is the answer of a loop that was
    given too few. *)
Fixpoint send_binary_loop (fuel : nat) (data : list byte)
    (chunk_size total offset chunk_id : Z) : M (option Z) :=
  match fuel with
  | O => ret None
  | S fuel' =>
      if offset <? total then
        let e := Z.min (offset + chunk_size) total in
        header <- lift (pack_H chunk_id) ;;
        write_gatt_char (ToBin (header ++ py_slice data offset e)) >>
        send_binary_loop fuel' data chunk_size total e (chunk_id + 1)
      else ret (Some chunk_id)
  end.

Definition send_binary_fuel : nat := Z.to_nat 65537.

Definition send_binary (data : list byte) (chunk_size : Z) : M (option unit) :=
  let total := len data in
  r <- send_binary_loop send_binary_fuel data chunk_size total 0 0 ;;
  match r with
  | Some chunk_id => log (LogBinarySent total chunk_id) >> ret (Some tt)
  | None => ret None
  end.

(** *** The run loop

    [run] and the [connect] it calls are one coroutine; [pc] is the place
    where that coroutine is suspended. *)

Inductive pc : Type :=
| Connecting            (* in [connect], until [client.connect()] is over *)
| Syncing (ref : nat)   (* in [connect], inside [await self.sync()] *)
| RetryWait             (* [asyncio.sleep(5)] after a failed connect *)
| DaemonWait            (* [asyncio.sleep(1)] of [while self.connected] *)
| InCli                 (* [cli_loop], waiting for a line *)
| ReconnectWait         (* [asyncio.sleep(2)] after a lost session *)
| Returned              (* [run] has returned *)
| Crashed (e : exn).    (* [run] has raised *)

(** The pending sleep, in seconds. *)
Definition sleeping (p : pc) : option Z :=
  match p with
  | RetryWait => Some 5
  | DaemonWait => Some 1
  | ReconnectWait => Some 2
  | _ => None
  end.

Inductive cli_input : Type :=
| CliQuit      (* [quit], [exit], [q], end of input *)
| CliOther.    (* any other line, once it has been dealt with *)

Inductive sup_event : Type :=
| Loop (e : event)                    (* a turn of the loop outside [run] *)
| ConnectFails (found : bool)         (* no device found, or connect raised *)
| ConnectSucceeds (utc tz : string)   (* [client.connect()] returned *)
| Wakeup                              (* the pending sleep is over *)
| Cli (c : cli_input).

(** [connect] when [find_device] finds nothing ([found = false]) or when
    [client.connect()] raises: it logs and returns [False]. *)
Definition connect_failed (found : bool) : M bool :=
  (if found then log LogConnecting >> log LogConnectFailed
   else log LogNotFound) >>
  ret false.

(** [connect] once [client.connect()] has returned, up to the point where
    [sync] waits for its answer. *)
Definition connect_up (utc tz : string) : M (Z * option nat) :=
  log LogConnecting >>
  modify (set_connected true) >>
  log LogConnected >>
  sync_begin utc tz.

(** The end of the loop body of [run]: [if not self.connected]. *)
Definition after_session (st : state) : pc * state :=
  if negb (connected st)
  then (ReconnectWait, snd (log LogReconnecting st))
  else (Connecting, st).

(** The test of [while self.connected] in daemon mode. *)
Definition daemon_wait (st : state) : pc * state :=
  if connected st then (DaemonWait, st) else after_session st.

(** [connect] has returned [True]. *)
Definition after_connect (daemon : bool) (st : state) : pc * state :=
  if daemon then daemon_wait (snd (log LogDaemon st))
  else if connected st then (InCli, st) else (Returned, st).

(** [sync] resumes with the result of [send]; then [connect] returns. *)
Definition finish_sync (daemon : bool) (r : json * json) (st : state)
    : pc * state :=
  match sync_end r st with
  | (Return _, st') => after_connect daemon st'
  | (Raise e, st') => (Crashed e, st')
  end.

Definition step (daemon : bool) (s : pc * state) (ev : sup_event)
    : pc * state :=
  let (p, st) := s in
  match ev, p with
  | Loop e, Syncing ref =>
      let st' := handle_event st e in
      match poll ref st' with
      | Some r => finish_sync daemon r st'
      | None => (Syncing ref, st')
      end
  | Loop e, _ => (p, handle_event st e)
  | ConnectFails found, Connecting =>
      (RetryWait, snd ((connect_failed found >> log LogRetry) st))
  | ConnectSucceeds utc tz, Connecting =>
      match connect_up utc tz st with
      | (Return (_, Some ref), st') => (Syncing ref, st')
      | (Return (_, None), st') =>
          finish_sync daemon (JStr "ok", JObj []) st'
      | (Raise e, st') => (Crashed e, st')
      end
  | Wakeup, RetryWait => (Connecting, st)
  | Wakeup, ReconnectWait => (Connecting, st)
  | Wakeup, DaemonWait => daemon_wait st
  | Cli CliQuit, InCli => (Returned, st)
  | Cli CliOther, InCli => if connected st then (InCli, st) else (Returned, st)
  | _, _ => (p, st)
  end.

Definition run (daemon : bool) (evs : list sup_event) (s : pc * state)
    : pc * state :=
  fold_left (step daemon) evs s.

(** The loop runs the oldest task made by [create_task], that is
    [_handle_fetch(msg)].  [None] when no task waits, or when the frame does
    not have the field types of the wire interface. *)
Definition run_fetch_task (requests_installed : bool) (http : http_client)
    (st : state) : option (outcome unit * state) :=
  match spawned st with
  | JObj d :: rest =>
      match fetch_request_of d with
      | Some req =>
          Some (_handle_fetch requests_installed http req
                  (set_spawned rest st))
      | None => None
      end
  | _ => None
  end.

(** *** The reading of the clock *)

(** [f"{n:02d}"] *)
Definition fmt_02d (n : Z) : string :=
  if (0 <=? n) && (n <? 10) then String.append "0" (str_of_int n)
  else str_of_int n.

(** [total_seconds] is [int(offset.total_seconds())] for the offset of the
    local zone. *)
Definition get_local_timezone (total_seconds : Z) : string :=
  let sign := if 0 <=? total_seconds then "+" else "-" in
  let total_seconds := Z.abs total_seconds in
  let hours := total_seconds / 3600 in
  let minutes := (total_seconds mod 3600) / 60 in
  String.append sign
    (String.append (fmt_02d hours) (String.append ":" (fmt_02d minutes))).

(** *** Discovery *)

Definition DEVICE_NAME : string := "FutureClock".

(** What [scan] reads of a device found by [BleakScanner.discover]. *)
Record device : Type := Device {
  address : string;
  name : option string;
  rssi : Z
}.

(** [sorted(devices, key=lambda x: x.rssi, reverse=True)]: the strongest
    signal first, devices of equal strength in the order they came in. *)
Fixpoint insert_by_rssi (d : device) (l : list device) : list device :=
  match l with
  | [] => [d]
  | x :: l' =>
      if rssi x <=? rssi d then d :: l else x :: insert_by_rssi d l'
  end.

Definition sorted_by_rssi (devices : list device) : list device :=
  foldr insert_by_rssi [] devices.

(** [d.name or "?"] *)
Definition display_name (d : device) : string :=
  match name d with
  | Some s => if String.eqb s "" then "?" else s
  | None => "?"
  end.

(** [scan], given the devices discovered: the list [found] it returns. *)
Definition scan (devices : list device) : list string :=
  fold_left
    (fun found d =>
       if is_substring DEVICE_NAME (display_name d)
       then found ++ [address d] else found)
    (sorted_by_rssi devices) [].

(** *** Arguments typed on the command line *)

Section Cli.

(** [int(s)], [float(s)] and [json.loads(s)] are taken as given: [None]
    stands for the [ValueError] they raise on a text they refuse. *)
Variable py_int : string -> option Z.
Variable py_float : string -> option pyfloat.
Variable loads : string -> option json.

(** [s.lower()], as far as a comparison with an ASCII word can tell: the
    letters A to Z; no other character lowers to an ASCII letter of "true"
    or "false". *)
Definition lower_ascii (c : ascii) : ascii :=
  let n := N_of_ascii c in
  if ((65 <=? n) && (n <=? 90))%N then ascii_of_N (n + 32) else c.

Fixpoint lower (s : string) : string :=
  match s with
  | EmptyString => EmptyString
  | String c s' => String (lower_ascii c) (lower s')
  end.

Definition _auto_type (s : string) : json :=
  match py_int s with
  | Some z => JInt z
  | None =>
      match py_float s with
      | Some f => JFloat f
      | None =>
          if String.eqb (lower s) "true" || String.eqb (lower s) "false"
          then JBool (String.eqb (lower s) "true")
          else JStr s
      end
  end.

(** The variables of the loop of [_split_args]. *)
Record split_state : Type := SplitState {
  sp_args : list json;
  sp_current : string;
  sp_in_quote : bool;
  sp_quote_char : option ascii
}.

(** [ch] is one of the two quote characters, double or single. *)
Definition is_quote (ch : ascii) : bool :=
  Ascii.eqb ch dquote || Ascii.eqb ch "'"%char.

Definition str_truthy (s : string) : bool := negb (String.eqb s "").

(** One round of [for ch in raw]. *)
Definition split_step (s : split_state) (ch : ascii) : split_state :=
  if sp_in_quote s then
    if match sp_quote_char s with
       | Some q => Ascii.eqb ch q
       | None => false
       end
    then SplitState (sp_args s) (sp_current s) false (sp_quote_char s)
    else SplitState (sp_args s) (String.append (sp_current s) (str1 ch))
           true (sp_quote_char s)
  else if is_quote ch then
    SplitState (sp_args s) (sp_current s) true (Some ch)
  else if Ascii.eqb ch " "%char then
    if str_truthy (sp_current s)
    then SplitState (sp_args s ++ [_auto_type (sp_current s)]) ""
           false (sp_quote_char s)
    else s
  else
    SplitState (sp_args s) (String.append (sp_current s) (str1 ch))
      false (sp_quote_char s).

Fixpoint split_scan (raw : string) (s : split_state) : split_state :=
  match raw with
  | EmptyString => s
  | String ch raw' => split_scan raw' (split_step s ch)
  end.

(** The statements after the loop. *)
Definition split_flush (s : split_state) : list json :=
  if str_truthy (sp_current s)
  then sp_args s ++ [_auto_type (sp_current s)]
  else sp_args s.

Definition _split_args (raw : string) : list json :=
  split_flush (split_scan raw (SplitState [] "" false None)).

(** *** The command line *)

(** What the command line does besides sending: the lines it prints and the
    file it writes.  The name of the file is made of the four values [w],
    [h], [color] and [fmt]. *)
Inductive cli_effect : Type :=
| SayUsage
| SayPushUsage
| SayNotFound
| SayNoFiles
| SayPush (app_name : string) (count : Z)
| SayPushRejected (data : json)
| SayPushComplete (app_name : string) (total : Z)
| SayExpecting (size : Z)
| WriteFile (w h color fmt : json) (content : list byte)
| SaySaved (w h color fmt : json) (size : Z)
| SayIncomplete (have want : Z).

(** What the file system holds at the path given to [_push_app]: nothing, or
    the name of the application and its files, name and content (one file
    for a path that is a file, the regular files of a directory in sorted
    order otherwise). *)
Inductive push_source : Type :=
| NoSuchPath
| Found (app_name : string) (files : list (string * list byte)).

(** [{name: len(data) for name, data in files}] *)
Definition files_obj (files : list (string * list byte)) : dict :=
  fold_left (fun acc f => dict_set (fst f) (JInt (len (snd f))) acc) files [].

(** The arguments of the command "app push". *)
Definition push_args (app_name : string) (files : list (string * list byte))
    : json :=
  match files with
  | [(fname, fdata)] =>
      JList [JStr app_name; JStr fname; JStr (str_of_int (len fdata))]
  | _ =>
      JList [JStr app_name; JStr "*";
             JStr (dumps true (JObj (files_obj files)))]
  end.

(** [for _, fdata in files: blob.extend(fdata)] *)
Definition blob_of (files : list (string * list byte)) : list byte :=
  fold_left (fun blob f => blob ++ snd f) files [].

(** [_push_app], given what the path holds and the turns of the loop that
    follow the write of the command.  [None]: still suspended. *)
Definition _push_app (src : push_source) (es : list event) (st : state)
    : option (outcome (list cli_effect) * state) :=
  match src with
  | NoSuchPath => Some (Return [SayNotFound], st)
  | Found app_name files =>
      if negb (nonempty files) then Some (Return [SayNoFiles], st)
      else
        match send "app" "push" (push_args app_name files) true es st with
        | None => None
        | Some (Raise e, st1) => Some (Raise e, st1)
        | Some (Return (status, data), st1) =>
            if negb (str_eq status "ok") then
              Some (Return [SayPush app_name (len files);
                            SayPushRejected data], st1)
            else
              match send_binary (blob_of files) 250 st1 with
              | (Return (Some _), st2) =>
                  Some (Return [SayPush app_name (len files);
                                SayPushComplete app_name
                                  (len (blob_of files))], st2)
              | (Return None, _) => None
              | (Raise e, st2) => Some (Raise e, st2)
              end
        end
  end.

(** The arguments read from the third part of the line.  [None] when
    [json.loads] gives something else than a list, which it never does for a
    text that starts with a bracket. *)
Definition cli_args (raw : string) : option (list json) :=
  if String.prefix "[" raw then
    match loads raw with
    | Some (JList l) => Some l
    | Some _ => None
    | None => Some [JStr raw]
    end
  else Some (_split_args raw).

(** The loop [for _ in range(100)] that waits for the chunks: [polls] holds
    the turns of the event loop during each sleep of 0.1 s.  [None]: still
    waiting after the sleeps given. *)
Fixpoint wait_binary (rounds : nat) (polls : list (list event)) (st : state)
    : option state :=
  match rounds with
  | O => Some st
  | S rounds' =>
      match polls with
      | [] => None
      | es :: polls' =>
          let st' := run_events st es in
          if is_complete st' then Some st'
          else wait_binary rounds' polls' st'
      end
  end.

(** [_exec_cli] after [send] has returned [(status, data)].  [None]: the
    value under "bytes" is not an int, or the wait is not over. *)
Definition exec_cli_end (status data : json) (polls : list (list event))
    (st : state) : option (outcome (list cli_effect) * state) :=
  if negb (str_eq status "ok") then Some (Return [], st)
  else
    match py_contains data "bytes" with
    | Raise e => Some (Raise e, st)
    | Return false => Some (Return [], st)
    | Return true =>
        match py_getitem data "bytes" with
        | Raise e => Some (Raise e, st)
        | Return (JInt size) =>
            match wait_binary 100 polls (set_bin_expected_size size st) with
            | None => None
            | Some st' =>
                if is_complete st' then
                  match py_get data "w" (JInt 0), py_get data "h" (JInt 0),
                        py_get data "color" (JStr "rgb16"),
                        py_get data "format" (JStr "raw") with
                  | Return w, Return h, Return color, Return fmt =>
                      Some (Return
                              [SayExpecting size;
                               WriteFile w h color fmt
                                 (py_slice (bin_buffer st') 0 size);
                               SaySaved w h color fmt size], st')
                  | Raise e, _, _, _ | _, Raise e, _, _
                  | _, _, Raise e, _ | _, _, _, Raise e =>
                      Some (Raise e, st')
                  end
                else
                  Some (Return [SayExpecting size;
                                SayIncomplete (len (bin_buffer st')) size],
                        st')
            end
        | Return _ => None
        end
    end.

(** [_exec_cli], given [parts], the result of [line.split(None, 2)], what
    the file system holds at a path, the turns of the loop that follow the
    write of the command and the turns during the sleeps of the wait. *)
Definition _exec_cli (fs : json -> outcome push_source) (parts : list string)
    (es : list event) (polls : list (list event)) (st : state)
    : option (outcome (list cli_effect) * state) :=
  match parts with
  | subsystem :: cmd :: more =>
      match (match more with
             | raw :: _ => cli_args raw
             | [] => Some []
             end) with
      | None => None
      | Some args =>
          if String.eqb subsystem "app" && String.eqb cmd "push" then
            match args with
            | app_dir :: _ =>
                match fs app_dir with
                | Return src => _push_app src es st
                | Raise e => Some (Raise e, st)
                end
            | [] => Some (Return [SayPushUsage], st)
            end
          else
            let screen := String.eqb subsystem "sys" && String.eqb cmd "screen" in
            let args :=
              if screen && negb (nonempty args) then [JStr "rgb16"]
              else args in
            let st0 :=
              if screen then set_bin_buffer [] (set_bin_expected_size 0 st)
              else st in
            match send subsystem cmd
                    (if nonempty args then JList args else JNull) true es st0
            with
            | None => None
            | Some (Raise e, st1) => Some (Raise e, st1)
            | Some (Return (status, data), st1) =>
                exec_cli_end status data polls st1
            end
      end
  | _ => Some (Return [SayUsage], st)      (* [len(parts) < 2] *)
  end.

End Cli.

(** ** The bridge when a line does not print, a text does not encode or the
       link refuses a write

    The definitions above follow the source on traffic whose log lines print
    and whose texts encode, over a link that takes every write, and they let
    the deadline of a call cancel its future and run the [except] branch in
    one turn.  The definitions below, named after the function with the
    suffix [_full], drop these readings: [print] and [str.encode] raise
    [UnicodeEncodeError] on a lone surrogate, which [json.loads] makes of an
    escape such as [\ud83d]; [write_gatt_char] may raise; and the future of a
    call that runs out of time is cancelled some turns before the call
    resumes and removes its entry. *)

(** *** Lone surrogates *)

Definition surrogate (n : Z) : bool := (55296 <=? n) && (n <=? 57343).

Definition has_surrogate (s : string) : bool :=
  existsb surrogate (code_points s).

(** The number of surrogates at the head of [cps]. *)
Fixpoint surrogates_ahead (cps : list Z) : Z :=
  match cps with
  | n :: rest => if surrogate n then 1 + surrogates_ahead rest else 0
  | [] => 0
  end.

(** The first surrogate among [cps], its index counted from [i], and the
    index of the last surrogate of the run it starts. *)
Fixpoint first_surrogate (cps : list Z) (i : Z) : option (Z * Z * Z) :=
  match cps with
  | [] => None
  | n :: rest =>
      if surrogate n then Some (n, i, i + surrogates_ahead rest)
      else first_surrogate rest (i + 1)
  end.

(** [str(e)] for the [UnicodeEncodeError] of the codec. *)
Definition encode_error_text (n first last : Z) : string :=
  if first =? last then
    String.concat ""
      ["'utf-8' codec can't encode character '"; u_escape n;
       "' in position "; str_of_int first; ": surrogates not allowed"]
  else
    String.concat ""
      ["'utf-8' codec can't encode characters in position ";
       str_of_int first; "-"; str_of_int last; ": surrogates not allowed"].

(** [s.encode("utf-8")] *)
Definition encode_utf8 (s : string) : outcome string :=
  match first_surrogate (code_points s) 0 with
  | None => Return s
  | Some (n, i, j) => Raise (Exn UnicodeEncodeError (encode_error_text n i j))
  end.

(** *** Log lines

    What an f-string puts into a line: a value formatted by [str], a text, or
    the first [n] characters of a text.  [str] of a string is the string
    itself; [str] of any other value is its [repr], in which a surrogate is
    written as an escape. *)
Inductive piece : Type :=
| Fmt (v : json)
| Text (s : string)
| Cut (n : nat) (s : string).

Definition piece_prints (p : piece) : bool :=
  match p with
  | Fmt (JStr s) => negb (has_surrogate s)
  | Fmt _ => true
  | Text s => negb (has_surrogate s)
  | Cut n s => negb (existsb surrogate (firstn n (code_points s)))
  end.

Definition prints (line : list piece) : bool := forallb piece_prints line.

(** What [print] raises on a line with a lone surrogate.  The message of the
    exception names the place of the surrogate in the line; no statement of
    the program reads it, and it is left at the reason the codec gives. *)
Definition print_error : exn :=
  Exn UnicodeEncodeError "surrogates not allowed".

(** [log(tag, f"...")]: the line is printed whole or not at all. *)
Definition log_full (line : list piece) (e : log_entry) : M unit :=
  if prints line then log e else raise print_error.

(** [await self.client.write_gatt_char(...)]; [link] is the exception the
    call ends with when the link refuses the write. *)
Definition write_full (link : option exn) (p : packet) : M unit :=
  match link with
  | None => write_gatt_char p
  | Some e => raise e
  end.

(** *** The TX callback *)

Definition _on_tx_notify_full (data : inbound) : M unit :=
  match data with
  | NotJson text => log_full [Cut 120 text] (LogRaw text)
  | Json msg =>
      if is_fetch_request msg then create_task msg
      else
        match msg with
        | JList (rid :: status :: rest) =>
            let payload :=
              match rest with p :: _ => p | [] => JObj [] end in
            log_full [Fmt rid; Fmt status; Cut 200 (dumps false payload)]
              (LogRx rid status payload) >>
            found <- table_find rid ;;
            match found with
            | Some (z, ref) =>
                set_result ref status payload >>
                modify (fun st =>
                          set_pending_responses
                            (delete z (pending_responses st)) st)
            | None => ret tt
            end
        | _ => log_full [Cut 200 (dumps false msg)] (LogRxOther msg)
        end
  end.

(** *** Commands *)

(** [send] up to and including the write.  The entry is in the table when
    the text is encoded and handed to the link. *)
Definition send_begin_full (subsystem cmd : string) (args : json)
    (wait : bool) (link : option exn) : M (Z * option nat) :=
  rid <- next_id ;;
  let msg :=
    [JInt rid; JStr subsystem; JStr cmd]
      ++ (if py_truthy args then [args] else []) in
  let text := dumps false (JList msg) in
  let shown := if py_truthy args then args else JList [] in
  log_full [Fmt (JInt rid); Text subsystem; Text cmd;
            Cut 120 (dumps false shown)]
    (LogTx rid subsystem cmd shown) >>
  ref <- (if wait then
            ref <- gets (fun st => length (futures st)) ;;
            modify (fun st => set_futures (futures st ++ [FPending]) st) >>
            modify (fun st =>
                      set_pending_responses
                        (<[rid := ref]> (pending_responses st)) st) >>
            ret (Some ref)
          else ret None) ;;
  encoded <- lift (encode_utf8 text) ;;
  write_full link (ToRx encoded) >>
  ret (rid, ref).

(** The time of the call [rid] is up: [wait_for] cancels its future.  The
    call itself resumes in a later turn. *)
Definition on_cancel (rid : Z) : M unit :=
  tbl <- gets pending_responses ;;
  match tbl !! rid with
  | Some ref =>
      futs <- gets futures ;;
      match futs !! ref with
      | Some FPending =>
          modify (fun st =>
                    set_futures (<[ref := FCancelled]> (futures st)) st)
      | _ => ret tt                 (* settled before: nothing to cancel *)
      end
  | None => ret tt
  end.

(** The call [rid], its future cancelled, resumes in its
    [except asyncio.TimeoutError] branch. *)
Definition on_expire (rid : Z) : M unit :=
  tbl <- gets pending_responses ;;
  match tbl !! rid with
  | Some ref =>
      futs <- gets futures ;;
      match futs !! ref with
      | Some FCancelled =>
          modify (fun st =>
                    set_pending_responses
                      (delete rid (pending_responses st)) st) >>
          log (LogTimeout rid)
      | _ => ret tt                 (* no call waits in that branch *)
      end
  | None => ret tt
  end.

(** One turn of the event loop. *)
Inductive turn : Type :=
| Tx (data : inbound)
| Bin (data : list byte)
| Lost
| Cancel (rid : Z)
| Expire (rid : Z)
| Call (subsystem cmd : string) (args : json) (wait : bool)
       (link : option exn).

Definition handler_full (t : turn) : M unit :=
  match t with
  | Tx data => _on_tx_notify_full data
  | Bin data => _on_bin_notify data
  | Lost => _on_disconnect
  | Cancel rid => on_cancel rid
  | Expire rid => on_expire rid
  | Call subsystem cmd args wait link =>
      send_begin_full subsystem cmd args wait link >> ret tt
  end.

(** An exception of a callback is reported by the loop and goes no
    further. *)
Definition handle_turn (st : state) (t : turn) : state :=
  snd (handler_full t st).

Definition run_turns (st : state) (ts : list turn) : state :=
  fold_left handle_turn ts st.

(** What the call waiting on the future [ref] under the id [rid] resumes
    with: the result of the future, or the timeout once the [except] branch
    has removed the entry. *)
Definition poll_full (ref : nat) (rid : Z) (st : state)
    : option (json * json) :=
  match futures st !! ref with
  | Some (FDone status payload) => Some (status, payload)
  | Some FCancelled =>
      match pending_responses st !! rid with
      | Some _ => None
      | None => Some timeout_result
      end
  | _ => None
  end.

Fixpoint await_full (ref : nat) (rid : Z) (ts : list turn) (st : state)
    : option ((json * json) * state) :=
  match poll_full ref rid st with
  | Some r => Some (r, st)
  | None =>
      match ts with
      | [] => None
      | t :: ts' => await_full ref rid ts' (handle_turn st t)
      end
  end.

(** [send], given the turns of the loop that follow its write.  [None]: the
    call is still suspended after the turns given. *)
Definition send_full (subsystem cmd : string) (args : json) (wait : bool)
    (link : option exn) (ts : list turn) (st : state)
    : option (outcome (json * json) * state) :=
  match send_begin_full subsystem cmd args wait link st with
  | (Return (rid, Some ref), st1) =>
      match await_full ref rid ts st1 with
      | Some (r, st2) => Some (Return r, st2)
      | None => None
      end
  | (Return (_, None), st1) => Some (Return (JStr "ok", JObj []), st1)
  | (Raise e, st1) => Some (Raise e, st1)
  end.

(** *** Time sync *)

(** [sync] after [send] has returned: the line is printed before the flag is
    set. *)
Definition sync_end_full (r : json * json) : M bool :=
  let status := fst r in
  let data := snd r in
  if str_eq status "ok" then
    proto <- lift (py_get data "protocol" (JStr "?")) ;;
    osv <- lift (py_get data "os" (JStr "?")) ;;
    log_full [Fmt osv; Fmt proto] (LogSynced osv proto) >>
    modify (set_synced true) >>
    ret true
  else
    log_full [Fmt data] (LogSyncFailed data) >>
    ret false.

Definition sync_begin_full (utc tz : string) (link : option exn)
    : M (Z * option nat) :=
  log_full [Text utc; Text tz] (LogSync utc tz) >>
  send_begin_full "sys" "sync" (sync_args utc tz) true link.

Definition sync_full (utc tz : string) (link : option exn) (ts : list turn)
    (st : state) : option (outcome bool * state) :=
  match sync_begin_full utc tz link st with
  | (Return (rid, Some ref), st1) =>
      match await_full ref rid ts st1 with
      | Some (r, st2) => Some (sync_end_full r st2)
      | None => None
      end
  | (Return (_, None), st1) => Some (sync_end_full (JStr "ok", JObj []) st1)
  | (Raise e, st1) => Some (Raise e, st1)
  end.

(** *** HTTP proxy *)

(** The text is encoded before its length is looked at and before the
    write. *)
Definition _send_fetch_response_full (rid : json) (status : Z)
    (body : string) (link : option exn) : M unit :=
  let msg :=
    dumps false
      (JObj [("id", rid); ("status", JInt status); ("body", JStr body)]) in
  encoded <- lift (encode_utf8 msg) ;;
  (if 500 <? Z.of_nat (String.length encoded)
   then log_full [Fmt rid; Fmt (JInt (Z.of_nat (String.length encoded)))]
          (LogFetchLarge rid (Z.of_nat (String.length encoded)))
   else ret tt) >>
  write_full link (ToRx encoded).

(** [body.encode("utf-8") if body else None] *)
Definition request_data_full (req : fetch_request) : M (option string) :=
  match f_body req with
  | Some b =>
      if String.eqb b "" then ret None
      else encoded <- lift (encode_utf8 b) ;; ret (Some encoded)
  | None => ret None
  end.

(** The body of the [try] statement of [_handle_fetch]; [link] answers the
    write of the reply. *)
Definition fetch_try_full (http : http_client) (req : fetch_request)
    (link : option exn) : M unit :=
  data <- request_data_full req ;;
  resp <- lift (http (f_method req) (f_url req) data) ;;
  resp_body <-
    (if wants_filter req then
       try_except
         (parsed <- lift (call_json resp) ;;
          filtered <- lift (filter_fields (f_fields req) parsed []) ;;
          ret (dumps false (JObj filtered)))
         handles_filter_failure
         (fun _ => ret (resp_text resp))
     else ret (resp_text resp)) ;;
  log_full [Fmt (f_id req); Fmt (JInt (status_code resp));
            Fmt (JInt (len (code_points resp_body)))]
    (LogFetchDone (f_id req) (status_code resp)) >>
  _send_fetch_response_full (f_id req) (status_code resp) resp_body link.

(** The first line is printed before the [try]; what the [try] raises, the
    failure of its own write included, is answered by a second write, which
    [link2] answers. *)
Definition _handle_fetch_full (requests_installed : bool)
    (http : http_client) (req : fetch_request) (link1 link2 : option exn)
    : M unit :=
  let rid := f_id req in
  log_full [Fmt rid; Text (f_method req); Cut 80 (f_url req)]
    (LogFetch rid (f_method req) (f_url req)) >>
  if negb requests_installed then
    _send_fetch_response_full rid 0 (sq "{'error':'requests not installed'}")
      link1
  else
    try_except (fetch_try_full http req link1) (fun _ => true)
      (fun e =>
         match exn_cls e with
         | RequestsTimeout =>
             log_full [Fmt rid] (LogFetchTimeout rid) >>
             _send_fetch_response_full rid 408 (sq "{'error':'timeout'}")
               link2
         | _ =>
             log_full [Fmt rid; Text (exn_msg e)]
               (LogFetchError rid (exn_msg e)) >>
             _send_fetch_response_full rid 0
               (dumps true (JObj [("error", JStr (exn_msg e))])) link2
         end).

(** [url[:80]] in the first line, for whatever the frame holds under "url".
    A dict refuses the slice as a key: with a [TypeError] up to CPython 3.11,
    which is the text given here, and with a [KeyError] from 3.12 on. *)
Definition url_piece (url : json) : outcome piece :=
  match url with
  | JStr s => Return (Cut 80 s)
  | JList l => Return (Fmt (JList (firstn 80 l)))
  | JObj _ => Raise (Exn TypeError "unhashable type: 'slice'")
  | _ =>
      Raise (Exn TypeError
               (String.append "'"
                  (String.append (type_name url)
                     "' object is not subscriptable")))
  end.

(** The loop runs the oldest task made by [create_task].  The first line of
    the handler is evaluated for any frame; [None] when no task waits, or
    when the frame gets past that line without having the field types of the
    wire interface. *)
Definition run_fetch_task_full (requests_installed : bool)
    (http : http_client) (link1 link2 : option exn) (st : state)
    : option (outcome unit * state) :=
  match spawned st with
  | JObj d :: rest =>
      match url_piece (dict_get_default "url" (JStr "") d) with
      | Raise e => Some (Raise e, set_spawned rest st)
      | Return _ =>
          match fetch_request_of d with
          | Some req =>
              Some (_handle_fetch_full requests_installed http req
                      link1 link2 (set_spawned rest st))
          | None => None
          end
      end
  | _ => None
  end.

(** *** The run loop *)

(** The places where [run] is suspended; the wait of [sync] knows the id and
    the future of its command. *)
Inductive pc_full : Type :=
| AtConnect
| AtSync (ref : nat) (rid : Z)
| AtRetry
| AtDaemon
| AtCli
| AtReconnect
| Over
| Failed (e : exn).

Inductive cli_line : Type :=
| Leave                          (* [quit], [exit], [q], end of input *)
| Entered (raised : option exn). (* any other line, once its command is over;
                                    [raised]: what the command ended with *)

Inductive sup_turn : Type :=
| Turn (t : turn)                 (* a turn of the loop outside [run] *)
| FindRaises (e : exn)            (* [find_device] raises *)
| NoLink (found : bool)           (* no device found, or connect raised *)
| Linked (notify : option exn) (utc tz : string) (link : option exn)
                                  (* [client.connect()] returned; [notify]:
                                     what [start_notify] raises, if it does *)
| Awake                           (* the pending sleep is over *)
| Line (c : cli_line).

(** [connect] once [client.connect()] has returned, up to the point where
    [sync] waits for its answer; neither [start_notify] nor [sync] is inside
    a [try]. *)
Definition connect_up_full (notify : option exn) (utc tz : string)
    (link : option exn) : M (Z * option nat) :=
  log LogConnecting >>
  modify (set_connected true) >>
  log LogConnected >>
  match notify with
  | Some e => raise e
  | None => sync_begin_full utc tz link
  end.

Definition after_session_full (st : state) : pc_full * state :=
  if negb (connected st)
  then (AtReconnect, snd (log LogReconnecting st))
  else (AtConnect, st).

Definition daemon_wait_full (st : state) : pc_full * state :=
  if connected st then (AtDaemon, st) else after_session_full st.

Definition after_connect_full (daemon : bool) (st : state)
    : pc_full * state :=
  if daemon then daemon_wait_full (snd (log LogDaemon st))
  else if connected st then (AtCli, st) else (Over, st).

Definition finish_sync_full (daemon : bool) (r : json * json) (st : state)
    : pc_full * state :=
  match sync_end_full r st with
  | (Return _, st') => after_connect_full daemon st'
  | (Raise e, st') => (Failed e, st')
  end.

Definition step_full (daemon : bool) (s : pc_full * state) (ev : sup_turn)
    : pc_full * state :=
  let (p, st) := s in
  match ev, p with
  | Turn t, AtSync ref rid =>
      let st' := handle_turn st t in
      match poll_full ref rid st' with
      | Some r => finish_sync_full daemon r st'
      | None => (AtSync ref rid, st')
      end
  | Turn t, _ => (p, handle_turn st t)
  | FindRaises e, AtConnect => (Failed e, st)
  | NoLink found, AtConnect =>
      (AtRetry, snd ((connect_failed found >> log LogRetry) st))
  | Linked notify utc tz link, AtConnect =>
      match connect_up_full notify utc tz link st with
      | (Return (rid, Some ref), st') => (AtSync ref rid, st')
      | (Return (_, None), st') =>
          finish_sync_full daemon (JStr "ok", JObj []) st'
      | (Raise e, st') => (Failed e, st')
      end
  | Awake, AtRetry => (AtConnect, st)
  | Awake, AtReconnect => (AtConnect, st)
  | Awake, AtDaemon => daemon_wait_full st
  | Line Leave, AtCli => (Over, st)
  | Line (Entered (Some e)), AtCli => (Failed e, st)
  | Line (Entered None), AtCli =>
      if connected st then (AtCli, st) else (Over, st)
  | _, _ => (p, st)
  end.

Definition run_full (daemon : bool) (evs : list sup_turn)
    (s : pc_full * state) : pc_full * state :=
  fold_left (step_full daemon) evs s.

(** ** Notions used to state the properties *)

(** The binary notifications [frames], delivered in order. *)
Definition feed (frames : list (list byte)) (st : state) : state :=
  fold_left (fun s d => snd (_on_bin_notify d s)) frames st.

(** [msg[2] if len(msg) > 2 else {}], for [msg = [rid, status] + rest]. *)
Definition payload_of (rest : list json) : json :=
  match rest with p :: _ => p | [] => JObj [] end.

(** The number of chunks, [ceil(n / c)]. *)
Definition chunk_count (n c : Z) : Z := (n + c - 1) / c.

(** The first [k] consecutive [c]-byte slices of [data]. *)
Fixpoint chunks (k c : nat) (data : list byte) : list (list byte) :=
  match k with
  | O => []
  | S k' => firstn c data :: chunks k' c (skipn c data)
  end.

(** The byte with value [z], for [0 <= z < 256]. *)
Definition byte_of (z : Z) : byte :=
  match Byte.of_N (Z.to_N z) with Some b => b | None => x00 end.

(** The two bytes of a sequence number, low byte first. *)
Definition le16 (i : Z) : list byte := [byte_of (i mod 256); byte_of (i / 256)].

(** The packets for a list of payloads, numbered from [i] upwards. *)
Fixpoint numbered (i : Z) (payloads : list (list byte)) : list packet :=
  match payloads with
  | [] => []
  | p :: ps => ToBin (le16 i ++ p) :: numbered (i + 1) ps
  end.

(** The frame [_send_fetch_response] writes. *)
Definition reply_frame (rid : json) (status : Z) (body : string) : packet :=
  ToRx (dumps false
          (JObj [("id", rid); ("status", JInt status); ("body", JStr body)])).

(** A state after some more log lines and some more writes. *)
Definition emit (entries : list log_entry) (packets : list packet)
    (st : state) : state :=
  set_outbox (outbox st ++ packets) (set_logbook (logbook st ++ entries) st).

(** The comprehension over an object: the listed keys it has, in the order of
    the list. *)
Definition select_fields (fields : list string) (d : dict) : dict :=
  fold_left
    (fun acc k =>
       match dict_get k d with
       | Some v => dict_set k v acc
       | None => acc
       end) fields [].

(** What keeps the table and the futures in step: an id in the table leads to
    a future that is still pending, no future is waited for under two ids, and
    no id in the table is ahead of the counter. *)
Definition table_inv (counter : Z) (tbl : gmap Z nat) (futs : list future)
    : Prop :=
  (forall rid ref, tbl !! rid = Some ref -> futs !! ref = Some FPending)
  /\ (forall r1 r2 ref, tbl !! r1 = Some ref -> tbl !! r2 = Some ref -> r1 = r2)
  /\ (forall rid ref, tbl !! rid = Some ref -> rid <= counter).

Definition table_ok (st : state) : Prop :=
  table_inv (request_id st) (pending_responses st) (futures st).

(** The events that settle the call with id [rid]: its deadline, and a
    response frame whose first element is that id. *)
Definition settles (rid : Z) (e : event) : bool :=
  match e with
  | Deadline r => r =? rid
  | TxNotify (Json (JList (k :: _ :: _))) =>
      match table_key k with
      | Return (Some z) => z =? rid
      | _ => false
      end
  | _ => false
  end.

(** [isinstance(v, dict)] *)
Definition is_obj (v : json) : bool :=
  match v with JObj _ => true | _ => false end.

(** The examples carry no float, so the text chosen here for
    [float.__repr__] is never asked for. *)
Definition no_float_repr (m e : Z) : string := "".

(** An HTTP collaborator that answers every request with [resp]. *)
Definition example_http (resp : response) : http_client :=
  fun _ _ _ => Return resp.

(** A daemon session: a failed connect, a connect with a good handshake, a
    lost link. *)
Definition example_session : list sup_event :=
  [ConnectFails false; Wakeup;
   ConnectSucceeds "2026-01-01T00:00:00Z" "+03:00";
   Loop (TxNotify (Json (JList [JInt 1; JStr "ok";
                                JObj [("protocol", JStr "2.7")]])));
   Wakeup;
   Loop Disconnect;
   Wakeup; Wakeup].

(** A fetch request of the watch and an answer of the HTTP server. *)
Definition example_fetch_frame : json :=
  JObj [("id", JInt 3); ("method", JStr "GET");
        ("url", JStr "http://example.org/abc"); ("format", JStr "json");
        ("fields", JList [JStr "a"; JStr "b"])].

Definition example_response : response :=
  Response 200 (sq "{'a':1,'b':2,'c':3}")
    (Some (JObj [("a", JInt 1); ("b", JInt 2); ("c", JInt 3)])).

(** The frames of the binary channel among what was written. *)
Definition bin_frames (ps : list packet) : list (list byte) :=
  flat_map (fun p => match p with ToBin d => [d] | ToRx _ => [] end) ps.

(** The decimal digit of [n], and the two decimal digits of [n]. *)
Definition digit (n : Z) : ascii := ascii_of_N (48 + Z.to_N n).

Definition two_digits (n : Z) : string :=
  String (digit (n / 10)) (String (digit (n mod 10)) EmptyString).

(** A text without the character [q]. *)
Fixpoint lacks (q : ascii) (s : string) : bool :=
  match s with
  | EmptyString => true
  | String c s' => negb (Ascii.eqb c q) && lacks q s'
  end.

(** A text without quote characters and spaces. *)
Fixpoint plain (s : string) : bool :=
  match s with
  | EmptyString => true
  | String c s' => negb (is_quote c) && negb (Ascii.eqb c " "%char) && plain s'
  end.

(** Stand-ins for [int(s)] and [float(s)] in the examples: the first reads
    the numerals made of decimal digits only, the second refuses every
    text. *)
Fixpoint digits_value (s : string) (acc : Z) : option Z :=
  match s with
  | EmptyString => Some acc
  | String c s' =>
      let n := code c in
      if (48 <=? n) && (n <=? 57) then digits_value s' (10 * acc + (n - 48))
      else None
  end.

Definition example_int (s : string) : option Z :=
  if String.eqb s "" then None else digits_value s 0.

Definition example_float (s : string) : option pyfloat := None.

(** The devices [scan] looks for. *)
Definition named (d : device) : bool :=
  is_substring DEVICE_NAME (display_name d).

(** Devices in order of signal strength, the strongest first. *)
Fixpoint descending (l : list device) : Prop :=
  match l with
  | [] => True
  | d :: l' => Forall (fun x => rssi x <= rssi d) l' /\ descending l'
  end.

(** The line [_on_tx_notify] prints for a notification; a fetch request is
    handed to a task without a line. *)
Definition tx_line (data : inbound) : list piece :=
  match data with
  | NotJson text => [Cut 120 text]
  | Json msg =>
      if is_fetch_request msg then []
      else
        match msg with
        | JList (rid :: status :: rest) =>
            [Fmt rid; Fmt status; Cut 200 (dumps false (payload_of rest))]
        | _ => [Cut 200 (dumps false msg)]
        end
  end.

(** The text [send] writes for a command, and the line it prints. *)
Definition command_text (rid : Z) (subsystem cmd : string) (args : json)
    : string :=
  dumps false
    (JList ([JInt rid; JStr subsystem; JStr cmd]
              ++ (if py_truthy args then [args] else []))).

Definition command_line (rid : Z) (subsystem cmd : string) (args : json)
    : list piece :=
  [Fmt (JInt rid); Text subsystem; Text cmd;
   Cut 120 (dumps false (if py_truthy args then args else JList []))].

(** A command that [send] can log and encode in the state [st]. *)
Definition sendable (st : state) (subsystem cmd : string) (args : json)
    : Prop :=
  prints (command_line (request_id st + 1) subsystem cmd args) = true
  /\ has_surrogate (command_text (request_id st + 1) subsystem cmd args)
     = false.

(** The table and the futures in step when the time of a call may be up: an
    id in the table leads to a future that is pending, or cancelled while its
    call has not resumed yet; no future is waited for under two ids, and no id
    in the table is ahead of the counter. *)
Definition table_inv_full (counter : Z) (tbl : gmap Z nat)
    (futs : list future) : Prop :=
  (forall rid ref,
      tbl !! rid = Some ref ->
      futs !! ref = Some FPending \/ futs !! ref = Some FCancelled)
  /\ (forall r1 r2 ref, tbl !! r1 = Some ref -> tbl !! r2 = Some ref -> r1 = r2)
  /\ (forall rid ref, tbl !! rid = Some ref -> rid <= counter).

Definition table_ok_full (st : state) : Prop :=
  table_inv_full (request_id st) (pending_responses st) (futures st).

(** The turns that leave the call [rid] as it is while its future is [f]:
    when pending, every turn but the end of its time and a response frame
    with its id whose line prints; when cancelled, every turn but the one in
    which the call resumes. *)
Definition keeps (rid : Z) (f : future) (t : turn) : bool :=
  match f, t with
  | FPending, Cancel r => negb (r =? rid)
  | FPending, Tx (Json (JList (k :: status :: rest))) =>
      negb (prints (tx_line (Json (JList (k :: status :: rest)))))
      || match table_key k with
         | Return (Some z) => negb (z =? rid)
         | _ => true
         end
  | FCancelled, Expire r => negb (r =? rid)
  | FDone _ _, _ => false
  | _, _ => true
  end.

(** The text of a reply of the proxy. *)
Definition reply_text (rid : json) (status : Z) (body : string) : string :=
  dumps false
    (JObj [("id", rid); ("status", JInt status); ("body", JStr body)]).

(** The first line [_handle_fetch] prints. *)
Definition fetch_line (req : fetch_request) : list piece :=
  [Fmt (f_id req); Text (f_method req); Cut 80 (f_url req)].

(** The HTTP call of [_handle_fetch]: the body of the request is encoded,
    then the request is made. *)
Definition http_call (http : http_client) (req : fetch_request)
    : outcome response :=
  match f_body req with
  | Some b =>
      if String.eqb b "" then http (f_method req) (f_url req) None
      else
        match encode_utf8 b with
        | Return encoded => http (f_method req) (f_url req) (Some encoded)
        | Raise e => Raise e
        end
  | None => http (f_method req) (f_url req) None
  end.

(** The body of a reply that reports the text [msg] of an exception. *)
Definition error_body (msg : string) : string :=
  dumps true (JObj [("error", JStr msg)]).

(** The body [_handle_fetch] arrives at for a response: the text of the
    response, or the serialisation of the listed fields when the request
    asks for them and the text parses. *)
Definition proxied_body (req : fetch_request) (resp : response)
    : outcome string :=
  if wants_filter req then
    match resp_json resp with
    | None => Return (resp_text resp)
    | Some parsed =>
        match filter_fields (f_fields req) parsed [] with
        | Return filtered => Return (dumps false (JObj filtered))
        | Raise e =>
            if handles_filter_failure (exn_cls e)
            then Return (resp_text resp)
            else Raise e
        end
    end
  else Return (resp_text resp).

(** What the [try] of [_handle_fetch] arrives at for a request with the id
    [rid]: the status and the body of the reply it writes, or the exception
    that ends it. *)
Definition fetch_attempt (http : http_client) (req : fetch_request)
    (rid : json) : outcome (Z * string) :=
  match http_call http req with
  | Raise e => Raise e
  | Return resp =>
      match proxied_body req resp with
      | Raise e => Raise e
      | Return body =>
          match encode_utf8 (reply_text rid (status_code resp) body) with
          | Return _ => Return (status_code resp, body)
          | Raise e => Raise e
          end
      end
  end.

(** A text of characters below 128. *)
Fixpoint ascii_only (s : string) : bool :=
  match s with
  | EmptyString => true
  | String c s' => (code c <? 128) && ascii_only s'
  end.

(** U+D83D alone, as [json.loads] gives it for the escape [\ud83d]. *)
Definition lone_surrogate : string :=
  String "237" (String "160" (String "189" "")).

(** ** Properties *)

(** *** Chunk reassembly *)

Lemma bin_notify_buffer st lo hi payload :
  bin_buffer (snd (_on_bin_notify (lo :: hi :: payload) st))
  = (if unpack_H lo hi =? 0 then [] else bin_buffer st) ++ payload.
Proof.
  unfold _on_bin_notify, bind, modify, gets, ret, log.
  destruct (unpack_H lo hi =? 0); cbn;
    match goal with |- context [if ?c then _ else _] => destruct c end;
    reflexivity.
Qed.

Lemma bin_notify_expected st data :
  bin_expected_size (snd (_on_bin_notify data st)) = bin_expected_size st.
Proof.
  destruct data as [|lo [|hi payload]]; try reflexivity.
  unfold _on_bin_notify, bind, modify, gets, ret, log.
  destruct (unpack_H lo hi =? 0); cbn;
    match goal with |- context [if ?c then _ else _] => destruct c end;
    reflexivity.
Qed.

Lemma feed_appends frames st :
  Forall (fun f => exists lo hi p, f = lo :: hi :: p /\ unpack_H lo hi <> 0)
    frames ->
  bin_buffer (feed frames st)
  = bin_buffer st ++ concat (map (skipn 2) frames).
Proof.
  intros H. revert st. induction H as [|f frames Hf _ IH]; intros st.
  - cbn. rewrite app_nil_r. reflexivity.
  - destruct Hf as (lo & hi & p & -> & Hne).
    unfold feed in *. cbn [fold_left map concat skipn].
    rewrite IH, bin_notify_buffer.
    apply Z.eqb_neq in Hne. rewrite Hne. rewrite <- app_assoc. reflexivity.
Qed.

(** C10: a binary notification of fewer than two bytes is ignored: the
    handler returns at once and the whole state, chunk buffer and expected
    size included, is what it was. *)
Theorem bin_notify_short_ignored (data : list byte) (st : state) :
  (length data < 2)%nat ->
  _on_bin_notify data st = (Return tt, st).
Proof.
  intros Hlen.
  destruct data as [|lo [|hi payload]]; cbn in Hlen; try lia; reflexivity.
Qed.

(** C3: a chunk with sequence number 0 empties the buffer before its payload
    is appended, any other chunk is appended to what is there whatever its
    number, and the expected size is not touched; so a chunk numbered 0
    followed by any chunks with other numbers leaves the payloads in arrival
    order; chunks of 250, 250, 250, 250 and 24 bytes, the first numbered 0,
    against an expected size of 1024 leave a complete buffer of exactly 1024
    bytes, the payloads in order. *)
Theorem chunks_reassemble :
  (forall st lo hi payload,
      let st' := snd (_on_bin_notify (lo :: hi :: payload) st) in
      bin_buffer st'
      = (if unpack_H lo hi =? 0 then [] else bin_buffer st) ++ payload
      /\ bin_expected_size st' = bin_expected_size st)
  /\
  (forall st p0 frames,
      Forall (fun f => exists lo hi p,
                  f = lo :: hi :: p /\ unpack_H lo hi <> 0) frames ->
      bin_buffer (feed ((x00 :: x00 :: p0) :: frames) st)
      = p0 ++ concat (map (skipn 2) frames))
  /\
  (forall st p0 p1 p2 p3 p4 l1 h1 l2 h2 l3 h3 l4 h4,
      bin_expected_size st = 1024 ->
      map length [p0; p1; p2; p3; p4] = [250; 250; 250; 250; 24]%nat ->
      unpack_H l1 h1 <> 0 -> unpack_H l2 h2 <> 0 ->
      unpack_H l3 h3 <> 0 -> unpack_H l4 h4 <> 0 ->
      let st' :=
        feed [x00 :: x00 :: p0; l1 :: h1 :: p1; l2 :: h2 :: p2;
              l3 :: h3 :: p3; l4 :: h4 :: p4] st in
      bin_buffer st' = p0 ++ p1 ++ p2 ++ p3 ++ p4
      /\ length (bin_buffer st') = 1024%nat
      /\ is_complete st' = true).
Proof.
  split; [|split].
  - intros st lo hi payload st'. subst st'.
    split; [apply bin_notify_buffer | apply bin_notify_expected].
  - intros st p0 frames Hframes.
    change (feed ((x00 :: x00 :: p0) :: frames) st)
      with (feed frames (snd (_on_bin_notify (x00 :: x00 :: p0) st))).
    rewrite (feed_appends frames _ Hframes), bin_notify_buffer.
    reflexivity.
  - intros st p0 p1 p2 p3 p4 l1 h1 l2 h2 l3 h3 l4 h4 Hexp Hlen
      H1 H2 H3 H4 st'.
    assert (Hbuf : bin_buffer st' = p0 ++ p1 ++ p2 ++ p3 ++ p4).
    { subst st'. unfold feed. cbn [fold_left].
      rewrite !bin_notify_buffer.
      apply Z.eqb_neq in H1, H2, H3, H4. rewrite H1, H2, H3, H4.
      change (unpack_H x00 x00 =? 0) with true. cbn [app].
      rewrite <- !app_assoc. reflexivity. }
    assert (Hsz : bin_expected_size st' = 1024).
    { subst st'. unfold feed. cbn [fold_left].
      rewrite !bin_notify_expected. exact Hexp. }
    injection Hlen as L0 L1 L2 L3 L4.
    assert (Hl : length (bin_buffer st') = 1024%nat).
    { rewrite Hbuf, !length_app. lia. }
    repeat split; try assumption.
    unfold is_complete, len. rewrite Hsz, Hl. reflexivity.
Qed.

(** *** Responses nobody waits for *)

Lemma response_without_entry (st : state) (rid : Z) (status : json)
    (rest : list json) :
  pending_responses st !! rid = None ->
  _on_tx_notify (Json (JList (JInt rid :: status :: rest))) st
  = (Return tt,
     set_logbook
       (logbook st ++ [LogRx (JInt rid) status (payload_of rest)]) st).
Proof.
  intros Hnone.
  unfold _on_tx_notify, is_fetch_request, table_find, bind, lift, gets, ret,
    log, modify, table_key.
  cbn. rewrite Hnone. reflexivity.
Qed.

(** *** Binary push *)

Lemma byte_of_N_some (z : Z) :
  0 <= z < 256 -> Byte.of_N (Z.to_N z) = Some (byte_of z).
Proof.
  intros Hz. unfold byte_of.
  destruct (Byte.of_N (Z.to_N z)) eqn:E; [reflexivity|].
  apply Byte.of_N_None_iff in E. lia.
Qed.

Lemma byte_of_to_N (z : Z) :
  0 <= z < 256 -> Z.of_N (Byte.to_N (byte_of z)) = z.
Proof.
  intros Hz. pose proof (byte_of_N_some z Hz) as E.
  apply Byte.to_of_N in E. rewrite E. lia.
Qed.

Lemma pack_H_in_range (n : Z) :
  0 <= n <= 65535 -> pack_H n = Return (le16 n).
Proof.
  intros Hn. unfold pack_H, le16.
  replace ((0 <=? n) && (n <=? 65535)) with true
    by (symmetry; apply andb_true_iff; split; apply Z.leb_le; lia).
  rewrite !byte_of_N_some; [reflexivity | |].
  - split; [apply Z.div_pos; lia | apply Z.div_lt_upper_bound; lia].
  - apply Z.mod_pos_bound. lia.
Qed.

Lemma pack_H_out_of_range (n : Z) :
  65535 < n -> pack_H n = Raise struct_error.
Proof.
  intros Hn. unfold pack_H.
  replace (n <=? 65535) with false by (symmetry; apply Z.leb_gt; lia).
  rewrite andb_false_r. reflexivity.
Qed.

Lemma unpack_le16 (n : Z) :
  0 <= n <= 65535 ->
  exists lo hi, le16 n = [lo; hi] /\ unpack_H lo hi = n.
Proof.
  intros Hn. exists (byte_of (n mod 256)), (byte_of (n / 256)).
  split; [reflexivity|]. unfold unpack_H.
  rewrite !byte_of_to_N.
  - pose proof (Z.div_mod n 256). lia.
  - split; [apply Z.div_pos; lia | apply Z.div_lt_upper_bound; lia].
  - apply Z.mod_pos_bound. lia.
Qed.

Lemma chunk_count_zero (m c : Z) :
  0 < c -> 0 <= m -> chunk_count m c = 0 -> m = 0.
Proof.
  unfold chunk_count. intros Hc Hm H.
  apply Z.div_small_iff in H; lia.
Qed.

Lemma chunk_count_pos (m c : Z) :
  0 < c -> 0 < m -> 0 < chunk_count m c.
Proof.
  unfold chunk_count. intros Hc Hm.
  apply Z.div_str_pos. lia.
Qed.

Lemma chunk_count_last (m c : Z) :
  0 < c -> 0 < m <= c -> chunk_count m c = 1.
Proof.
  unfold chunk_count. intros Hc Hm.
  replace (m + c - 1) with ((m - 1) + 1 * c) by lia.
  rewrite Z.div_add by lia. rewrite Z.div_small; lia.
Qed.

Lemma chunk_count_step (m c : Z) :
  0 < c -> chunk_count (m - c) c = chunk_count m c - 1.
Proof.
  unfold chunk_count. intros Hc.
  replace (m - c + c - 1) with ((m + c - 1) + (-1) * c) by lia.
  rewrite Z.div_add by lia. lia.
Qed.

Lemma set_outbox_same (st : state) : set_outbox (outbox st) st = st.
Proof. destruct st; reflexivity. Qed.

Lemma py_slice_chunk (data : list byte) (c offset : Z) :
  0 < c -> 0 <= offset < len data ->
  py_slice data offset (Z.min (offset + c) (len data))
  = firstn (Z.to_nat c) (skipn (Z.to_nat offset) data).
Proof.
  intros Hc Hoff. unfold py_slice, clamp_index.
  replace (offset <? 0) with false by (symmetry; apply Z.ltb_ge; lia).
  replace (Z.min (offset + c) (len data) <? 0) with false
    by (symmetry; apply Z.ltb_ge; lia).
  rewrite (Z.min_l offset) by lia.
  rewrite (Z.min_l (Z.min _ _)) by lia.
  destruct (Z.le_ge_cases (offset + c) (len data)) as [Hle | Hge].
  - rewrite Z.min_l by lia. f_equal. lia.
  - rewrite Z.min_r by lia.
    assert (Hl : length (skipn (Z.to_nat offset) data)
                 = Z.to_nat (len data - offset)).
    { rewrite length_skipn. unfold len. lia. }
    rewrite (firstn_all2 (n := Z.to_nat c)) by lia.
    apply firstn_all2. lia.
Qed.

Lemma send_binary_loop_ok (data : list byte) (c : Z) :
  0 < c ->
  forall (k fuel : nat) (offset chunk_id : Z) (st : state),
    0 <= offset <= len data ->
    0 <= chunk_id ->
    Z.of_nat k = chunk_count (len data - offset) c ->
    chunk_id + Z.of_nat k <= 65536 ->
    (k < fuel)%nat ->
    send_binary_loop fuel data c (len data) offset chunk_id st
    = (Return (Some (chunk_id + Z.of_nat k)),
       set_outbox
         (outbox st
            ++ numbered chunk_id
                 (chunks k (Z.to_nat c) (skipn (Z.to_nat offset) data)))
         st).
Proof.
  intros Hc. induction k as [|k IH]; intros fuel offset chunk_id st
    Hoff Hid Hk Hmax Hfuel.
  - destruct fuel as [|fuel]; [lia|].
    symmetry in Hk. apply chunk_count_zero in Hk; try lia.
    cbn [send_binary_loop].
    replace (offset <? len data) with false by (symmetry; apply Z.ltb_ge; lia).
    cbn [chunks numbered]. rewrite app_nil_r, set_outbox_same.
    replace (chunk_id + Z.of_nat 0) with chunk_id by lia. reflexivity.
  - destruct fuel as [|fuel]; [lia|].
    assert (Hlt : offset < len data).
    { destruct (Z.eq_dec offset (len data)) as [E|]; [|lia].
      rewrite E, Z.sub_diag in Hk. unfold chunk_count in Hk.
      rewrite Z.div_small in Hk; lia. }
    cbn [send_binary_loop].
    replace (offset <? len data) with true by (symmetry; apply Z.ltb_lt; lia).
    unfold bind at 1. unfold lift. rewrite pack_H_in_range by lia.
    unfold bind at 1. unfold write_gatt_char at 1. unfold modify.
    rewrite py_slice_chunk by lia.
    set (e := Z.min (offset + c) (len data)).
    set (st1 := set_outbox _ st).
    assert (Hk' : Z.of_nat k = chunk_count (len data - e) c).
    { subst e. destruct (Z.le_ge_cases (offset + c) (len data)).
      - rewrite Z.min_l by lia.
        replace (len data - (offset + c)) with (len data - offset - c) by lia.
        rewrite chunk_count_step by lia. lia.
      - rewrite Z.min_r by lia. rewrite Z.sub_diag.
        rewrite (chunk_count_last (len data - offset) c) in Hk by lia.
        unfold chunk_count. rewrite Z.div_small; lia. }
    rewrite (IH fuel e (chunk_id + 1) st1) by lia.
    f_equal; [do 2 f_equal; lia|].
    subst st1. cbn [chunks numbered]. unfold set_outbox at 1. cbn.
    unfold set_outbox. rewrite <- app_assoc. cbn [app].
    do 3 f_equal.
    rewrite skipn_skipn.
    destruct (Z.le_ge_cases (offset + c) (len data)).
    + subst e. rewrite Z.min_l by lia.
      replace (Z.to_nat (offset + c)) with (Z.to_nat c + Z.to_nat offset)%nat
        by lia.
      reflexivity.
    + assert (Hz : k = O).
      { subst e. rewrite Z.min_r, Z.sub_diag in Hk' by lia.
        unfold chunk_count in Hk'. rewrite Z.div_small in Hk'; lia. }
      subst k. reflexivity.
Qed.

Lemma send_binary_loop_overflow (data : list byte) (c : Z) :
  0 < c ->
  forall (j fuel : nat) (offset chunk_id : Z) (st : state),
    0 <= offset <= len data ->
    0 <= chunk_id ->
    Z.of_nat j = 65536 - chunk_id ->
    Z.of_nat j < chunk_count (len data - offset) c ->
    (j < fuel)%nat ->
    exists st',
      send_binary_loop fuel data c (len data) offset chunk_id st
      = (Raise struct_error, st')
      /\ length (outbox st') = (length (outbox st) + j)%nat.
Proof.
  intros Hc. induction j as [|j IH]; intros fuel offset chunk_id st
    Hoff Hpos Hid Hk Hfuel.
  - destruct fuel as [|fuel]; [lia|].
    assert (Hlt : offset < len data).
    { destruct (Z.eq_dec offset (len data)) as [E|]; [|lia].
      rewrite E, Z.sub_diag in Hk. unfold chunk_count in Hk.
      rewrite Z.div_small in Hk; lia. }
    cbn [send_binary_loop].
    replace (offset <? len data) with true by (symmetry; apply Z.ltb_lt; lia).
    unfold bind at 1. unfold lift. rewrite pack_H_out_of_range by lia.
    exists st. split; [reflexivity | lia].
  - destruct fuel as [|fuel]; [lia|].
    assert (Hlt : offset < len data).
    { destruct (Z.eq_dec offset (len data)) as [E|]; [|lia].
      rewrite E, Z.sub_diag in Hk. unfold chunk_count in Hk.
      rewrite Z.div_small in Hk; lia. }
    cbn [send_binary_loop].
    replace (offset <? len data) with true by (symmetry; apply Z.ltb_lt; lia).
    unfold bind at 1. unfold lift. rewrite pack_H_in_range by lia.
    unfold bind at 1. unfold write_gatt_char at 1. unfold modify.
    set (e := Z.min (offset + c) (len data)).
    set (st1 := set_outbox _ st).
    assert (Hk' : Z.of_nat j < chunk_count (len data - e) c).
    { subst e. destruct (Z.le_ge_cases (offset + c) (len data)).
      - rewrite Z.min_l by lia.
        replace (len data - (offset + c)) with (len data - offset - c) by lia.
        rewrite chunk_count_step by lia. lia.
      - rewrite (chunk_count_last (len data - offset) c) in Hk by lia. lia. }
    destruct (IH fuel e (chunk_id + 1) st1) as [st' [Hr Hn]]; try lia.
    exists st'. split; [exact Hr|].
    rewrite Hn. subst st1. cbn. rewrite length_app. cbn. lia.
Qed.

(** The fuel given to the loop is never used up, whatever the data and the
    chunk size: [send_binary] ends either normally or with an exception. *)
Lemma send_binary_loop_total (data : list byte) (c total : Z) :
  forall (fuel : nat) (offset chunk_id : Z) (st : state),
    chunk_id <= 65536 ->
    65537 <= Z.of_nat fuel + chunk_id ->
    fst (send_binary_loop fuel data c total offset chunk_id st) <> Return None.
Proof.
  induction fuel as [|fuel IH]; intros offset chunk_id st Hid Hfuel; [lia|].
  cbn [send_binary_loop]. destruct (offset <? total); [|discriminate].
  unfold bind at 1. unfold lift.
  destruct (Z_le_gt_dec 0 chunk_id) as [Hpos | Hneg].
  - destruct (Z_le_gt_dec chunk_id 65535) as [Hle | Hgt].
    + rewrite pack_H_in_range by lia.
      unfold bind at 1. unfold write_gatt_char at 1. unfold modify.
      apply IH; lia.
    + rewrite pack_H_out_of_range by lia. discriminate.
  - unfold pack_H.
    replace (0 <=? chunk_id) with false by (symmetry; apply Z.leb_gt; lia).
    discriminate.
Qed.

Lemma send_binary_total (data : list byte) (c : Z) (st : state) :
  fst (send_binary data c st) <> Return None.
Proof.
  unfold send_binary, bind.
  pose proof (send_binary_loop_total data c (len data) send_binary_fuel 0 0 st)
    as H.
  destruct (send_binary_loop send_binary_fuel data c (len data) 0 0 st)
    as [[[n|]|e] st'] eqn:E; cbn in *; try discriminate.
  exfalso. apply H; [lia | unfold send_binary_fuel; lia | reflexivity].
Qed.

Lemma length_chunks (k c : nat) (data : list byte) :
  length (chunks k c data) = k.
Proof.
  revert data. induction k as [|k IH]; intros data; cbn; [reflexivity|].
  rewrite IH. reflexivity.
Qed.

Lemma concat_chunks (k c : nat) (data : list byte) :
  (length data <= k * c)%nat -> concat (chunks k c data) = data.
Proof.
  revert data. induction k as [|k IH]; intros data Hlen; cbn in *.
  - destruct data; [reflexivity | cbn in Hlen; lia].
  - rewrite IH; [apply firstn_skipn|]. rewrite length_skipn. lia.
Qed.

Lemma chunks_lookup_length (k c : nat) (data : list byte) (i : nat)
    (p : list byte) :
  chunks k c data !! i = Some p ->
  length p = Nat.min c (length data - i * c).
Proof.
  revert data i. induction k as [|k IH]; intros data i Hp; cbn in Hp.
  - destruct i; discriminate.
  - destruct i as [|i]; cbn in Hp.
    + injection Hp as <-. rewrite length_firstn. lia.
    + apply IH in Hp. rewrite Hp, length_skipn. cbn. f_equal. lia.
Qed.

Lemma numbered_lookup (ps : list (list byte)) (i : Z) (j : nat)
    (p : list byte) :
  ps !! j = Some p ->
  numbered i ps !! j = Some (ToBin (le16 (i + Z.of_nat j) ++ p)).
Proof.
  revert i j. induction ps as [|q ps IH]; intros i j Hp.
  - destruct j; discriminate.
  - destruct j as [|j]; cbn in *.
    + injection Hp as <-. rewrite Z.add_0_r. reflexivity.
    + replace (i + Z.of_nat (S j)) with (i + 1 + Z.of_nat j) by lia.
      apply IH. exact Hp.
Qed.

(** C4, with the bound the two-byte header puts on it: for a positive chunk
    size [c] and data needing at most 65536 chunks, [send_binary] writes
    [ceil(n / c)] packets, the consecutive [c]-byte slices of the data (the
    last one possibly shorter), each after the two bytes, low byte first, of
    its number, counted from 0 in steps of 1; 1024 bytes with chunk size 250
    make 5 chunks of 250, 250, 250, 250 and 24 bytes. *)
Theorem send_binary_chunks (data : list byte) (c : Z) (st : state) :
  0 < c ->
  chunk_count (len data) c <= 65536 ->
  let k := Z.to_nat (chunk_count (len data) c) in
  let payloads := chunks k (Z.to_nat c) data in
  send_binary data c st
  = (Return (Some tt),
     set_logbook (logbook st ++ [LogBinarySent (len data) (Z.of_nat k)])
       (set_outbox (outbox st ++ numbered 0 payloads) st))
  /\ length payloads = k
  /\ concat payloads = data
  /\ (forall i p,
        payloads !! i = Some p ->
        length p = Nat.min (Z.to_nat c) (length data - i * Z.to_nat c)
        /\ exists lo hi,
             numbered 0 payloads !! i = Some (ToBin (lo :: hi :: p))
             /\ unpack_H lo hi = Z.of_nat i)
  /\ (len data = 1024 -> c = 250 ->
      k = 5%nat /\ map length payloads = [250; 250; 250; 250; 24]%nat).
Proof.
  intros Hc Hmax k payloads.
  assert (Hn : 0 <= len data) by (unfold len; lia).
  assert (Hk0 : 0 <= chunk_count (len data) c).
  { unfold chunk_count. apply Z.div_pos; lia. }
  assert (Hk : Z.of_nat k = chunk_count (len data) c) by (subst k; lia).
  split; [|split; [|split; [|split]]].
  - unfold send_binary. unfold bind at 1.
    rewrite (send_binary_loop_ok data c Hc k send_binary_fuel 0 0 st);
      try lia.
    + cbn [Z.to_nat skipn Z.add]. unfold bind, log, modify, ret.
      rewrite Z.add_0_l. reflexivity.
    + rewrite Z.sub_0_r. exact Hk.
    + unfold send_binary_fuel. lia.
  - apply length_chunks.
  - apply concat_chunks.
    assert (len data <= Z.of_nat k * c).
    { rewrite Hk. unfold chunk_count.
      pose proof (Z.mul_div_le (len data + c - 1) c Hc).
      pose proof (Z.mod_pos_bound (len data + c - 1) c Hc).
      pose proof (Z.div_mod (len data + c - 1) c). lia. }
    unfold len in *. nia.
  - intros i p Hp. split; [eapply chunks_lookup_length; exact Hp|].
    assert (Hi : (i < k)%nat).
    { apply lookup_lt_Some in Hp. subst payloads.
      rewrite length_chunks in Hp. exact Hp. }
    destruct (unpack_le16 (Z.of_nat i)) as [lo [hi [Hle Hun]]]; [lia|].
    exists lo, hi. split; [|exact Hun].
    rewrite (numbered_lookup _ 0 i p Hp). rewrite Z.add_0_l, Hle.
    reflexivity.
  - intros Hlen Hcv.
    assert (Hk5 : k = 5%nat).
    { subst k. rewrite Hlen, Hcv. reflexivity. }
    split; [exact Hk5|].
    subst payloads. rewrite Hk5. subst c.
    assert (Hl : length data = 1024%nat) by (unfold len in Hlen; lia).
    set (n := Z.to_nat 250). assert (Hnv : n = 250%nat) by (subst n; lia).
    clearbody n. cbn [chunks map].
    rewrite !length_firstn, !length_skipn, Hl, Hnv. reflexivity.
Qed.

(** Beyond the bound: 65536 packets are written and the next header cannot
    be packed. *)
Lemma send_binary_overflow (data : list byte) (c : Z) (st : state) :
  0 < c ->
  65536 < chunk_count (len data) c ->
  exists st',
    send_binary data c st = (Raise struct_error, st')
    /\ Z.of_nat (length (outbox st'))
       = Z.of_nat (length (outbox st)) + 65536.
Proof.
  intros Hc Hmany.
  destruct (send_binary_loop_overflow data c Hc (Z.to_nat 65536)
              send_binary_fuel 0 0 st) as (st' & E & Hn).
  - unfold len. lia.
  - lia.
  - lia.
  - rewrite Z.sub_0_r. lia.
  - unfold send_binary_fuel. lia.
  - exists st'. split.
    + unfold send_binary, bind. rewrite E. reflexivity.
    + rewrite Hn. lia.
Qed.

(** *** Fetch proxy *)

Lemma emit_emit e1 p1 e2 p2 st :
  emit e2 p2 (emit e1 p1 st) = emit (e1 ++ e2) (p1 ++ p2) st.
Proof.
  unfold emit, set_outbox, set_logbook. cbn. rewrite <- !app_assoc.
  reflexivity.
Qed.

Lemma log_emit e st : log e st = (Return tt, emit [e] [] st).
Proof.
  unfold log, modify, emit, set_outbox, set_logbook. cbn.
  rewrite app_nil_r. reflexivity.
Qed.

Lemma send_fetch_response_emit rid status body st :
  exists entries,
    _send_fetch_response rid status body st
    = (Return tt, emit entries [reply_frame rid status body] st).
Proof.
  unfold _send_fetch_response, reply_frame, bind, write_gatt_char, modify.
  match goal with |- context [if ?c then _ else _] => destruct c end.
  - eexists [_]. unfold log, modify, emit, set_outbox, set_logbook.
    cbn -[json_dumps String.length]. reflexivity.
  - exists []. unfold ret, emit, set_outbox, set_logbook.
    cbn -[json_dumps String.length]. rewrite app_nil_r. reflexivity.
Qed.

Lemma dict_get_set k k' v d :
  dict_get k (dict_set k' v d)
  = if String.eqb k k' then Some v else dict_get k d.
Proof.
  induction d as [|[k0 v0] d IH]; cbn.
  - destruct (String.eqb k k'); reflexivity.
  - destruct (String.eqb k' k0) eqn:E0; cbn.
    + apply String.eqb_eq in E0. subst k0.
      destruct (String.eqb k k'); reflexivity.
    + destruct (String.eqb k k0) eqn:E1.
      * apply String.eqb_eq in E1. subst k0.
        rewrite String.eqb_sym, E0. reflexivity.
      * exact IH.
Qed.

Lemma filter_fields_object fields d acc :
  filter_fields fields (JObj d) acc
  = Return
      (fold_left
         (fun acc k =>
            match dict_get k d with
            | Some v => dict_set k v acc
            | None => acc
            end) fields acc).
Proof.
  revert acc. induction fields as [|k fields IH]; intros acc; cbn;
    [reflexivity|].
  unfold dict_has. destruct (dict_get k d); apply IH.
Qed.

Lemma select_fields_get_acc fields d acc k :
  dict_get k
    (fold_left
       (fun acc k =>
          match dict_get k d with
          | Some v => dict_set k v acc
          | None => acc
          end) fields acc)
  = if existsb (String.eqb k) fields
    then match dict_get k d with
         | Some v => Some v
         | None => dict_get k acc
         end
    else dict_get k acc.
Proof.
  revert acc. induction fields as [|f fields IH]; intros acc; cbn;
    [reflexivity|].
  rewrite IH. destruct (String.eqb k f) eqn:E; cbn.
  - apply String.eqb_eq in E. subst f.
    destruct (dict_get k d) eqn:G.
    + destruct (existsb _ fields); [reflexivity|].
      rewrite dict_get_set, String.eqb_refl. reflexivity.
    + destruct (existsb _ fields); reflexivity.
  - destruct (existsb _ fields); [destruct (dict_get k d)|].
    + reflexivity.
    + destruct (dict_get f d); [rewrite dict_get_set, E|]; reflexivity.
    + destruct (dict_get f d); [rewrite dict_get_set, E|]; reflexivity.
Qed.

Lemma select_fields_get fields d k :
  dict_get k (select_fields fields d)
  = if existsb (String.eqb k) fields then dict_get k d else None.
Proof.
  unfold select_fields. rewrite select_fields_get_acc. cbn.
  destruct (existsb _ fields); [destruct (dict_get k d)|]; reflexivity.
Qed.

Arguments json_dumps : simpl never.

Ltac fetch_unfold :=
  unfold _handle_fetch, fetch_try, try_except, bind, lift, ret, call_json;
  cbn [negb].

Ltac fetch_finish :=
  repeat
    match goal with
    | |- context [log ?e ?st] => rewrite (log_emit e st)
    | |- context [_send_fetch_response ?r ?s ?b ?st] =>
        let entries := fresh "entries" in
        let E := fresh "E" in
        destruct (send_fetch_response_emit r s b st) as [entries E];
        rewrite E; clear E
    end;
  rewrite ?emit_emit; cbn [app]; eexists; reflexivity.

(** A completed call whose filtering raises something that the inner
    [except] does not name. *)
Lemma handle_fetch_filter_raises http req st resp v e :
  http (f_method req) (f_url req) (request_data req) = Return resp ->
  wants_filter req = true ->
  resp_json resp = Some v ->
  filter_fields (f_fields req) v [] = Raise e ->
  handles_filter_failure (exn_cls e) = false ->
  exn_cls e <> RequestsTimeout ->
  exists entries,
    _handle_fetch true http req st
    = (Return tt,
       emit entries
         [reply_frame (f_id req) 0
            (dumps true (JObj [("error", JStr (exn_msg e))]))] st).
Proof.
  intros Hhttp W Hv Hf Hh Ht. fetch_unfold.
  rewrite log_emit, Hhttp, W, Hv, Hf, Hh. cbn [fst snd].
  destruct (exn_cls e); try contradiction; fetch_finish.
Qed.

Lemma filter_fields_class fields v acc e :
  filter_fields fields v acc = Raise e ->
  exn_cls e = TypeError \/ exn_cls e = KeyError.
Proof.
  revert acc. induction fields as [|k fields IH]; intros acc H; cbn in H;
    [discriminate|].
  destruct (py_contains v k) as [[|]|e1] eqn:C.
  - destruct (py_getitem v k) as [x|e2] eqn:G.
    + eapply IH; exact H.
    + injection H as <-. destruct v; cbn in G; try discriminate;
        try (injection G as <-; left; reflexivity).
      destruct (dict_get k kvs); [discriminate|].
      injection G as <-. right; reflexivity.
  - eapply IH; exact H.
  - injection H as <-. destruct v; cbn in C; try discriminate;
      injection C as <-; left; reflexivity.
Qed.

Lemma existsb_eqb_In k fields :
  existsb (String.eqb k) fields = true <-> In k fields.
Proof.
  rewrite existsb_exists. split.
  - intros [x [Hin E]]. apply String.eqb_eq in E. subst. exact Hin.
  - intros Hin. exists k. split; [exact Hin | apply String.eqb_refl].
Qed.

Lemma select_fields_none fields d :
  (forall k, In k fields -> dict_get k d = None) ->
  select_fields fields d = [].
Proof.
  unfold select_fields. generalize (@nil (string * json)) as acc.
  induction fields as [|k fields IH]; intros acc H; cbn; [reflexivity|].
  rewrite (H k) by (left; reflexivity).
  apply IH. intros k' Hin. apply H. right. exact Hin.
Qed.

Lemma wants_filter_true req :
  f_format req = Some "json" -> f_fields req <> [] -> wants_filter req = true.
Proof.
  intros Hf Hn. unfold wants_filter. rewrite Hf.
  destruct (f_fields req); [contradiction | reflexivity].
Qed.

(** C7 at an input where the code departs from it: the HTTP call completes
    with status 200 and the body [5], fields were asked for, and the frame
    sent back has status 0 and an error body. *)
Theorem fetch_non_object_body_status_0 :
  let req :=
    FetchRequest (JInt 7) "GET" "http://example.org/n" None (Some "json")
      ["a"] in
  let resp := Response 200 "5" (Some (JInt 5)) in
  exists entries,
    _handle_fetch true (fun _ _ _ => Return resp) req initial_state
    = (Return tt,
       emit entries
         [reply_frame (JInt 7) 0
            (dumps true
               (JObj [("error",
                       JStr "argument of type 'int' is not iterable")]))]
         initial_state).
Proof.
  intros req resp.
  apply (handle_fetch_filter_raises (fun _ _ _ => Return resp) req
           initial_state resp (JInt 5)
           (Exn TypeError "argument of type 'int' is not iterable"));
    try reflexivity; discriminate.
Qed.

(** *** The correlator *)

Ltac st_simpl :=
  unfold set_request_id, set_pending_responses, set_futures, set_bin_buffer,
    set_bin_expected_size, set_connected, set_synced, set_spawned,
    set_outbox, set_logbook in *;
  cbn [request_id pending_responses futures bin_buffer bin_expected_size
       connected synced spawned outbox logbook fst snd] in *.

Ltac run_monad :=
  unfold log, create_task, write_gatt_char, next_id in *;
  unfold bind, ret, modify, gets, lift, raise in *;
  cbn beta iota in *.

Lemma table_inv_initial : table_ok initial_state.
Proof.
  unfold table_ok, table_inv. cbn. repeat split; intros *;
    rewrite lookup_empty; discriminate.
Qed.

Lemma table_inv_settle n (tbl : gmap Z nat) (futs : list future) z ref f :
  table_inv n tbl futs ->
  tbl !! z = Some ref ->
  table_inv n (delete z tbl) (<[ref := f]> futs).
Proof.
  intros (Ha & Hb & Hc) Hz. repeat split.
  - intros r ref' Hr. apply lookup_delete_Some in Hr as [Hne Hr].
    rewrite list_lookup_insert_ne; [eapply Ha; exact Hr|].
    intros ->. apply Hne. eapply Hb; eassumption.
  - intros r1 r2 ref' H1 H2.
    apply lookup_delete_Some in H1 as [_ H1].
    apply lookup_delete_Some in H2 as [_ H2]. eapply Hb; eassumption.
  - intros r ref' Hr. apply lookup_delete_Some in Hr as [_ Hr].
    eapply Hc; exact Hr.
Qed.

Lemma table_inv_submit n (tbl : gmap Z nat) (futs : list future) :
  table_inv n tbl futs ->
  table_inv (n + 1) (<[n + 1 := length futs]> tbl) (futs ++ [FPending]).
Proof.
  intros (Ha & Hb & Hc). repeat split.
  - intros r ref Hr. apply lookup_insert_Some in Hr as [[_ <-] | [_ Hr]].
    + rewrite lookup_app_r by lia. rewrite Nat.sub_diag. reflexivity.
    + rewrite lookup_app_l; [eapply Ha; exact Hr|].
      eapply lookup_lt_Some, Ha, Hr.
  - intros r1 r2 ref H1 H2.
    apply lookup_insert_Some in H1 as [[<- <-] | [N1 H1]];
      apply lookup_insert_Some in H2 as [[<- E2] | [N2 H2]].
    + reflexivity.
    + apply Ha, lookup_lt_Some in H2. lia.
    + apply Ha, lookup_lt_Some in H1. lia.
    + eapply Hb; eassumption.
  - intros r ref Hr. apply lookup_insert_Some in Hr as [[<- _] | [_ Hr]].
    + lia.
    + apply Hc in Hr. lia.
Qed.

Lemma table_inv_bump n (tbl : gmap Z nat) (futs : list future) :
  table_inv n tbl futs -> table_inv (n + 1) tbl futs.
Proof.
  intros (Ha & Hb & Hc). repeat split; eauto.
  intros r ref Hr. apply Hc in Hr. lia.
Qed.

(** The effect of a response frame, in one expression. *)
Lemma handle_response st k status rest :
  handle_event st (TxNotify (Json (JList (k :: status :: rest))))
  = let st1 :=
      set_logbook (logbook st ++ [LogRx k status (payload_of rest)]) st in
    match table_key k with
    | Return (Some z) =>
        match pending_responses st !! z with
        | Some ref =>
            match futures st !! ref with
            | Some FPending =>
                set_pending_responses (delete z (pending_responses st))
                  (set_futures
                     (<[ref := FDone status (payload_of rest)]> (futures st))
                     st1)
            | _ => st1
            end
        | None => st1
        end
    | _ => st1
    end.
Proof.
  unfold handle_event, handler, _on_tx_notify, is_fetch_request, table_find,
    set_result.
  run_monad. fold (payload_of rest). st_simpl.
  destruct (table_key k) as [[z|]|e]; cbn beta iota; try reflexivity.
  destruct (pending_responses st !! z) as [ref|]; cbn beta iota;
    try reflexivity.
  st_simpl.
  destruct (futures st !! ref) as [[| |]|]; reflexivity.
Qed.

Lemma handle_deadline st rid :
  handle_event st (Deadline rid)
  = match pending_responses st !! rid with
    | Some ref =>
        set_logbook (logbook st ++ [LogTimeout rid])
          (set_pending_responses (delete rid (pending_responses st))
             (set_futures (<[ref := FCancelled]> (futures st)) st))
    | None => st
    end.
Proof.
  unfold handle_event, handler, on_deadline. run_monad.
  destruct (pending_responses st !! rid); reflexivity.
Qed.

(** The table, the futures and the counter after [send_begin]. *)
Lemma send_begin_eval subsystem cmd args wait st :
  exists st1,
    send_begin subsystem cmd args wait st
    = (Return (request_id st + 1,
               if wait then Some (length (futures st)) else None), st1)
    /\ request_id st1 = request_id st + 1
    /\ pending_responses st1
       = (if wait
          then <[request_id st + 1 := length (futures st)]>
                 (pending_responses st)
          else pending_responses st)
    /\ futures st1
       = (if wait then futures st ++ [FPending] else futures st)
    /\ bin_buffer st1 = bin_buffer st
    /\ bin_expected_size st1 = bin_expected_size st
    /\ connected st1 = connected st
    /\ synced st1 = synced st
    /\ outbox st1
       = outbox st
           ++ [ToRx (dumps false
                       (JList ([JInt (request_id st + 1); JStr subsystem;
                                JStr cmd]
                                 ++ (if py_truthy args then [args] else []))))].
Proof.
  unfold send_begin. run_monad. st_simpl.
  destruct wait; st_simpl; eexists; (split; [reflexivity|]); st_simpl;
    repeat split; reflexivity.
Qed.

(** Events that leave the table, the futures and the counter alone. *)
Lemma handle_event_core_same st e :
  match e with
  | BinNotify _ | Disconnect | TxNotify (NotJson _) => True
  | TxNotify (Json msg) =>
      match msg with
      | JList (_ :: _ :: _) => False
      | _ => True
      end
  | _ => False
  end ->
  request_id (handle_event st e) = request_id st
  /\ pending_responses (handle_event st e) = pending_responses st
  /\ futures (handle_event st e) = futures st.
Proof.
  intros He. destruct e as [[text|msg]|data| | |]; try contradiction.
  - repeat split.
  - unfold handle_event, handler, _on_tx_notify.
    destruct (is_fetch_request msg); [repeat split|].
    destruct msg as [| | | | |[|? [|? ?]]|]; try contradiction;
      repeat split.
  - unfold handle_event, handler, _on_bin_notify.
    destruct data as [|lo [|hi payload]]; try (repeat split; fail).
    run_monad. st_simpl.
    destruct (unpack_H lo hi =? 0); st_simpl;
      match goal with |- context [if ?c then _ else _] => destruct c end;
      repeat split.
  - repeat split.
Qed.

Lemma table_ok_core st st' :
  request_id st' = request_id st ->
  pending_responses st' = pending_responses st ->
  futures st' = futures st ->
  table_ok st -> table_ok st'.
Proof. unfold table_ok. intros -> -> ->. exact id. Qed.

(** An event that does not settle the call [rid] leaves its entry in the
    table, and the table in step with the futures. *)
Lemma handle_event_keeps st e rid ref :
  table_ok st ->
  pending_responses st !! rid = Some ref ->
  settles rid e = false ->
  table_ok (handle_event st e)
  /\ pending_responses (handle_event st e) !! rid = Some ref.
Proof.
  intros Hok Hrid Hset.
  assert (Hsame :
    request_id (handle_event st e) = request_id st
    /\ pending_responses (handle_event st e) = pending_responses st
    /\ futures (handle_event st e) = futures st ->
    table_ok (handle_event st e)
    /\ pending_responses (handle_event st e) !! rid = Some ref).
  { intros (H1 & H2 & H3). split.
    - eapply table_ok_core; eassumption.
    - rewrite H2. exact Hrid. }
  destruct e as [[text|msg]|data| |r|subsystem cmd args wait].
  - apply Hsame, handle_event_core_same. exact I.
  - destruct msg as [| | | | |[|k [|status rest]]|];
      try (apply Hsame, handle_event_core_same; exact I).
    rewrite handle_response. cbn zeta. cbn [settles] in Hset.
    destruct (table_key k) as [[z|]|err];
      try (split; [eapply table_ok_core; [| | |exact Hok]; reflexivity
                  | exact Hrid]).
    apply Z.eqb_neq in Hset.
    destruct (pending_responses st !! z) as [ref'|] eqn:Hz;
      try (split; [eapply table_ok_core; [| | |exact Hok]; reflexivity
                  | exact Hrid]).
    pose proof Hok as (Ha & _). rewrite (Ha z ref' Hz).
    split.
    + unfold table_ok. st_simpl. apply table_inv_settle; assumption.
    + st_simpl. rewrite lookup_delete_ne by congruence. exact Hrid.
  - apply Hsame, handle_event_core_same. exact I.
  - apply Hsame, handle_event_core_same. exact I.
  - rewrite handle_deadline. cbn [settles] in Hset. apply Z.eqb_neq in Hset.
    destruct (pending_responses st !! r) as [ref'|] eqn:Hz;
      [|split; assumption].
    split.
    + unfold table_ok. st_simpl. apply table_inv_settle; assumption.
    + st_simpl. rewrite lookup_delete_ne by congruence. exact Hrid.
  - destruct (send_begin_eval subsystem cmd args wait st)
      as (st1 & E & Hc & Hp & Hf & _).
    assert (Hst : handle_event st (Submit subsystem cmd args wait) = st1).
    { unfold handle_event, handler, bind. rewrite E. reflexivity. }
    rewrite Hst.
    pose proof Hok as (Ha & Hb & Hcnt).
    split.
    + unfold table_ok. rewrite Hc, Hp, Hf. destruct wait.
      * apply table_inv_submit. exact Hok.
      * apply table_inv_bump. exact Hok.
    + rewrite Hp. destruct wait; [|exact Hrid].
      rewrite lookup_insert_ne; [exact Hrid|].
      apply Hcnt in Hrid. lia.
Qed.

Lemma poll_pending st ref :
  futures st !! ref = Some FPending -> poll ref st = None.
Proof. unfold poll. intros ->. reflexivity. Qed.

(** While no event settles it, the call stays suspended. *)
Lemma await_through st rid ref pre es :
  table_ok st ->
  pending_responses st !! rid = Some ref ->
  Forall (fun e => settles rid e = false) pre ->
  await ref (pre ++ es) st = await ref es (run_events st pre)
  /\ table_ok (run_events st pre)
  /\ pending_responses (run_events st pre) !! rid = Some ref.
Proof.
  intros Hok Hrid Hpre. revert st Hok Hrid.
  induction Hpre as [|e pre He Hpre IH]; intros st Hok Hrid.
  - split; [reflexivity | split; assumption].
  - destruct (handle_event_keeps st e rid ref Hok Hrid He) as [Hok' Hrid'].
    unfold run_events. cbn [app await fold_left].
    pose proof Hok as (Ha & _). rewrite (poll_pending st ref (Ha _ _ Hrid)).
    apply IH; assumption.
Qed.

Lemma await_settled ref es st r :
  poll ref st = Some r -> await ref es st = Some (r, st).
Proof. intros H. destruct es; cbn; rewrite H; reflexivity. Qed.

(** A call suspended on the future [ref] under the id [rid]: what the turns
    of the loop make of it. *)
Lemma await_resolved st1 rid ref pre post :
  table_ok st1 ->
  pending_responses st1 !! rid = Some ref ->
  Forall (fun e => settles rid e = false) pre ->
  await ref pre st1 = None
  /\
  (forall k status rest,
      table_key k = Return (Some rid) ->
      exists st',
        await ref (pre ++ TxNotify (Json (JList (k :: status :: rest))) :: post)
          st1
        = Some ((status, payload_of rest), st')
        /\ pending_responses st' !! rid = None
        /\ synced st' = synced (run_events st1 pre))
  /\
  (exists st',
      await ref (pre ++ Deadline rid :: post) st1 = Some (timeout_result, st')
      /\ pending_responses st' !! rid = None
      /\ synced st' = synced (run_events st1 pre)).
Proof.
  intros Hok1 Hrid1 Hpre.
  split; [|split].
  - destruct (await_through st1 rid ref pre [] Hok1 Hrid1 Hpre)
      as (Hw & Hok2 & Hrid2).
    rewrite app_nil_r in Hw. rewrite Hw. cbn [await].
    pose proof Hok2 as (Ha & _).
    rewrite (poll_pending _ ref (Ha _ _ Hrid2)). reflexivity.
  - intros k status rest Hk.
    set (e := TxNotify (Json (JList (k :: status :: rest)))).
    destruct (await_through st1 rid ref pre (e :: post) Hok1 Hrid1 Hpre)
      as (Hw & Hok2 & Hrid2).
    rewrite Hw. set (st2 := run_events st1 pre) in *.
    pose proof Hok2 as (Ha & _). pose proof (Ha _ _ Hrid2) as Hfut.
    cbn [await]. rewrite (poll_pending _ ref Hfut).
    subst e. rewrite handle_response. cbn zeta.
    rewrite Hk, Hrid2, Hfut.
    erewrite await_settled.
    + eexists. split; [reflexivity|]. st_simpl.
      split; [apply lookup_delete_eq | reflexivity].
    + unfold poll. st_simpl.
      rewrite list_lookup_insert_eq by (eapply lookup_lt_Some; exact Hfut).
      reflexivity.
  - destruct (await_through st1 rid ref pre (Deadline rid :: post)
                Hok1 Hrid1 Hpre) as (Hw & Hok2 & Hrid2).
    rewrite Hw. set (st2 := run_events st1 pre) in *.
    pose proof Hok2 as (Ha & _). pose proof (Ha _ _ Hrid2) as Hfut.
    cbn [await]. rewrite (poll_pending _ ref Hfut).
    rewrite handle_deadline, Hrid2.
    erewrite await_settled.
    + eexists. split; [reflexivity|]. st_simpl.
      split; [apply lookup_delete_eq | reflexivity].
    + unfold poll. st_simpl.
      rewrite list_lookup_insert_eq by (eapply lookup_lt_Some; exact Hfut).
      reflexivity.
Qed.

(** The table stays in step with the futures whatever happens. *)
Lemma handle_event_table_ok st e : table_ok st -> table_ok (handle_event st e).
Proof.
  intros Hok.
  destruct e as [[text|msg]|data| |r|subsystem cmd args wait].
  - destruct (handle_event_core_same st (TxNotify (NotJson text)) I)
      as (H1 & H2 & H3). eapply table_ok_core; eassumption.
  - destruct msg as [| | | | |[|k [|status rest]]|];
      try (match goal with
           | |- table_ok (handle_event _ ?e) =>
               destruct (handle_event_core_same st e I) as (H1 & H2 & H3);
               eapply table_ok_core; eassumption
           end).
    rewrite handle_response. cbn zeta.
    destruct (table_key k) as [[z|]|err]; try exact Hok.
    destruct (pending_responses st !! z) as [ref'|] eqn:Hz; try exact Hok.
    pose proof Hok as (Ha & _). rewrite (Ha z ref' Hz).
    unfold table_ok. st_simpl. apply table_inv_settle; assumption.
  - destruct (handle_event_core_same st (BinNotify data) I)
      as (H1 & H2 & H3). eapply table_ok_core; eassumption.
  - destruct (handle_event_core_same st Disconnect I) as (H1 & H2 & H3).
    eapply table_ok_core; eassumption.
  - rewrite handle_deadline.
    destruct (pending_responses st !! r) as [ref'|] eqn:Hz; [|exact Hok].
    unfold table_ok. st_simpl. apply table_inv_settle; assumption.
  - destruct (send_begin_eval subsystem cmd args wait st)
      as (st1 & E & Hc & Hp & Hf & _).
    assert (Hst : handle_event st (Submit subsystem cmd args wait) = st1).
    { unfold handle_event, handler, bind. rewrite E. reflexivity. }
    rewrite Hst. unfold table_ok. rewrite Hc, Hp, Hf. destruct wait.
    + apply table_inv_submit. exact Hok.
    + apply table_inv_bump. exact Hok.
Qed.

Lemma run_events_table_ok es : table_ok (run_events initial_state es).
Proof.
  unfold run_events. generalize table_inv_initial.
  generalize initial_state as st.
  induction es as [|e es IH]; intros st Hok; cbn; [exact Hok|].
  apply IH, handle_event_table_ok, Hok.
Qed.

(** *** Session flags *)

Lemma str_eq_spec v s : str_eq v s = true <-> v = JStr s.
Proof.
  destruct v; cbn; try (split; [discriminate | intros; discriminate]).
  rewrite String.eqb_eq. split; [intros ->; reflexivity | congruence].
Qed.

Lemma sync_end_failed st status data :
  status <> JStr "ok" ->
  sync_end (status, data) st
  = (Return false, set_logbook (logbook st ++ [LogSyncFailed data]) st).
Proof.
  intros Hne. unfold sync_end. cbn [fst snd].
  destruct (str_eq status "ok") eqn:E.
  - apply str_eq_spec in E. contradiction.
  - reflexivity.
Qed.

Lemma sync_end_ok st d :
  sync_end (JStr "ok", JObj d) st
  = (Return true,
     set_synced true
       (set_logbook
          (logbook st
             ++ [LogSynced (dict_get_default "os" (JStr "?") d)
                   (dict_get_default "protocol" (JStr "?") d)]) st)).
Proof. reflexivity. Qed.

Lemma sync_end_synced st r :
  synced (snd (sync_end r st)) = true ->
  synced st = true \/ fst r = JStr "ok".
Proof.
  destruct r as [status data]. unfold sync_end. cbn [fst snd].
  destruct (str_eq status "ok") eqn:E.
  - intros _. right. apply str_eq_spec. exact E.
  - intros H. left. exact H.
Qed.

Lemma connect_begins_sync daemon st utc tz :
  exists st',
    step daemon (Connecting, st) (ConnectSucceeds utc tz)
    = (Syncing (length (futures st)), st')
    /\ connected st' = true
    /\ synced st' = synced st
    /\ futures st' = futures st ++ [FPending]
    /\ pending_responses st' !! (request_id st + 1)
       = Some (length (futures st))
    /\ outbox st'
       = outbox st
           ++ [ToRx (dumps false
                       (JList [JInt (request_id st + 1); JStr "sys";
                               JStr "sync"; sync_args utc tz]))].
Proof.
  cbn [step]. unfold connect_up, sync_begin. unfold bind at 1 2 3 4.
  unfold log at 1 2 3. unfold modify at 1 2 3 4. cbn beta iota.
  set (st0 :=
         set_logbook _ (set_logbook _ (set_connected true (set_logbook _ st)))).
  destruct (send_begin_eval "sys" "sync" (sync_args utc tz) true st0)
    as (st1 & E & Hc & Hp & Hf & _ & _ & Hcon & Hsyn & Hout).
  rewrite E. exists st1. split; [reflexivity|].
  split; [rewrite Hcon; reflexivity|].
  split; [rewrite Hsyn; reflexivity|].
  split; [rewrite Hf; reflexivity|].
  split; [rewrite Hp; apply lookup_insert_eq|].
  rewrite Hout. reflexivity.
Qed.

Lemma handle_event_synced st e :
  synced (handle_event st e)
  = match e with Disconnect => false | _ => synced st end.
Proof.
  destruct e as [[text|msg]|data| |r|subsystem cmd args wait].
  - reflexivity.
  - destruct msg as [| | | | |[|k [|status rest]]|];
      try (unfold handle_event, handler, _on_tx_notify;
           match goal with
           | |- context [is_fetch_request ?m] => destruct (is_fetch_request m)
           end; reflexivity).
    rewrite handle_response. cbn zeta.
    destruct (table_key k) as [[z|]|err]; try reflexivity.
    destruct (pending_responses st !! z) as [ref'|]; try reflexivity.
    destruct (futures st !! ref') as [[| |]|]; reflexivity.
  - unfold handle_event, handler, _on_bin_notify.
    destruct data as [|lo [|hi payload]]; try reflexivity.
    run_monad. st_simpl.
    destruct (unpack_H lo hi =? 0); st_simpl;
      match goal with |- context [if ?c then _ else _] => destruct c end;
      reflexivity.
  - reflexivity.
  - rewrite handle_deadline.
    destruct (pending_responses st !! r); reflexivity.
  - destruct (send_begin_eval subsystem cmd args wait st)
      as (st1 & E & _ & _ & _ & _ & _ & _ & Hs & _).
    unfold handle_event, handler, bind. rewrite E. exact Hs.
Qed.

Lemma after_connect_synced daemon st :
  synced (snd (after_connect daemon st)) = synced st.
Proof.
  unfold after_connect, daemon_wait, after_session, log, modify. st_simpl.
  destruct daemon; destruct (connected st); reflexivity.
Qed.

Lemma finish_sync_synced daemon r st :
  synced (snd (finish_sync daemon r st)) = true ->
  synced st = true \/ fst r = JStr "ok".
Proof.
  unfold finish_sync. intros H. apply sync_end_synced.
  destruct (sync_end r st) as [[b|e] st'].
  - rewrite after_connect_synced in H. exact H.
  - exact H.
Qed.

(** Nothing but the end of a handshake answered "ok" sets the flag. *)
Lemma step_synced daemon p st ev :
  synced (snd (step daemon (p, st) ev)) = true ->
  synced st = true
  \/ exists ref e r,
       p = Syncing ref /\ ev = Loop e
       /\ poll ref (handle_event st e) = Some r /\ fst r = JStr "ok".
Proof.
  intros H.
  assert (Hev : forall e, synced (handle_event st e) = true ->
                          synced st = true).
  { intros e He. rewrite handle_event_synced in He.
    destruct e; try exact He; discriminate. }
  destruct ev as [e|found|utc tz| |c].
  - destruct p; cbn [step snd] in H; try (left; eapply Hev; exact H).
    destruct (poll ref (handle_event st e)) as [r|] eqn:P;
      [|left; eapply Hev; exact H].
    destruct (finish_sync_synced _ _ _ H) as [Hs|Hok].
    + left. eapply Hev; exact Hs.
    + right. exists ref, e, r. repeat split; assumption.
  - left. destruct p; cbn [step snd] in H; try exact H.
    destruct found; exact H.
  - left. destruct p; exact H.
  - left. destruct p; cbn [step snd] in H; try exact H.
    unfold daemon_wait, after_session, log, modify in H. st_simpl.
    destruct (connected st); exact H.
  - left. destruct p; destruct c; cbn [step snd] in H; try exact H.
    destruct (connected st); exact H.
Qed.

Lemma run_events_synced es st :
  synced (run_events st es) = true -> synced st = true.
Proof.
  revert st. induction es as [|e es IH]; intros st H; [exact H|].
  unfold run_events in *. cbn [fold_left] in H. apply IH in H.
  rewrite handle_event_synced in H. destruct e; try exact H; discriminate.
Qed.

Lemma sync_begin_eval utc tz st :
  sync_begin utc tz st
  = send_begin "sys" "sync" (sync_args utc tz) true
      (set_logbook (logbook st ++ [LogSync utc tz]) st).
Proof. reflexivity. Qed.

(** [sync] from its command to its return: a response "ok" with an object
    sets the flag and gives [True]; any other response, and the deadline,
    give [False] and never set the flag. *)
Lemma sync_outcomes st utc tz pre post :
  table_ok st ->
  let rid := request_id st + 1 in
  Forall (fun e => settles rid e = false) pre ->
  (forall k d,
      table_key k = Return (Some rid) ->
      exists st',
        sync utc tz
          (pre ++ TxNotify (Json (JList [k; JStr "ok"; JObj d])) :: post) st
        = Some (Return true, st')
        /\ synced st' = true)
  /\
  (forall k status rest,
      table_key k = Return (Some rid) ->
      status <> JStr "ok" ->
      exists st',
        sync utc tz
          (pre ++ TxNotify (Json (JList (k :: status :: rest))) :: post) st
        = Some (Return false, st')
        /\ (synced st' = true -> synced st = true))
  /\
  (exists st',
      sync utc tz (pre ++ Deadline rid :: post) st = Some (Return false, st')
      /\ (synced st' = true -> synced st = true)).
Proof.
  intros Hok rid Hpre.
  unfold sync. rewrite sync_begin_eval.
  set (st0 := set_logbook _ st).
  assert (Hok0 : table_ok st0) by exact Hok.
  destruct (send_begin_eval "sys" "sync" (sync_args utc tz) true st0)
    as (st1 & E & Hc & Hp & Hf & _ & _ & _ & Hs & _).
  rewrite E.
  assert (Hok1 : table_ok st1).
  { unfold table_ok. rewrite Hc, Hp, Hf. apply table_inv_submit. exact Hok0. }
  assert (Hrid1 : pending_responses st1 !! rid = Some (length (futures st0))).
  { rewrite Hp. apply lookup_insert_eq. }
  destruct (await_resolved st1 rid _ pre post Hok1 Hrid1 Hpre)
    as (_ & Hresp & Htime).
  assert (Hback : forall st', synced st' = synced (run_events st1 pre) ->
                              synced st' = true -> synced st = true).
  { intros st' Heq H. rewrite Heq in H. apply run_events_synced in H.
    rewrite Hs in H. exact H. }
  split; [|split].
  - intros k d Hk.
    destruct (Hresp k (JStr "ok") [JObj d] Hk) as (st' & Hw & _ & _).
    rewrite Hw. cbn [payload_of]. rewrite sync_end_ok.
    eexists. split; reflexivity.
  - intros k status rest Hk Hne.
    destruct (Hresp k status rest Hk) as (st' & Hw & _ & Hsy).
    rewrite Hw. rewrite (sync_end_failed _ _ _ Hne).
    eexists. split; [reflexivity|]. st_simpl. apply Hback. exact Hsy.
  - destruct Htime as (st' & Hw & _ & Hsy).
    rewrite Hw. unfold timeout_result.
    rewrite sync_end_failed by discriminate.
    eexists. split; [reflexivity|]. st_simpl. apply Hback. exact Hsy.
Qed.


(** *** From the frame to the task *)

Lemma fetch_frame_spawned msg st :
  is_fetch_request msg = true ->
  _on_tx_notify (Json msg) st
  = (Return tt, set_spawned (spawned st ++ [msg]) st).
Proof. intros H. unfold _on_tx_notify. rewrite H. reflexivity. Qed.

(** ** Further properties *)

(** *** Request ids *)

Lemma handle_event_counter st e :
  request_id st <= request_id (handle_event st e).
Proof.
  destruct e as [[text|msg]|data| |r|subsystem cmd args wait].
  - destruct (handle_event_core_same st (TxNotify (NotJson text)) I)
      as (-> & _). lia.
  - destruct msg as [| | | | |[|k [|status rest]]|];
      try (match goal with
           | |- _ <= request_id (handle_event _ ?e) =>
               destruct (handle_event_core_same st e I) as (-> & _); lia
           end).
    rewrite handle_response. cbn zeta.
    destruct (table_key k) as [[z|]|err]; try (cbn; lia).
    destruct (pending_responses st !! z) as [ref'|]; try (cbn; lia).
    destruct (futures st !! ref') as [[| |]|]; cbn; lia.
  - destruct (handle_event_core_same st (BinNotify data) I) as (-> & _). lia.
  - destruct (handle_event_core_same st Disconnect I) as (-> & _). lia.
  - rewrite handle_deadline.
    destruct (pending_responses st !! r); cbn; lia.
  - destruct (send_begin_eval subsystem cmd args wait st)
      as (st1 & E & Hc & _).
    unfold handle_event, handler, bind. rewrite E. cbn [snd ret].
    unfold ret. cbn [snd]. lia.
Qed.

Lemma run_events_counter es st :
  request_id st <= request_id (run_events st es).
Proof.
  revert st. induction es as [|e es IH]; intros st; [cbn; lia|].
  unfold run_events in *. cbn [fold_left].
  pose proof (handle_event_counter st e). specialize (IH (handle_event st e)).
  lia.
Qed.

(** X1: in every state the process can reach, the ids in the
    pending-request table are at most the counter, the next id is not in the
    table, no turn of the loop lowers the counter, and [send] takes the id
    [request_id + 1]: an id is never given twice and a new request never
    replaces a pending one. *)
Theorem request_ids_fresh (es : list event) (e : event)
    (subsystem cmd : string) (args : json) (wait : bool) :
  let st := run_events initial_state es in
  0 <= request_id st
  /\ (forall rid ref,
        pending_responses st !! rid = Some ref -> rid <= request_id st)
  /\ pending_responses st !! (request_id st + 1) = None
  /\ request_id st <= request_id (handle_event st e)
  /\ exists st1,
       send_begin subsystem cmd args wait st
       = (Return (request_id st + 1,
                  if wait then Some (length (futures st)) else None), st1)
       /\ request_id st1 = request_id st + 1.
Proof.
  intros st.
  pose proof (run_events_table_ok es) as (Ha & Hb & Hc). fold st in Ha, Hb, Hc.
  split; [exact (run_events_counter es initial_state)|].
  split; [exact Hc|].
  split.
  { destruct (pending_responses st !! (request_id st + 1)) as [ref|] eqn:E;
      [|reflexivity].
    apply Hc in E. lia. }
  split; [apply handle_event_counter|].
  destruct (send_begin_eval subsystem cmd args wait st) as (st1 & E & Hn & _).
  exists st1. split; assumption.
Qed.

(** *** What is pushed can be read back *)

Lemma send_binary_eval (data : list byte) (c : Z) (st : state) :
  0 < c ->
  chunk_count (len data) c <= 65536 ->
  let k := Z.to_nat (chunk_count (len data) c) in
  send_binary data c st
  = (Return (Some tt),
     set_logbook (logbook st ++ [LogBinarySent (len data) (Z.of_nat k)])
       (set_outbox
          (outbox st ++ numbered 0 (chunks k (Z.to_nat c) data)) st)).
Proof.
  intros Hc Hmax k.
  assert (Hn : 0 <= len data) by (unfold len; lia).
  assert (Hk0 : 0 <= chunk_count (len data) c).
  { unfold chunk_count. apply Z.div_pos; lia. }
  assert (Hk : Z.of_nat k = chunk_count (len data) c) by (subst k; lia).
  unfold send_binary. unfold bind at 1.
  rewrite (send_binary_loop_ok data c Hc k send_binary_fuel 0 0 st);
    try lia.
  - cbn [Z.to_nat skipn Z.add]. unfold bind, log, modify, ret.
    rewrite Z.add_0_l. reflexivity.
  - rewrite Z.sub_0_r. exact Hk.
  - unfold send_binary_fuel. lia.
Qed.

Lemma chunks_cover (data : list byte) (c : Z) :
  0 < c ->
  concat (chunks (Z.to_nat (chunk_count (len data) c)) (Z.to_nat c) data)
  = data.
Proof.
  intros Hc. apply concat_chunks.
  assert (Hn : 0 <= len data) by (unfold len; lia).
  assert (Hk0 : 0 <= chunk_count (len data) c).
  { unfold chunk_count. apply Z.div_pos; lia. }
  assert (len data <= chunk_count (len data) c * c).
  { unfold chunk_count.
    pose proof (Z.mul_div_le (len data + c - 1) c Hc).
    pose proof (Z.mod_pos_bound (len data + c - 1) c Hc).
    pose proof (Z.div_mod (len data + c - 1) c). lia. }
  unfold len in *. nia.
Qed.

Lemma feed_expected frames st :
  bin_expected_size (feed frames st) = bin_expected_size st.
Proof.
  revert st. induction frames as [|f frames IH]; intros st; [reflexivity|].
  unfold feed in *. cbn [fold_left]. rewrite IH. apply bin_notify_expected.
Qed.

Lemma feed_numbered (ps : list (list byte)) :
  forall (i : Z) (st : state),
    1 <= i -> i + Z.of_nat (length ps) <= 65536 ->
    bin_buffer (feed (bin_frames (numbered i ps)) st)
    = bin_buffer st ++ concat ps.
Proof.
  induction ps as [|p ps IH]; intros i st Hi Hmax.
  - cbn. rewrite app_nil_r. reflexivity.
  - cbn [length] in Hmax.
    destruct (unpack_le16 i) as (lo & hi & Hle & Hun); [lia|].
    cbn [numbered bin_frames flat_map app]. rewrite Hle. cbn [app].
    change (feed ((lo :: hi :: p) :: ?fs) st)
      with (feed fs (snd (_on_bin_notify (lo :: hi :: p) st))).
    fold (bin_frames (numbered (i + 1) ps)).
    rewrite IH by lia. rewrite bin_notify_buffer, Hun.
    replace (i =? 0) with false by (symmetry; apply Z.eqb_neq; lia).
    cbn [concat]. rewrite <- app_assoc. reflexivity.
Qed.

Lemma feed_numbered_from_zero (ps : list (list byte)) (st : state) :
  ps <> [] ->
  Z.of_nat (length ps) <= 65536 ->
  bin_buffer (feed (bin_frames (numbered 0 ps)) st) = concat ps.
Proof.
  intros Hne Hmax. destruct ps as [|p ps]; [contradiction|].
  cbn [length] in Hmax.
  cbn [numbered bin_frames flat_map app].
  change (le16 0 ++ p) with (x00 :: x00 :: p).
  change (feed ((x00 :: x00 :: p) :: ?fs) st)
    with (feed fs (snd (_on_bin_notify (x00 :: x00 :: p) st))).
  fold (bin_frames (numbered (0 + 1) ps)).
  rewrite feed_numbered by lia. rewrite bin_notify_buffer.
  reflexivity.
Qed.

(** X4: the chunks [send_binary] writes are chunks as [_on_bin_notify] reads
    them: for a positive chunk size and data that needs at most 65536
    chunks, a receiver running [_on_bin_notify] on the packets written, in
    order, ends with a buffer that is exactly the data, whatever the buffer
    held before (with no data nothing is written and the buffer is left
    alone), and the transfer then counts as complete against an expected
    size equal to the length of the data. *)
Theorem binary_push_round_trip (data : list byte) (c : Z) (st0 st : state) :
  0 < c ->
  chunk_count (len data) c <= 65536 ->
  exists ps,
    outbox (snd (send_binary data c st0)) = outbox st0 ++ ps
    /\ Z.of_nat (length ps) = chunk_count (len data) c
    /\ bin_buffer (feed (bin_frames ps) st)
       = (if nonempty data then data else bin_buffer st)
    /\ (bin_expected_size st = len data ->
        is_complete (feed (bin_frames ps) st) = true).
Proof.
  intros Hc Hmax.
  assert (Hn : 0 <= len data) by (unfold len; lia).
  assert (Hk0 : 0 <= chunk_count (len data) c).
  { unfold chunk_count. apply Z.div_pos; lia. }
  set (k := Z.to_nat (chunk_count (len data) c)).
  set (payloads := chunks k (Z.to_nat c) data).
  assert (Hlen : length payloads = k) by apply length_chunks.
  assert (Hcat : concat payloads = data) by (apply chunks_cover; exact Hc).
  assert (Hbuf : bin_buffer (feed (bin_frames (numbered 0 payloads)) st)
                 = if nonempty data then data else bin_buffer st).
  { destruct data as [|b data'] eqn:D.
    - assert (Hz : k = O).
      { subst k. unfold chunk_count, len. cbn [length Z.of_nat].
        rewrite Z.div_small by lia. reflexivity. }
      subst payloads. rewrite Hz. reflexivity.
    - cbn [nonempty]. rewrite <- Hcat.
      apply feed_numbered_from_zero; [|lia].
      intros E. rewrite E in Hcat. discriminate. }
  exists (numbered 0 payloads).
  split; [rewrite send_binary_eval by assumption; reflexivity|].
  split.
  { assert (Hnum : forall i ps, length (numbered i ps) = length ps).
    { intros i ps. revert i. induction ps as [|q ps IH]; intros i;
        [reflexivity|]. cbn. rewrite IH. reflexivity. }
    rewrite Hnum, Hlen. subst k. lia. }
  split; [exact Hbuf|].
  intros Hexp. unfold is_complete. rewrite feed_expected, Hexp, Hbuf.
  destruct data; [|cbn [nonempty]; apply Z.leb_le; lia].
  cbn [nonempty]. apply Z.leb_le. unfold len in *. cbn [length Z.of_nat]. lia.
Qed.

(** *** The offset of the local zone *)

Lemma fmt_02d_two_digits (n : Z) :
  0 <= n < 100 -> fmt_02d n = two_digits n.
Proof.
  intros Hn.
  assert (H : exists k : nat, n = Z.of_nat k /\ (k < 100)%nat).
  { exists (Z.to_nat n). split; lia. }
  destruct H as (k & -> & Hk).
  do 100 (destruct k as [|k]; [vm_compute; reflexivity|]).
  lia.
Qed.

(** X10: for an offset of less than a day either way, [get_local_timezone]
    gives six characters: the sign, two digits of hours, a colon and two
    digits of minutes, with at most 23 hours and 59 minutes.  The hours and
    minutes are those of the size of the offset cut down to a whole minute,
    so seconds are dropped, not rounded, and an offset between 0 and minus
    one minute reads as minus zero. *)
Theorem local_timezone_format (total_seconds : Z) :
  -86400 < total_seconds < 86400 ->
  let h := Z.abs total_seconds / 3600 in
  let m := Z.abs total_seconds mod 3600 / 60 in
  get_local_timezone total_seconds
  = String (if 0 <=? total_seconds then "+"%char else "-"%char)
      (String.append (two_digits h) (String ":"%char (two_digits m)))
  /\ String.length (get_local_timezone total_seconds) = 6%nat
  /\ 0 <= h <= 23
  /\ 0 <= m <= 59
  /\ 3600 * h + 60 * m <= Z.abs total_seconds < 3600 * h + 60 * m + 60.
Proof.
  intros Hs h m.
  assert (Ha : 0 <= Z.abs total_seconds < 86400) by lia.
  assert (Hh : 0 <= h <= 23).
  { subst h. split; [apply Z.div_pos; lia|].
    assert (Z.abs total_seconds / 3600 < 24); [|lia].
    apply Z.div_lt_upper_bound; lia. }
  assert (Hr : 0 <= Z.abs total_seconds mod 3600 < 3600)
    by (apply Z.mod_pos_bound; lia).
  assert (Hm : 0 <= m <= 59).
  { subst m. split; [apply Z.div_pos; lia|].
    assert (Z.abs total_seconds mod 3600 / 60 < 60); [|lia].
    apply Z.div_lt_upper_bound; lia. }
  assert (Htext :
    get_local_timezone total_seconds
    = String (if 0 <=? total_seconds then "+"%char else "-"%char)
        (String.append (two_digits h) (String ":"%char (two_digits m)))).
  { unfold get_local_timezone. cbn zeta. fold h. fold m.
    rewrite !fmt_02d_two_digits by lia.
    destruct (0 <=? total_seconds); reflexivity. }
  split; [exact Htext|].
  split; [rewrite Htext; reflexivity|].
  split; [exact Hh|]. split; [exact Hm|].
  subst h m.
  pose proof (Z.div_mod (Z.abs total_seconds) 3600).
  pose proof (Z.div_mod (Z.abs total_seconds mod 3600) 60).
  pose proof (Z.mod_pos_bound (Z.abs total_seconds mod 3600) 60).
  lia.
Qed.

(** *** Splitting the arguments of a command line *)

Section CommandLine.

Variable py_int : string -> option Z.
Variable py_float : string -> option pyfloat.

Local Abbreviation typed := (_auto_type py_int py_float).
Local Abbreviation scan_from := (split_scan py_int py_float).
Local Abbreviation flush := (split_flush py_int py_float).
Local Abbreviation split := (_split_args py_int py_float).

Lemma append_assoc (a b c : string) :
  String.append (String.append a b) c = String.append a (String.append b c).
Proof.
  induction a as [|x a IH]; [reflexivity|].
  change (String x (String.append (String.append a b) c)
          = String x (String.append a (String.append b c))).
  rewrite IH. reflexivity.
Qed.

Lemma append_empty_r (a : string) : String.append a "" = a.
Proof.
  induction a as [|x a IH]; [reflexivity|].
  change (String x (String.append a "") = String x a).
  rewrite IH. reflexivity.
Qed.

Lemma str_truthy_false (a : string) : str_truthy a = false -> a = "".
Proof.
  unfold str_truthy. intros H. apply String.eqb_eq.
  destruct (String.eqb a ""); [reflexivity | discriminate].
Qed.

Lemma split_scan_app (a b : string) (s : split_state) :
  scan_from (String.append a b) s = scan_from b (scan_from a s).
Proof.
  revert s. induction a as [|ch a IH]; intros s; cbn; [reflexivity|apply IH].
Qed.

(** Arguments already collected are carried along unchanged, and the quote
    character last seen matters only inside a quote. *)
Lemma split_step_prefix (A : list json) (s s' : split_state) (ch : ascii) :
  sp_args s = A ++ sp_args s' ->
  sp_current s = sp_current s' ->
  sp_in_quote s = sp_in_quote s' ->
  (sp_in_quote s = true -> sp_quote_char s = sp_quote_char s') ->
  let t := split_step py_int py_float s ch in
  let t' := split_step py_int py_float s' ch in
  sp_args t = A ++ sp_args t'
  /\ sp_current t = sp_current t'
  /\ sp_in_quote t = sp_in_quote t'
  /\ (sp_in_quote t = true -> sp_quote_char t = sp_quote_char t').
Proof.
  destruct s as [a c q k], s' as [a' c' q' k']. cbn.
  intros -> <- <- Hk. unfold split_step. cbn.
  destruct q.
  - rewrite <- (Hk eq_refl).
    destruct (match k with Some x => Ascii.eqb ch x | None => false end);
      cbn; repeat split; try reflexivity; intros; try discriminate;
      apply Hk; reflexivity.
  - destruct (is_quote ch); cbn; [repeat split; reflexivity|].
    destruct (Ascii.eqb ch " "); cbn.
    + destruct (str_truthy c); cbn; repeat split; try reflexivity;
        try (intros; discriminate).
      rewrite app_assoc. reflexivity.
    + repeat split; try reflexivity. intros; discriminate.
Qed.

Lemma split_scan_prefix (A : list json) (raw : string) :
  forall s s',
    sp_args s = A ++ sp_args s' ->
    sp_current s = sp_current s' ->
    sp_in_quote s = sp_in_quote s' ->
    (sp_in_quote s = true -> sp_quote_char s = sp_quote_char s') ->
    flush (scan_from raw s) = A ++ flush (scan_from raw s').
Proof.
  induction raw as [|ch raw IH]; intros s s' Ha Hc Hq Hk.
  - cbn. unfold split_flush. rewrite Ha, Hc.
    destruct (str_truthy (sp_current s')); [rewrite app_assoc|]; reflexivity.
  - cbn [split_scan].
    destruct (split_step_prefix A s s' ch Ha Hc Hq Hk) as (H1 & H2 & H3 & H4).
    apply IH; assumption.
Qed.

Lemma split_args_space (a b : string) :
  sp_in_quote (scan_from a (SplitState [] "" false None)) = false ->
  split (String.append a (String " " b)) = split a ++ split b.
Proof.
  intros Hq. unfold _split_args. rewrite split_scan_app.
  set (s1 := scan_from a (SplitState [] "" false None)) in *.
  cbn [split_scan].
  apply split_scan_prefix.
  - unfold split_step, split_flush. rewrite Hq.
    change (is_quote " ") with false. cbn [Ascii.eqb].
    change (Ascii.eqb " " " ") with true. cbn beta iota.
    destruct (str_truthy (sp_current s1)); cbn; rewrite app_nil_r;
      reflexivity.
  - unfold split_step. rewrite Hq.
    change (is_quote " ") with false.
    change (Ascii.eqb " " " ") with true. cbn beta iota.
    destruct (str_truthy (sp_current s1)) eqn:T; cbn; [reflexivity|].
    apply str_truthy_false. exact T.
  - unfold split_step. rewrite Hq.
    change (is_quote " ") with false.
    change (Ascii.eqb " " " ") with true. cbn beta iota.
    destruct (str_truthy (sp_current s1)); cbn; [reflexivity | exact Hq].
  - unfold split_step. rewrite Hq.
    change (is_quote " ") with false.
    change (Ascii.eqb " " " ") with true. cbn beta iota.
    destruct (str_truthy (sp_current s1)); cbn; [discriminate|].
    rewrite Hq. discriminate.
Qed.

Lemma split_scan_plain (t : string) :
  plain t = true ->
  forall A cur qc,
    scan_from t (SplitState A cur false qc)
    = SplitState A (String.append cur t) false qc.
Proof.
  induction t as [|ch t IH]; intros Hp A cur qc.
  - cbn. rewrite append_empty_r. reflexivity.
  - cbn [plain] in Hp. apply andb_prop in Hp as [Hp Ht].
    apply andb_prop in Hp as [Hq Hs].
    cbn [split_scan]. unfold split_step at 1. cbn.
    destruct (is_quote ch); [discriminate|].
    destruct (Ascii.eqb ch " "); [discriminate|].
    rewrite (IH Ht). rewrite append_assoc. reflexivity.
Qed.

Lemma split_scan_quoted (q : ascii) (t : string) :
  lacks q t = true ->
  forall A cur,
    scan_from t (SplitState A cur true (Some q))
    = SplitState A (String.append cur t) true (Some q).
Proof.
  induction t as [|ch t IH]; intros Hl A cur.
  - cbn. rewrite append_empty_r. reflexivity.
  - cbn [lacks] in Hl. apply andb_prop in Hl as [Hq Ht].
    cbn [split_scan]. unfold split_step at 1. cbn.
    destruct (Ascii.eqb ch q); [discriminate|].
    rewrite (IH Ht). rewrite append_assoc. reflexivity.
Qed.

(** X11: a space outside quotes separates: when the quotes of [a] are
    closed at its end, the arguments of [a], a space and [b] are the
    arguments of [a] followed by the arguments of [b].  Hence several spaces
    in a row, and spaces at either end, add no argument. *)
Theorem split_args_at_space (a b : string) :
  sp_in_quote (split_scan py_int py_float a (SplitState [] "" false None))
  = false ->
  _split_args py_int py_float (String.append a (String " " b))
  = _split_args py_int py_float a ++ _split_args py_int py_float b.
Proof. apply split_args_space. Qed.

Lemma split_args_plain_words (words : list string) :
  Forall (fun w => plain w = true /\ w <> "") words ->
  split (String.concat " " words) = map typed words.
Proof.
  assert (Hone : forall w, plain w = true -> w <> "" -> split w = [typed w]).
  { intros w Hp Hne. unfold _split_args. rewrite (split_scan_plain w Hp).
    change (String.append "" w) with w.
    unfold split_flush. cbn [sp_current sp_args app].
    destruct (str_truthy w) eqn:T; [reflexivity|].
    apply str_truthy_false in T. contradiction. }
  induction 1 as [|w words [Hp Hne] Hws IH]; [reflexivity|].
  destruct words as [|w2 words].
  - cbn. apply Hone; assumption.
  - change (String.concat " " (w :: w2 :: words))
      with (String.append w (String " " (String.concat " " (w2 :: words)))).
    rewrite split_args_space.
    + rewrite IH, (Hone w Hp Hne). reflexivity.
    + rewrite (split_scan_plain w Hp). reflexivity.
Qed.

(** X12: words that hold no space and no quote character, joined by single
    spaces, come back as one argument each, in order, every word converted
    by [_auto_type]. *)
Theorem split_args_words (words : list string) :
  Forall (fun w => plain w = true /\ w <> "") words ->
  _split_args py_int py_float (String.concat " " words)
  = map (_auto_type py_int py_float) words.
Proof. apply split_args_plain_words. Qed.

(** X13: a text between two quote characters of the same kind, free of that
    character, is one argument, spaces and quote characters of the other
    kind included, and the closing quote may be missing.  The quotes do not
    protect the text from [_auto_type]: a quoted numeral is sent as a
    number.  An empty pair of quotes gives no argument at all. *)
Theorem split_args_quoted (q : ascii) (t : string) :
  is_quote q = true ->
  lacks q t = true ->
  let arguments :=
    if str_truthy t then [_auto_type py_int py_float t] else [] in
  _split_args py_int py_float (String q (String.append t (String q "")))
  = arguments
  /\ _split_args py_int py_float (String q t) = arguments.
Proof.
  intros Hq Hl arguments. subst arguments.
  unfold _split_args. cbn [split_scan].
  assert (Hopen : split_step py_int py_float (SplitState [] "" false None) q
                  = SplitState [] "" true (Some q)).
  { unfold split_step. cbn. rewrite Hq. reflexivity. }
  rewrite Hopen. split.
  - rewrite split_scan_app, (split_scan_quoted q t Hl). cbn [split_scan].
    change (String.append "" t) with t.
    unfold split_step. cbn [sp_in_quote sp_quote_char sp_args sp_current].
    rewrite Ascii.eqb_refl.
    unfold split_flush. cbn [sp_current sp_args app].
    destruct (str_truthy t); reflexivity.
  - rewrite (split_scan_quoted q t Hl).
    change (String.append "" t) with t.
    unfold split_flush. cbn [sp_current sp_args app].
    destruct (str_truthy t); reflexivity.
Qed.

End CommandLine.

(** *** Discovery *)

Lemma insert_by_rssi_front (d : device) (l : list device) :
  Forall (fun x => rssi x <= rssi d) l -> insert_by_rssi d l = d :: l.
Proof.
  intros H. destruct l as [|x l]; [reflexivity|].
  apply Forall_inv in H. cbn.
  replace (rssi x <=? rssi d) with true by (symmetry; apply Z.leb_le; exact H).
  reflexivity.
Qed.

Lemma insert_by_rssi_perm (d : device) (l : list device) :
  Permutation (insert_by_rssi d l) (d :: l).
Proof.
  induction l as [|x l IH]; [reflexivity|]. cbn.
  destruct (rssi x <=? rssi d); [reflexivity|].
  rewrite IH. apply perm_swap.
Qed.

Lemma insert_by_rssi_descending (d : device) (l : list device) :
  descending l -> descending (insert_by_rssi d l).
Proof.
  induction l as [|x l IH]; intros Hl.
  - cbn. split; [constructor | exact I].
  - destruct Hl as [Hx Hl]. cbn [insert_by_rssi].
    destruct (rssi x <=? rssi d) eqn:E.
    + apply Z.leb_le in E. cbn. repeat split; try assumption.
      constructor; [exact E|].
      eapply Forall_impl; [exact Hx|]. cbn. intros y Hy. lia.
    + apply Z.leb_gt in E. cbn. split; [|apply IH; exact Hl].
      rewrite (insert_by_rssi_perm d l).
      constructor; [lia | exact Hx].
Qed.

Lemma sorted_by_rssi_descending (l : list device) :
  descending (sorted_by_rssi l).
Proof.
  induction l as [|d l IH]; [exact I|].
  apply insert_by_rssi_descending. exact IH.
Qed.

Lemma filter_insert_by_rssi (p : device -> bool) (d : device)
    (l : list device) :
  descending l ->
  List.filter p (insert_by_rssi d l)
  = if p d then insert_by_rssi d (List.filter p l) else List.filter p l.
Proof.
  induction l as [|x l IH]; intros Hl.
  - cbn. destruct (p d); reflexivity.
  - destruct Hl as [Hx Hl]. cbn [insert_by_rssi].
    destruct (rssi x <=? rssi d) eqn:E.
    + apply Z.leb_le in E. cbn [List.filter].
      destruct (p d); [|reflexivity].
      destruct (p x).
      * cbn [insert_by_rssi].
        replace (rssi x <=? rssi d) with true
          by (symmetry; apply Z.leb_le; exact E).
        reflexivity.
      * symmetry. apply insert_by_rssi_front.
        apply List.Forall_forall. intros y Hy.
        apply filter_In in Hy as [Hy _].
        rewrite List.Forall_forall in Hx. specialize (Hx y Hy). cbn in Hx. lia.
    + cbn [List.filter]. destruct (p x).
      * rewrite (IH Hl). destruct (p d); [|reflexivity].
        cbn [insert_by_rssi]. rewrite E. reflexivity.
      * apply IH. exact Hl.
Qed.

Lemma filter_sorted_by_rssi (p : device -> bool) (l : list device) :
  List.filter p (sorted_by_rssi l) = sorted_by_rssi (List.filter p l).
Proof.
  induction l as [|d l IH]; [reflexivity|].
  cbn [sorted_by_rssi foldr]. fold (sorted_by_rssi l).
  rewrite filter_insert_by_rssi by apply sorted_by_rssi_descending.
  rewrite IH. cbn [List.filter]. destruct (p d); reflexivity.
Qed.

Lemma sorted_by_rssi_perm (l : list device) :
  Permutation (sorted_by_rssi l) l.
Proof.
  induction l as [|d l IH]; [reflexivity|].
  cbn [sorted_by_rssi foldr]. fold (sorted_by_rssi l).
  rewrite insert_by_rssi_perm, IH. reflexivity.
Qed.

Lemma sorted_by_rssi_fixes (l : list device) :
  descending l -> sorted_by_rssi l = l.
Proof.
  induction l as [|d l IH]; intros Hl; [reflexivity|].
  destruct Hl as [Hd Hl].
  cbn [sorted_by_rssi foldr]. fold (sorted_by_rssi l).
  rewrite (IH Hl). apply insert_by_rssi_front. exact Hd.
Qed.

Lemma scan_loop (l : list device) (found : list string) :
  fold_left
    (fun found d =>
       if is_substring DEVICE_NAME (display_name d)
       then found ++ [address d] else found) l found
  = found ++ map address (List.filter named l).
Proof.
  revert found. induction l as [|d l IH]; intros found.
  - cbn. rewrite app_nil_r. reflexivity.
  - cbn [fold_left List.filter]. rewrite IH. unfold named at 2.
    destruct (is_substring DEVICE_NAME (display_name d)); [|reflexivity].
    cbn [map]. rewrite <- app_assoc. reflexivity.
Qed.

Lemma descending_equal (r : Z) (l : list device) :
  Forall (fun d => rssi d = r) l -> descending l.
Proof.
  induction 1 as [|d l Hd Hl IH]; [exact I|].
  cbn. split; [|exact IH].
  eapply Forall_impl; [exact Hl|]. cbn. intros x Hx. lia.
Qed.

(** X14: [scan] returns the addresses of exactly the devices whose name
    holds "FutureClock", a device without a name never being one of them,
    each as often as it was discovered; they come in the order of their
    signal, the strongest first; devices of equal strength keep the order of
    discovery among themselves, and devices that were discovered in the
    order of their signal already keep that order. *)
Theorem scan_strongest_first (devices : list device) :
  scan devices = map address (sorted_by_rssi (List.filter named devices))
  /\ Permutation (sorted_by_rssi (List.filter named devices))
       (List.filter named devices)
  /\ descending (sorted_by_rssi (List.filter named devices))
  /\ (forall r,
        List.filter (fun d => rssi d =? r)
          (sorted_by_rssi (List.filter named devices))
        = List.filter (fun d => rssi d =? r) (List.filter named devices))
  /\ (descending devices ->
      scan devices = map address (List.filter named devices))
  /\ (forall d, In d devices -> name d = None -> named d = false).
Proof.
  assert (Hscan : scan devices
                  = map address (sorted_by_rssi (List.filter named devices))).
  { unfold scan. rewrite scan_loop. cbn [app].
    rewrite filter_sorted_by_rssi. reflexivity. }
  split; [exact Hscan|].
  split; [apply sorted_by_rssi_perm|].
  split; [apply sorted_by_rssi_descending|].
  split.
  { intros r. rewrite filter_sorted_by_rssi. apply sorted_by_rssi_fixes.
    apply (descending_equal r). apply List.Forall_forall.
    intros d Hd. apply filter_In in Hd as [_ Hd]. apply Z.eqb_eq. exact Hd. }
  split.
  - intros Hd. rewrite Hscan. f_equal. apply sorted_by_rssi_fixes.
    clear Hscan. induction devices as [|d l IH]; [exact I|].
    destruct Hd as [Hd Hl]. cbn [List.filter].
    destruct (named d); [|apply IH; exact Hl].
    cbn. split; [|apply IH; exact Hl].
    apply List.Forall_forall. intros y Hy. apply filter_In in Hy as [Hy _].
    rewrite List.Forall_forall in Hd. apply Hd. exact Hy.
  - intros d _ Hn. unfold named, display_name. rewrite Hn. reflexivity.
Qed.

(** *** What the turns of the loop leave alone *)

Lemma bin_frames_app (a b : list packet) :
  bin_frames (a ++ b) = bin_frames a ++ bin_frames b.
Proof. unfold bin_frames. apply flat_map_app. Qed.

Ltac same_transport :=
  split; [reflexivity|]; split; [try reflexivity; exact I|];
  exists []; rewrite app_nil_r; split; reflexivity.

(** No turn of the loop changes the expected size or writes on the binary
    channel, and only a binary notification changes the chunk buffer. *)
Lemma handle_event_transport st e :
  bin_expected_size (handle_event st e) = bin_expected_size st
  /\ match e with
     | BinNotify _ => True
     | _ => bin_buffer (handle_event st e) = bin_buffer st
     end
  /\ exists mid,
       outbox (handle_event st e) = outbox st ++ mid /\ bin_frames mid = [].
Proof.
  destruct e as [[text|msg]|data| |r|subsystem cmd args wait].
  - same_transport.
  - destruct msg as [| | | | |[|k [|status rest]]|d];
      try same_transport.
    + rewrite handle_response. cbn zeta.
      destruct (table_key k) as [[z|]|err]; try same_transport.
      destruct (pending_responses st !! z) as [ref|]; try same_transport.
      destruct (futures st !! ref) as [[| |]|]; same_transport.
    + unfold handle_event, handler, _on_tx_notify.
      destruct (is_fetch_request (JObj d)); same_transport.
  - split; [apply bin_notify_expected|]. split; [exact I|].
    exists []. rewrite app_nil_r. split; [|reflexivity].
    unfold handle_event, handler, _on_bin_notify.
    destruct data as [|lo [|hi payload]]; try reflexivity.
    run_monad. st_simpl.
    destruct (unpack_H lo hi =? 0); st_simpl;
      match goal with |- context [if ?c then _ else _] => destruct c end;
      reflexivity.
  - same_transport.
  - rewrite handle_deadline.
    destruct (pending_responses st !! r); same_transport.
  - destruct (send_begin_eval subsystem cmd args wait st)
      as (st1 & E & _ & _ & _ & Hb & Hx & _ & _ & Ho).
    assert (Hst : handle_event st (Submit subsystem cmd args wait) = st1).
    { unfold handle_event, handler, bind. rewrite E. reflexivity. }
    rewrite Hst. split; [exact Hx|]. split; [exact Hb|].
    eexists. split; [exact Ho | reflexivity].
Qed.

Lemma run_events_transport es st :
  bin_expected_size (run_events st es) = bin_expected_size st
  /\ (Forall (fun e => match e with BinNotify _ => False | _ => True end) es ->
      bin_buffer (run_events st es) = bin_buffer st)
  /\ exists mid,
       outbox (run_events st es) = outbox st ++ mid /\ bin_frames mid = [].
Proof.
  revert st. induction es as [|e es IH]; intros st.
  - split; [reflexivity|]. split; [reflexivity|].
    exists []. rewrite app_nil_r. split; reflexivity.
  - unfold run_events in *. cbn [fold_left].
    destruct (IH (handle_event st e)) as (H1 & H2 & mid2 & H3 & H4).
    destruct (handle_event_transport st e) as (G1 & G2 & mid1 & G3 & G4).
    split; [rewrite H1; exact G1|]. split.
    + intros Hall. inversion Hall as [|? ? He Hes]; subst.
      rewrite (H2 Hes). destruct e; try exact G2. contradiction.
    + exists (mid1 ++ mid2). split.
      * rewrite H3, G3, app_assoc. reflexivity.
      * rewrite bin_frames_app, G4, H4. reflexivity.
Qed.

Lemma run_events_app st es1 es2 :
  run_events st (es1 ++ es2) = run_events (run_events st es1) es2.
Proof. unfold run_events. apply fold_left_app. Qed.

(** [send] from its write to its return, with the state it returns in. *)
Lemma send_settled st subsystem cmd args pre post e :
  table_ok st ->
  Forall (fun x => settles (request_id st + 1) x = false) pre ->
  settles (request_id st + 1) e = true ->
  send subsystem cmd args true (pre ++ e :: post) st
  = Some (Return (match e with
                  | TxNotify (Json (JList (_ :: status :: rest))) =>
                      (status, payload_of rest)
                  | _ => timeout_result
                  end),
          run_events (snd (send_begin subsystem cmd args true st))
            (pre ++ [e])).
Proof.
  intros Hok Hpre He.
  destruct (send_begin_eval subsystem cmd args true st)
    as (st1 & E & Hc & Hp & Hf & _).
  set (rid := request_id st + 1) in *.
  set (ref := length (futures st)) in *.
  assert (Hok1 : table_ok st1).
  { unfold table_ok. rewrite Hc, Hp, Hf. apply table_inv_submit. exact Hok. }
  assert (Hrid1 : pending_responses st1 !! rid = Some ref).
  { rewrite Hp. apply lookup_insert_eq. }
  unfold send. rewrite E. cbn [snd].
  destruct (await_through st1 rid ref pre (e :: post) Hok1 Hrid1 Hpre)
    as (Hw & Hok2 & Hrid2).
  rewrite Hw, run_events_app.
  set (st2 := run_events st1 pre) in *.
  pose proof Hok2 as (Ha & _). pose proof (Ha _ _ Hrid2) as Hfut.
  cbn [await]. rewrite (poll_pending _ ref Hfut).
  change (run_events st2 [e]) with (handle_event st2 e).
  destruct e as [[text|msg]|data| |r|s0 c0 a0 w0]; try discriminate.
  - destruct msg as [| | | | |[|k [|status rest]]|]; try discriminate.
    cbn [settles] in He.
    destruct (table_key k) as [[z|]|err] eqn:K; try discriminate.
    apply Z.eqb_eq in He. subst z.
    rewrite handle_response. cbn zeta. rewrite K, Hrid2, Hfut.
    erewrite await_settled; [reflexivity|].
    unfold poll. st_simpl.
    rewrite list_lookup_insert_eq by (eapply lookup_lt_Some; exact Hfut).
    reflexivity.
  - cbn [settles] in He. apply Z.eqb_eq in He. subst r.
    rewrite handle_deadline, Hrid2.
    erewrite await_settled; [reflexivity|].
    unfold poll. st_simpl.
    rewrite list_lookup_insert_eq by (eapply lookup_lt_Some; exact Hfut).
    reflexivity.
Qed.

(** The packets written by a [send] that waited: its command first, then
    what other tasks sent meanwhile, none of it on the binary channel. *)
Lemma send_settled_outbox st subsystem cmd args es :
  exists mid,
    outbox (run_events (snd (send_begin subsystem cmd args true st)) es)
    = outbox st
        ++ ToRx (dumps false
                   (JList ([JInt (request_id st + 1); JStr subsystem;
                            JStr cmd]
                             ++ (if py_truthy args then [args] else []))))
        :: mid
    /\ bin_frames mid = [].
Proof.
  destruct (send_begin_eval subsystem cmd args true st)
    as (st1 & E & _ & _ & _ & _ & _ & _ & _ & Ho).
  rewrite E. cbn [snd].
  destruct (run_events_transport es st1) as (_ & _ & mid & Hm & Hb).
  exists mid. split; [|exact Hb].
  rewrite Hm, Ho, <- app_assoc. reflexivity.
Qed.

(** *** Pushing an application *)

Lemma push_args_truthy app_name files :
  py_truthy (push_args app_name files) = true.
Proof. destruct files as [|[fname fdata] [|f files]]; reflexivity. Qed.

Lemma blob_of_acc (files : list (string * list byte)) (acc : list byte) :
  fold_left (fun blob f => blob ++ snd f) files acc
  = acc ++ concat (map snd files).
Proof.
  revert acc. induction files as [|f files IH]; intros acc; cbn.
  - rewrite app_nil_r. reflexivity.
  - rewrite IH, <- app_assoc. reflexivity.
Qed.

Lemma blob_of_concat (files : list (string * list byte)) :
  blob_of files = concat (map snd files).
Proof. unfold blob_of. apply blob_of_acc. Qed.

Lemma chunks_short (k c : nat) (data : list byte) :
  Forall (fun p => (length p <= c)%nat) (chunks k c data).
Proof.
  revert data. induction k as [|k IH]; intros data; cbn; constructor.
  - rewrite length_firstn. lia.
  - apply IH.
Qed.



Lemma dict_set_fresh (k : string) (v : json) (d : dict) :
  ~ In k (map fst d) -> dict_set k v d = d ++ [(k, v)].
Proof.
  induction d as [|[k' v'] d IH]; intros Hk; [reflexivity|].
  cbn in Hk. cbn [dict_set app].
  destruct (String.eqb k k') eqn:E.
  - apply String.eqb_eq in E. subst k'. exfalso. apply Hk. left. reflexivity.
  - rewrite IH; [reflexivity|]. intros Hin. apply Hk. right. exact Hin.
Qed.

Lemma files_obj_acc (files : list (string * list byte)) :
  forall acc : dict,
    List.NoDup (map fst files) ->
    (forall f, In f files -> ~ In (fst f) (map fst acc)) ->
    fold_left (fun acc f => dict_set (fst f) (JInt (len (snd f))) acc)
      files acc
    = acc ++ map (fun f => (fst f, JInt (len (snd f)))) files.
Proof.
  induction files as [|f files IH]; intros acc Hnd Hacc.
  - cbn. rewrite app_nil_r. reflexivity.
  - cbn [map] in Hnd. inversion Hnd as [|? ? Hf Hnd']; subst.
    cbn [fold_left map].
    rewrite dict_set_fresh by (apply Hacc; left; reflexivity).
    rewrite IH; [rewrite <- app_assoc; reflexivity | exact Hnd' |].
    intros f' Hin. rewrite map_app, in_app_iff. cbn.
    intros [H | [H | []]].
    + apply (Hacc f'); [right; exact Hin | exact H].
    + apply Hf. rewrite H. apply in_map. exact Hin.
Qed.

(** X17: the sizes announced in the command "app push" are those of the
    bytes that follow: for files with distinct names, the object sent for
    several files lists every file once, in the order in which the contents
    are sent, with the length of its content, and these lengths add up to
    the length of what is sent; for a single file the size sent, in decimal,
    is the length of what is sent. *)
Theorem push_announces_sizes (app_name : string)
    (files : list (string * list byte)) :
  List.NoDup (map fst files) ->
  let sizes := map (fun f => (fst f, JInt (len (snd f)))) files in
  files_obj files = sizes
  /\ len (blob_of files) = fold_right Z.add 0 (map (fun f => len (snd f)) files)
  /\ (forall fname fdata,
        files = [(fname, fdata)] ->
        push_args app_name files
        = JList [JStr app_name; JStr fname;
                 JStr (str_of_int (len (blob_of files)))])
  /\ (length files <> 1%nat ->
      push_args app_name files
      = JList [JStr app_name; JStr "*"; JStr (dumps true (JObj sizes))]).
Proof.
  intros Hnd sizes.
  assert (Hobj : files_obj files = sizes).
  { unfold files_obj. rewrite files_obj_acc; [reflexivity | exact Hnd |].
    intros f _ []. }
  split; [exact Hobj|]. split.
  { rewrite blob_of_concat. clear. induction files as [|f files IH];
      [reflexivity|].
    cbn [map concat fold_right]. rewrite <- IH. unfold len.
    rewrite length_app. lia. }
  split.
  - intros fname fdata ->. cbn [push_args].
    unfold blob_of. cbn. reflexivity.
  - intros Hlen. rewrite <- Hobj.
    destruct files as [|[fname fdata] [|f files']]; try reflexivity.
    contradiction.
Qed.

(** *** A screenshot from the command line *)

Lemma run_events_bin (frames : list (list byte)) (st : state) :
  run_events st (map BinNotify frames) = feed frames st.
Proof.
  revert st. induction frames as [|f frames IH]; intros st; [reflexivity|].
  unfold run_events, feed in *. cbn [map fold_left]. apply IH.
Qed.

Lemma feed_app (fs1 fs2 : list (list byte)) (st : state) :
  feed (fs1 ++ fs2) st = feed fs2 (feed fs1 st).
Proof. unfold feed. apply fold_left_app. Qed.

Lemma feed_from_zero (st : state) (p0 : list byte)
    (frames : list (list byte)) :
  Forall (fun f => exists lo hi p, f = lo :: hi :: p /\ unpack_H lo hi <> 0)
    frames ->
  bin_buffer (feed ((x00 :: x00 :: p0) :: frames) st)
  = p0 ++ concat (map (skipn 2) frames).
Proof.
  intros Hframes.
  change (feed ((x00 :: x00 :: p0) :: frames) st)
    with (feed frames (snd (_on_bin_notify (x00 :: x00 :: p0) st))).
  rewrite (feed_appends frames _ Hframes), bin_notify_buffer.
  reflexivity.
Qed.

(** The wait ends at the first sleep after which the buffer is long
    enough. *)
Lemma wait_binary_frames (polls : list (list event)) :
  forall (n : nat) (st : state) (frames : list (list byte)),
    polls <> [] ->
    (length polls <= n)%nat ->
    concat polls = map BinNotify frames ->
    is_complete (feed frames st) = true ->
    exists fs1 fs2,
      frames = fs1 ++ fs2
      /\ wait_binary n polls st = Some (feed fs1 st)
      /\ is_complete (feed fs1 st) = true.
Proof.
  induction polls as [|es polls IH]; intros n st frames Hne Hn Hcat Hdone;
    [contradiction|].
  destruct n as [|n]; [cbn in Hn; lia|].
  cbn [concat] in Hcat. symmetry in Hcat.
  apply map_eq_app in Hcat as (fa & fb & -> & Ha & Hb).
  cbn [wait_binary]. rewrite <- Ha, run_events_bin.
  destruct (is_complete (feed fa st)) eqn:C.
  - exists fa, fb. split; [reflexivity|]. split; [reflexivity | exact C].
  - destruct polls as [|es' polls'].
    + cbn in Hb. destruct fb; [|discriminate].
      rewrite app_nil_r in Hdone. congruence.
    + rewrite feed_app in Hdone.
      destruct (IH n (feed fa st) fb) as (fs1 & fs2 & -> & Hw & Hc);
        [discriminate | cbn in Hn |- *; lia | symmetry; exact Hb
        | exact Hdone |].
      exists (fa ++ fs1), fs2. rewrite app_assoc, feed_app.
      split; [reflexivity|]. split; assumption.
Qed.

(** While nothing comes in on the binary channel, the wait goes through all
    its rounds. *)
Lemma wait_binary_idle (n : nat) :
  forall (polls : list (list event)) (st : state),
    (n <= length polls)%nat ->
    Forall
      (Forall (fun e => match e with BinNotify _ => False | _ => True end))
      polls ->
    is_complete st = false ->
    exists st' mid,
      wait_binary n polls st = Some st'
      /\ bin_buffer st' = bin_buffer st
      /\ bin_expected_size st' = bin_expected_size st
      /\ outbox st' = outbox st ++ mid
      /\ bin_frames mid = [].
Proof.
  induction n as [|n IH]; intros polls st Hn Hidle Hc.
  - exists st, []. rewrite app_nil_r. repeat split; reflexivity.
  - destruct polls as [|es polls]; [cbn in Hn; lia|].
    inversion Hidle as [|? ? Hes Hrest]; subst.
    destruct (run_events_transport es st) as (Hx & Hb & mid1 & Ho & Hm).
    specialize (Hb Hes).
    assert (Hc' : is_complete (run_events st es) = false).
    { unfold is_complete in *. rewrite Hx, Hb. exact Hc. }
    cbn [wait_binary]. rewrite Hc'.
    destruct (IH polls (run_events st es)) as (st' & mid2 & Hw & H1 & H2 & H3 & H4);
      [cbn in Hn; lia | exact Hrest | exact Hc' |].
    exists st', (mid1 ++ mid2). split; [exact Hw|].
    split; [rewrite H1; exact Hb|]. split; [rewrite H2; exact Hx|].
    split; [rewrite H3, Ho, app_assoc; reflexivity|].
    rewrite bin_frames_app, Hm, H4. reflexivity.
Qed.

Lemma py_slice_prefix (l : list byte) (n : Z) :
  0 <= n <= len l -> py_slice l 0 n = firstn (Z.to_nat n) l.
Proof.
  intros Hn. unfold py_slice, clamp_index.
  replace (0 <? 0) with false by reflexivity.
  replace (n <? 0) with false by (symmetry; apply Z.ltb_ge; lia).
  rewrite (Z.min_l 0) by lia. rewrite (Z.min_l n) by lia.
  rewrite Z.sub_0_r. reflexivity.
Qed.

Section Screenshot.

Variable py_int : string -> option Z.
Variable py_float : string -> option pyfloat.
Variable loads : string -> option json.
Variable fs : json -> outcome push_source.

Local Abbreviation exec_cli := (_exec_cli py_int py_float loads fs).

Lemma exec_cli_screen (es : list event) (polls : list (list event))
    (st : state) :
  exec_cli ["sys"; "screen"] es polls st
  = match send "sys" "screen" (JList [JStr "rgb16"]) true es
            (set_bin_buffer [] (set_bin_expected_size 0 st)) with
    | None => None
    | Some (Raise e, st1) => Some (Raise e, st1)
    | Some (Return (status, data), st1) => exec_cli_end status data polls st1
    end.
Proof. reflexivity. Qed.

(** The command "sys screen" up to the wait for the chunks: the command
    frame is written with the default argument, and when the watch answers
    "ok" with a size the wait starts from an empty buffer. *)
Lemma screen_command_answered (st : state) (pre post : list event)
    (k : json) (d : dict) (size : Z) (polls : list (list event)) :
  table_ok st ->
  let rid := request_id st + 1 in
  Forall (fun e => settles rid e = false
                   /\ match e with BinNotify _ => False | _ => True end)
    pre ->
  table_key k = Return (Some rid) ->
  dict_get "bytes" d = Some (JInt size) ->
  exists st2 mid,
    bin_buffer st2 = []
    /\ bin_expected_size st2 = size
    /\ outbox st2
       = outbox st
           ++ ToRx (dumps false
                      (JList [JInt rid; JStr "sys"; JStr "screen";
                              JList [JStr "rgb16"]])) :: mid
    /\ bin_frames mid = []
    /\ exec_cli ["sys"; "screen"]
         (pre ++ TxNotify (Json (JList [k; JStr "ok"; JObj d])) :: post)
         polls st
       = match wait_binary 100 polls st2 with
         | None => None
         | Some st' =>
             if is_complete st' then
               Some (Return
                       [SayExpecting size;
                        WriteFile (dict_get_default "w" (JInt 0) d)
                          (dict_get_default "h" (JInt 0) d)
                          (dict_get_default "color" (JStr "rgb16") d)
                          (dict_get_default "format" (JStr "raw") d)
                          (py_slice (bin_buffer st') 0 size);
                        SaySaved (dict_get_default "w" (JInt 0) d)
                          (dict_get_default "h" (JInt 0) d)
                          (dict_get_default "color" (JStr "rgb16") d)
                          (dict_get_default "format" (JStr "raw") d) size],
                     st')
             else
               Some (Return [SayExpecting size;
                             SayIncomplete (len (bin_buffer st')) size],
                     st')
         end.
Proof.
  intros Hok rid Hpre Hk Hbytes.
  set (st0 := set_bin_buffer [] (set_bin_expected_size 0 st)).
  set (resp := TxNotify (Json (JList [k; JStr "ok"; JObj d]))).
  assert (Hok0 : table_ok st0) by exact Hok.
  assert (Hpre1 : Forall (fun e => settles (request_id st0 + 1) e = false) pre).
  { eapply Forall_impl; [exact Hpre|]. cbn. intros e [He _]. exact He. }
  assert (Hpre2 : Forall (fun e => match e with
                                   | BinNotify _ => False
                                   | _ => True
                                   end) (pre ++ [resp])).
  { apply Forall_app. split.
    - eapply Forall_impl; [exact Hpre|]. cbn. intros e [_ He]. exact He.
    - constructor; [exact I | constructor]. }
  set (st1 := run_events
                (snd (send_begin "sys" "screen" (JList [JStr "rgb16"]) true
                        st0)) (pre ++ [resp])).
  assert (Hsend :
    send "sys" "screen" (JList [JStr "rgb16"]) true (pre ++ resp :: post) st0
    = Some (Return (JStr "ok", JObj d), st1)).
  { rewrite send_settled; try assumption; [reflexivity|].
    cbn [settles resp]. unfold resp. cbn [settles]. rewrite Hk.
    apply Z.eqb_refl. }
  destruct (send_settled_outbox st0 "sys" "screen" (JList [JStr "rgb16"])
              (pre ++ [resp])) as (mid & Ho & Hm).
  fold st1 in Ho.
  destruct (send_begin_eval "sys" "screen" (JList [JStr "rgb16"]) true st0)
    as (sb & E & _ & _ & _ & Hb & Hx & _).
  destruct (run_events_transport (pre ++ [resp]) sb) as (Hx1 & Hb1 & _).
  specialize (Hb1 Hpre2).
  assert (Hsb : snd (send_begin "sys" "screen" (JList [JStr "rgb16"]) true st0)
                = sb) by (rewrite E; reflexivity).
  exists (set_bin_expected_size size st1), mid.
  split.
  { st_simpl. unfold st1. rewrite Hsb, Hb1, Hb. reflexivity. }
  split; [reflexivity|].
  split; [exact Ho|]. split; [exact Hm|].
  rewrite exec_cli_screen. fold st0. rewrite Hsend.
  unfold exec_cli_end. cbn [str_eq String.eqb negb py_contains py_getitem].
  unfold dict_has. rewrite Hbytes. cbn [py_get]. reflexivity.
Qed.



End Screenshot.

(** *** A command typed with its arguments *)

Section TypedCommand.

Variable py_int : string -> option Z.
Variable py_float : string -> option pyfloat.
Variable loads : string -> option json.
Variable fs : json -> outcome push_source.


End TypedCommand.

(** ** Properties of the bridge when a line does not print, a text does not
       encode or the link refuses a write *)

(** *** Printing and encoding *)

Lemma log_full_prints line e st :
  prints line = true -> log_full line e st = log e st.
Proof. intros H. unfold log_full. rewrite H. reflexivity. Qed.

Lemma log_full_refused line e st :
  prints line = false -> log_full line e st = (Raise print_error, st).
Proof. intros H. unfold log_full. rewrite H. reflexivity. Qed.

Lemma first_surrogate_none cps i :
  existsb surrogate cps = false -> first_surrogate cps i = None.
Proof.
  revert i. induction cps as [|n cps IH]; intros i H; [reflexivity|].
  cbn in *. destruct (surrogate n); [discriminate|]. apply IH. exact H.
Qed.

Lemma first_surrogate_some cps i :
  existsb surrogate cps = true ->
  exists n j k, first_surrogate cps i = Some (n, j, k).
Proof.
  revert i. induction cps as [|n cps IH]; intros i H; [discriminate|].
  cbn in *. destruct (surrogate n); [eauto|]. apply IH. exact H.
Qed.

Lemma encode_utf8_clean s :
  has_surrogate s = false -> encode_utf8 s = Return s.
Proof.
  intros H. unfold encode_utf8.
  rewrite (first_surrogate_none _ 0 H). reflexivity.
Qed.

Lemma encode_utf8_refused s :
  has_surrogate s = true ->
  exists n i j,
    encode_utf8 s = Raise (Exn UnicodeEncodeError (encode_error_text n i j)).
Proof.
  intros H. unfold encode_utf8.
  destruct (first_surrogate_some _ 0 H) as (n & i & j & ->). eauto.
Qed.

Lemma encode_utf8_raise s e :
  encode_utf8 s = Raise e ->
  has_surrogate s = true
  /\ exists n i j, e = Exn UnicodeEncodeError (encode_error_text n i j).
Proof.
  intros H. destruct (has_surrogate s) eqn:S.
  - split; [reflexivity|].
    destruct (encode_utf8_refused s S) as (n & i & j & E).
    rewrite E in H. injection H as <-. eauto.
  - rewrite (encode_utf8_clean s S) in H. discriminate.
Qed.

(** *** The TX callback *)

(** The callback is the one of the printing reading when its line prints,
    and does nothing but raise when it does not. *)
Lemma tx_notify_full_eq data st :
  _on_tx_notify_full data st
  = if prints (tx_line data) then _on_tx_notify data st
    else (Raise print_error, st).
Proof.
  destruct data as [text|msg].
  - unfold _on_tx_notify_full, _on_tx_notify, tx_line, log_full.
    destruct (prints _); reflexivity.
  - unfold _on_tx_notify_full, _on_tx_notify, tx_line.
    destruct (is_fetch_request msg); [reflexivity|].
    destruct msg as [| | | | |[|k [|status rest]]|];
      unfold log_full, bind; try fold (payload_of rest);
      destruct (prints _); reflexivity.
Qed.

Lemma handle_turn_tx st data :
  handle_turn st (Tx data)
  = if prints (tx_line data) then handle_event st (TxNotify data) else st.
Proof.
  unfold handle_turn, handle_event, handler_full, handler.
  rewrite tx_notify_full_eq. destruct (prints _); reflexivity.
Qed.

(** X22: a response frame [[id, status, payload?]] whose id has no entry in
    the pending-request table changes neither the table nor the futures, the
    chunk buffer, the expected size, the session flags, the tasks or what was
    written.  When the line of the frame prints, the callback returns and that
    line is the one thing added to the log; when the line holds a lone
    surrogate, [print] raises [UnicodeEncodeError] and the state is exactly
    what it was. *)
Theorem unmatched_response_changes_nothing (st : state) (rid : Z)
    (status : json) (rest : list json) :
  pending_responses st !! rid = None ->
  let frame := Json (JList (JInt rid :: status :: rest)) in
  let st' := snd (_on_tx_notify_full frame st) in
  _on_tx_notify_full frame st
  = (if prints (tx_line frame)
     then (Return tt,
           set_logbook
             (logbook st ++ [LogRx (JInt rid) status (payload_of rest)]) st)
     else (Raise print_error, st))
  /\ request_id st' = request_id st
  /\ pending_responses st' = pending_responses st
  /\ futures st' = futures st
  /\ bin_buffer st' = bin_buffer st
  /\ bin_expected_size st' = bin_expected_size st
  /\ connected st' = connected st
  /\ synced st' = synced st
  /\ spawned st' = spawned st
  /\ outbox st' = outbox st.
Proof.
  intros Hnone frame st'.
  assert (E : _on_tx_notify_full frame st
              = (if prints (tx_line frame)
                 then (Return tt,
                       set_logbook
                         (logbook st
                            ++ [LogRx (JInt rid) status (payload_of rest)]) st)
                 else (Raise print_error, st))).
  { subst frame. rewrite tx_notify_full_eq.
    rewrite (response_without_entry st rid status rest Hnone). reflexivity. }
  split; [exact E|].
  subst st'. rewrite E. destruct (prints (tx_line frame)); repeat split.
Qed.

(** C2 at an input where the code departs from it.  No call waits for the
    id 7, and the watch sends [[7, "ok", {"name": "\ud83d"}]].  [print]
    raises in [log_rx]: the callback ends with [UnicodeEncodeError] and no
    line is logged, in the initial state and in any other.  The table, the
    chunk buffer and the session flags are what they were. *)
Theorem unmatched_response_unlogged :
  let frame :=
    Json (JList [JInt 7; JStr "ok"; JObj [("name", JStr lone_surrogate)]]) in
  pending_responses initial_state !! 7 = None
  /\ _on_tx_notify_full frame initial_state
     = (Raise print_error, initial_state)
  /\ exn_cls print_error = UnicodeEncodeError
  /\ (forall st, _on_tx_notify_full frame st = (Raise print_error, st)).
Proof.
  cbv zeta. split; [reflexivity|].
  split; [rewrite tx_notify_full_eq; reflexivity|].
  split; [reflexivity|].
  intros st. rewrite tx_notify_full_eq. reflexivity.
Qed.

(** C1 at inputs where the code departs from it.  The command [sys info] is
    sent from the initial state and gets the id 1.  First, the watch answers
    [[1, "ok", {"name": "\ud83d"}]] before the time of the call is up: the
    callback raises in [log_rx] before it looks the id up, the future stays
    pending, and the call returns the timeout although its response came
    first.  Second, the link refuses the write: the call raises, and the id
    stays in the pending-request table. *)
Theorem send_response_lost :
  let reply :=
    Json (JList [JInt 1; JStr "ok"; JObj [("name", JStr lone_surrogate)]]) in
  let st1 := snd (send_begin_full "sys" "info" JNull true None initial_state) in
  pending_responses st1 !! 1 = Some 0%nat
  /\ _on_tx_notify_full reply st1 = (Raise print_error, st1)
  /\ (exists st',
        send_full "sys" "info" JNull true None
          [Tx reply; Cancel 1; Expire 1] initial_state
        = Some (Return timeout_result, st'))
  /\ (forall e ts,
        exists st',
          send_full "sys" "info" JNull true (Some e) ts initial_state
          = Some (Raise e, st')
          /\ pending_responses st' !! 1 = Some 0%nat).
Proof.
  cbv zeta. split; [vm_compute; reflexivity|].
  split; [vm_compute; reflexivity|].
  split; [eexists; vm_compute; reflexivity|].
  intros e ts. eexists. split; vm_compute; reflexivity.
Qed.

(** *** The table and the futures *)

Lemma table_ok_full_initial : table_ok_full initial_state.
Proof.
  unfold table_ok_full, table_inv_full. cbn. repeat split; intros *;
    rewrite lookup_empty; discriminate.
Qed.

Lemma table_inv_full_settle n (tbl : gmap Z nat) (futs : list future)
    z ref f :
  table_inv_full n tbl futs ->
  tbl !! z = Some ref ->
  table_inv_full n (delete z tbl) (<[ref := f]> futs).
Proof.
  intros (Ha & Hb & Hc) Hz. repeat split.
  - intros r ref' Hr. apply lookup_delete_Some in Hr as [Hne Hr].
    rewrite list_lookup_insert_ne; [eapply Ha; exact Hr|].
    intros ->. apply Hne. eapply Hb; eassumption.
  - intros r1 r2 ref' H1 H2.
    apply lookup_delete_Some in H1 as [_ H1].
    apply lookup_delete_Some in H2 as [_ H2]. eapply Hb; eassumption.
  - intros r ref' Hr. apply lookup_delete_Some in Hr as [_ Hr].
    eapply Hc; exact Hr.
Qed.

Lemma table_inv_full_delete n (tbl : gmap Z nat) (futs : list future) z :
  table_inv_full n tbl futs -> table_inv_full n (delete z tbl) futs.
Proof.
  intros (Ha & Hb & Hc). repeat split.
  - intros r ref' Hr. apply lookup_delete_Some in Hr as [_ Hr].
    eapply Ha; exact Hr.
  - intros r1 r2 ref' H1 H2.
    apply lookup_delete_Some in H1 as [_ H1].
    apply lookup_delete_Some in H2 as [_ H2]. eapply Hb; eassumption.
  - intros r ref' Hr. apply lookup_delete_Some in Hr as [_ Hr].
    eapply Hc; exact Hr.
Qed.

Lemma table_inv_full_cancel n (tbl : gmap Z nat) (futs : list future) ref :
  table_inv_full n tbl futs ->
  table_inv_full n tbl (<[ref := FCancelled]> futs).
Proof.
  intros (Ha & Hb & Hc). repeat split; eauto.
  intros r ref' Hr. destruct (Nat.eq_dec ref ref') as [->|Hne].
  - right. apply list_lookup_insert_eq.
    destruct (Ha _ _ Hr) as [H|H]; eapply lookup_lt_Some; exact H.
  - rewrite list_lookup_insert_ne by exact Hne. eapply Ha; exact Hr.
Qed.

Lemma table_inv_full_submit n (tbl : gmap Z nat) (futs : list future) :
  table_inv_full n tbl futs ->
  table_inv_full (n + 1) (<[n + 1 := length futs]> tbl) (futs ++ [FPending]).
Proof.
  intros (Ha & Hb & Hc).
  assert (Hlt : forall r ref, tbl !! r = Some ref -> (ref < length futs)%nat).
  { intros r ref Hr. destruct (Ha _ _ Hr) as [H|H];
      eapply lookup_lt_Some; exact H. }
  repeat split.
  - intros r ref Hr. apply lookup_insert_Some in Hr as [[_ <-] | [_ Hr]].
    + left. rewrite lookup_app_r by lia. rewrite Nat.sub_diag. reflexivity.
    + rewrite lookup_app_l by (eapply Hlt; exact Hr). eapply Ha; exact Hr.
  - intros r1 r2 ref H1 H2.
    apply lookup_insert_Some in H1 as [[<- <-] | [N1 H1]];
      apply lookup_insert_Some in H2 as [[<- E2] | [N2 H2]].
    + reflexivity.
    + apply Hlt in H2. lia.
    + apply Hlt in H1. lia.
    + eapply Hb; eassumption.
  - intros r ref Hr. apply lookup_insert_Some in Hr as [[<- _] | [_ Hr]].
    + lia.
    + apply Hc in Hr. lia.
Qed.

Lemma table_inv_full_bump n (tbl : gmap Z nat) (futs : list future) :
  table_inv_full n tbl futs -> table_inv_full (n + 1) tbl futs.
Proof.
  intros (Ha & Hb & Hc). repeat split; eauto.
  intros r ref Hr. apply Hc in Hr. lia.
Qed.

Lemma table_ok_full_core st st' :
  request_id st' = request_id st ->
  pending_responses st' = pending_responses st ->
  futures st' = futures st ->
  table_ok_full st -> table_ok_full st'.
Proof. unfold table_ok_full. intros -> -> ->. exact id. Qed.

(** The turns, one expression each. *)
Lemma handle_turn_cancel st rid :
  handle_turn st (Cancel rid)
  = match pending_responses st !! rid with
    | Some ref =>
        match futures st !! ref with
        | Some FPending => set_futures (<[ref := FCancelled]> (futures st)) st
        | _ => st
        end
    | None => st
    end.
Proof.
  unfold handle_turn, handler_full, on_cancel. run_monad.
  destruct (pending_responses st !! rid) as [ref|]; [|reflexivity].
  cbn beta iota. destruct (futures st !! ref) as [[| |]|]; reflexivity.
Qed.

Lemma handle_turn_expire st rid :
  handle_turn st (Expire rid)
  = match pending_responses st !! rid with
    | Some ref =>
        match futures st !! ref with
        | Some FCancelled =>
            set_logbook (logbook st ++ [LogTimeout rid])
              (set_pending_responses (delete rid (pending_responses st)) st)
        | _ => st
        end
    | None => st
    end.
Proof.
  unfold handle_turn, handler_full, on_expire. run_monad.
  destruct (pending_responses st !! rid) as [ref|]; [|reflexivity].
  cbn beta iota. destruct (futures st !! ref) as [[| |]|]; reflexivity.
Qed.

(** [send] up to its write, whatever becomes of the line, the text and the
    link: the id is taken, and the entry is made when the call waits and its
    line was printed. *)
Lemma send_begin_full_core subsystem cmd args wait link st :
  let rid := request_id st + 1 in
  let made := wait && prints (command_line rid subsystem cmd args) in
  let st1 := snd (send_begin_full subsystem cmd args wait link st) in
  request_id st1 = rid
  /\ pending_responses st1
     = (if made then <[rid := length (futures st)]> (pending_responses st)
        else pending_responses st)
  /\ futures st1 = (if made then futures st ++ [FPending] else futures st)
  /\ bin_buffer st1 = bin_buffer st
  /\ bin_expected_size st1 = bin_expected_size st
  /\ connected st1 = connected st
  /\ synced st1 = synced st
  /\ spawned st1 = spawned st.
Proof.
  cbv zeta. unfold send_begin_full, log_full, write_full, command_line.
  run_monad. st_simpl.
  destruct (prints _); [|destruct wait; repeat split].
  cbn beta iota. st_simpl.
  destruct wait; cbn beta iota; st_simpl;
    (destruct (encode_utf8 _) as [enc|err]; cbn beta iota;
     [destruct link; cbn beta iota|]; st_simpl; repeat split).
Qed.

(** The command goes out as in the printing reading when its line prints,
    its text encodes and the link takes it. *)
Lemma send_begin_full_ok subsystem cmd args wait st :
  sendable st subsystem cmd args ->
  send_begin_full subsystem cmd args wait None st
  = send_begin subsystem cmd args wait st.
Proof.
  intros [Hline Htext]. unfold command_line, command_text in *.
  unfold send_begin_full, send_begin, log_full, write_full.
  run_monad. st_simpl. rewrite Hline. cbn beta iota. st_simpl.
  destruct wait; cbn beta iota; st_simpl;
    rewrite (encode_utf8_clean _ Htext); reflexivity.
Qed.

Lemma handle_turn_call st subsystem cmd args wait link :
  handle_turn st (Call subsystem cmd args wait link)
  = snd (send_begin_full subsystem cmd args wait link st).
Proof.
  unfold handle_turn, handler_full, bind.
  destruct (send_begin_full subsystem cmd args wait link st) as [[r|e] st'];
    reflexivity.
Qed.

(** A response frame whose line prints, against a table in step with the
    futures. *)
Lemma handle_event_response_full st k status rest :
  table_ok_full st ->
  handle_event st (TxNotify (Json (JList (k :: status :: rest))))
  = let st1 :=
      set_logbook (logbook st ++ [LogRx k status (payload_of rest)]) st in
    match table_key k with
    | Return (Some z) =>
        match pending_responses st !! z with
        | Some ref =>
            match futures st !! ref with
            | Some FPending =>
                set_pending_responses (delete z (pending_responses st))
                  (set_futures
                     (<[ref := FDone status (payload_of rest)]> (futures st))
                     st1)
            | _ => st1
            end
        | None => st1
        end
    | _ => st1
    end.
Proof. intros _. apply handle_response. Qed.

(** A turn that is none of those that concern the call [rid] leaves its
    entry and its future as they are, and the table in step with the
    futures. *)
Lemma handle_turn_keeps st t rid ref f :
  table_ok_full st ->
  pending_responses st !! rid = Some ref ->
  futures st !! ref = Some f ->
  keeps rid f t = true ->
  table_ok_full (handle_turn st t)
  /\ pending_responses (handle_turn st t) !! rid = Some ref
  /\ futures (handle_turn st t) !! ref = Some f.
Proof.
  intros Hok Hrid Hfut Hkeep.
  assert (Hsame : forall st',
    request_id st' = request_id st
    /\ pending_responses st' = pending_responses st
    /\ futures st' = futures st ->
    table_ok_full st'
    /\ pending_responses st' !! rid = Some ref
    /\ futures st' !! ref = Some f).
  { intros st' (H1 & H2 & H3). split; [|split].
    - eapply table_ok_full_core; eassumption.
    - rewrite H2. exact Hrid.
    - rewrite H3. exact Hfut. }
  assert (Hst : table_ok_full st
                /\ pending_responses st !! rid = Some ref
                /\ futures st !! ref = Some f)
    by (split; [assumption | split; assumption]).
  pose proof Hok as (Ha & Hb & Hc).
  assert (Hf : f = FPending \/ f = FCancelled).
  { destruct (Ha _ _ Hrid) as [H|H]; rewrite H in Hfut;
      injection Hfut as <-; auto. }
  destruct t as [data|data| |r|r|subsystem cmd args wait link].
  - rewrite handle_turn_tx. destruct (prints (tx_line data)) eqn:P;
      [|exact Hst].
    destruct data as [text|msg].
    { apply Hsame.
      exact (handle_event_core_same st (TxNotify (NotJson text)) I). }
    destruct msg as [| | | | |[|k [|status rest]]|];
      try (apply Hsame;
           match goal with
           | |- context [handle_event _ ?e] =>
               exact (handle_event_core_same st e I)
           end).
    rewrite handle_response. cbn zeta.
    destruct (table_key k) as [[z|]|err] eqn:K;
      try (apply Hsame; split; [reflexivity | split; reflexivity]).
    destruct (pending_responses st !! z) as [ref'|] eqn:Hz;
      [|apply Hsame; split; [reflexivity | split; reflexivity]].
    destruct (futures st !! ref') as [[| |]|] eqn:Hf';
      try (apply Hsame; split; [reflexivity | split; reflexivity]).
    assert (Hne : z <> rid).
    { intros ->. rewrite Hrid in Hz. injection Hz as <-.
      rewrite Hfut in Hf'. injection Hf' as ->.
      cbn [keeps] in Hkeep. rewrite P, K, Z.eqb_refl in Hkeep.
      discriminate. }
    split; [|split].
    + unfold table_ok_full. st_simpl.
      apply table_inv_full_settle; assumption.
    + st_simpl. rewrite lookup_delete_ne by exact Hne. exact Hrid.
    + st_simpl. rewrite list_lookup_insert_ne; [exact Hfut|].
      intros ->. apply Hne. eapply Hb; eassumption.
  - apply Hsame. exact (handle_event_core_same st (BinNotify data) I).
  - apply Hsame. exact (handle_event_core_same st Disconnect I).
  - rewrite handle_turn_cancel.
    destruct (pending_responses st !! r) as [ref'|] eqn:Hz; [|exact Hst].
    destruct (futures st !! ref') as [[| |]|] eqn:Hf'; try exact Hst.
    split; [|split].
    + unfold table_ok_full. st_simpl. apply table_inv_full_cancel. exact Hok.
    + exact Hrid.
    + st_simpl. destruct (Nat.eq_dec ref' ref) as [->|Hne].
      * rewrite Hfut in Hf'. injection Hf' as ->.
        assert (r = rid) by (eapply Hb; eassumption). subst r.
        cbn [keeps] in Hkeep. rewrite Z.eqb_refl in Hkeep. discriminate.
      * rewrite list_lookup_insert_ne by exact Hne. exact Hfut.
  - rewrite handle_turn_expire.
    destruct (pending_responses st !! r) as [ref'|] eqn:Hz; [|exact Hst].
    destruct (futures st !! ref') as [[| |]|] eqn:Hf'; try exact Hst.
    assert (Hne : r <> rid).
    { intros ->. rewrite Hrid in Hz. injection Hz as <-.
      rewrite Hfut in Hf'. injection Hf' as ->.
      cbn [keeps] in Hkeep. rewrite Z.eqb_refl in Hkeep. discriminate. }
    split; [|split].
    + unfold table_ok_full. st_simpl. apply table_inv_full_delete. exact Hok.
    + st_simpl. rewrite lookup_delete_ne by exact Hne. exact Hrid.
    + exact Hfut.
  - rewrite handle_turn_call.
    pose proof (send_begin_full_core subsystem cmd args wait link st)
      as (Hn & Hp & Hfs & _).
    cbv zeta in Hn, Hp, Hfs.
    set (st1 := snd (send_begin_full subsystem cmd args wait link st)) in *.
    assert (Hlt : (ref < length (futures st))%nat)
      by (eapply lookup_lt_Some; exact Hfut).
    destruct (wait && prints _).
    + split; [|split].
      * unfold table_ok_full. rewrite Hn, Hp, Hfs.
        apply table_inv_full_submit. exact Hok.
      * rewrite Hp, lookup_insert_ne; [exact Hrid|].
        apply Hc in Hrid. lia.
      * rewrite Hfs, lookup_app_l by exact Hlt. exact Hfut.
    + split; [|split].
      * unfold table_ok_full. rewrite Hn, Hp, Hfs.
        apply table_inv_full_bump. exact Hok.
      * rewrite Hp. exact Hrid.
      * rewrite Hfs. exact Hfut.
Qed.

(** The table stays in step with the futures whatever the turn. *)
Lemma handle_turn_table_ok st t :
  table_ok_full st -> table_ok_full (handle_turn st t).
Proof.
  intros Hok.
  assert (Hsame : forall st',
    request_id st' = request_id st
    /\ pending_responses st' = pending_responses st
    /\ futures st' = futures st ->
    table_ok_full st').
  { intros st' (H1 & H2 & H3). eapply table_ok_full_core; eassumption. }
  destruct t as [data|data| |r|r|subsystem cmd args wait link].
  - rewrite handle_turn_tx. destruct (prints (tx_line data)); [|exact Hok].
    destruct data as [text|msg].
    { apply Hsame.
      exact (handle_event_core_same st (TxNotify (NotJson text)) I). }
    destruct msg as [| | | | |[|k [|status rest]]|];
      try (apply Hsame;
           match goal with
           | |- context [handle_event _ ?e] =>
               exact (handle_event_core_same st e I)
           end).
    rewrite handle_response. cbn zeta.
    destruct (table_key k) as [[z|]|err]; try exact Hok.
    destruct (pending_responses st !! z) as [ref'|] eqn:Hz; [|exact Hok].
    destruct (futures st !! ref') as [[| |]|]; try exact Hok.
    unfold table_ok_full. st_simpl. apply table_inv_full_settle; assumption.
  - apply Hsame. exact (handle_event_core_same st (BinNotify data) I).
  - apply Hsame. exact (handle_event_core_same st Disconnect I).
  - rewrite handle_turn_cancel.
    destruct (pending_responses st !! r) as [ref'|]; [|exact Hok].
    destruct (futures st !! ref') as [[| |]|]; try exact Hok.
    unfold table_ok_full. st_simpl. apply table_inv_full_cancel. exact Hok.
  - rewrite handle_turn_expire.
    destruct (pending_responses st !! r) as [ref'|]; [|exact Hok].
    destruct (futures st !! ref') as [[| |]|]; try exact Hok.
    unfold table_ok_full. st_simpl. apply table_inv_full_delete. exact Hok.
  - rewrite handle_turn_call.
    pose proof (send_begin_full_core subsystem cmd args wait link st)
      as (Hn & Hp & Hfs & _).
    cbv zeta in Hn, Hp, Hfs.
    unfold table_ok_full. rewrite Hn, Hp, Hfs.
    destruct (wait && prints _).
    + apply table_inv_full_submit. exact Hok.
    + apply table_inv_full_bump. exact Hok.
Qed.

Lemma run_turns_table_ok ts st :
  table_ok_full st -> table_ok_full (run_turns st ts).
Proof.
  revert st. induction ts as [|t ts IH]; intros st Hok; [exact Hok|].
  unfold run_turns in *. cbn [fold_left].
  apply IH, handle_turn_table_ok, Hok.
Qed.

Lemma run_turns_app st ts1 ts2 :
  run_turns st (ts1 ++ ts2) = run_turns (run_turns st ts1) ts2.
Proof. unfold run_turns. apply fold_left_app. Qed.

(** No turn of the loop sets the synced flag. *)
Lemma handle_turn_synced st t :
  synced (handle_turn st t) = true -> synced st = true.
Proof.
  destruct t as [data|data| |r|r|subsystem cmd args wait link].
  - rewrite handle_turn_tx. destruct (prints (tx_line data)); [|exact id].
    rewrite (handle_event_synced st (TxNotify data)). exact id.
  - change (handle_turn st (Bin data)) with (handle_event st (BinNotify data)).
    rewrite (handle_event_synced st (BinNotify data)). exact id.
  - change (handle_turn st Lost) with (handle_event st Disconnect).
    rewrite (handle_event_synced st Disconnect). discriminate.
  - rewrite handle_turn_cancel.
    destruct (pending_responses st !! r) as [ref'|]; [|exact id].
    destruct (futures st !! ref') as [[| |]|]; exact id.
  - rewrite handle_turn_expire.
    destruct (pending_responses st !! r) as [ref'|]; [|exact id].
    destruct (futures st !! ref') as [[| |]|]; exact id.
  - rewrite handle_turn_call.
    pose proof (send_begin_full_core subsystem cmd args wait link st)
      as (_ & _ & _ & _ & _ & _ & Hs & _).
    cbv zeta in Hs. rewrite Hs. exact id.
Qed.

Lemma run_turns_synced ts st :
  synced (run_turns st ts) = true -> synced st = true.
Proof.
  revert st. induction ts as [|t ts IH]; intros st H; [exact H|].
  unfold run_turns in *. cbn [fold_left] in H.
  apply (handle_turn_synced st t), IH, H.
Qed.

(** *** The waiting call *)

Lemma poll_full_waiting st ref rid f :
  pending_responses st !! rid = Some ref ->
  futures st !! ref = Some f ->
  f = FPending \/ f = FCancelled ->
  poll_full ref rid st = None.
Proof.
  intros Hrid Hfut [-> | ->]; unfold poll_full; rewrite Hfut;
    [|rewrite Hrid]; reflexivity.
Qed.

Lemma await_full_settled ref rid ts st r :
  poll_full ref rid st = Some r -> await_full ref rid ts st = Some (r, st).
Proof. intros H. destruct ts; cbn; rewrite H; reflexivity. Qed.

(** While the turns leave the call alone, it stays suspended. *)
Lemma await_full_through st rid ref f pre ts :
  table_ok_full st ->
  pending_responses st !! rid = Some ref ->
  futures st !! ref = Some f ->
  Forall (fun t => keeps rid f t = true) pre ->
  await_full ref rid (pre ++ ts) st = await_full ref rid ts (run_turns st pre)
  /\ table_ok_full (run_turns st pre)
  /\ pending_responses (run_turns st pre) !! rid = Some ref
  /\ futures (run_turns st pre) !! ref = Some f.
Proof.
  intros Hok Hrid Hfut Hpre. revert st Hok Hrid Hfut.
  induction Hpre as [|t pre Ht Hpre IH]; intros st Hok Hrid Hfut.
  - split; [reflexivity | split; [assumption | split; assumption]].
  - destruct (handle_turn_keeps st t rid ref f Hok Hrid Hfut Ht)
      as (Hok' & Hrid' & Hfut').
    unfold run_turns. cbn [app await_full fold_left].
    assert (Hf : f = FPending \/ f = FCancelled).
    { pose proof Hok as (Ha & _).
      destruct (Ha _ _ Hrid) as [H|H]; rewrite H in Hfut;
        injection Hfut as <-; auto. }
    rewrite (poll_full_waiting st ref rid f Hrid Hfut Hf).
    apply IH; assumption.
Qed.

(** A call suspended on the pending future [ref] under the id [rid]: what
    the turns of the loop make of it.  The end of its time comes in two
    turns, [Cancel] and [Expire], with the turns [gap] in between. *)
Lemma await_full_resolved st1 rid ref pre gap post :
  table_ok_full st1 ->
  pending_responses st1 !! rid = Some ref ->
  futures st1 !! ref = Some FPending ->
  Forall (fun t => keeps rid FPending t = true) pre ->
  Forall (fun t => keeps rid FCancelled t = true) gap ->
  await_full ref rid pre st1 = None
  /\
  (forall k status rest,
      table_key k = Return (Some rid) ->
      prints (tx_line (Json (JList (k :: status :: rest)))) = true ->
      let ts := pre ++ [Tx (Json (JList (k :: status :: rest)))] in
      await_full ref rid (ts ++ post) st1
      = Some ((status, payload_of rest), run_turns st1 ts)
      /\ pending_responses (run_turns st1 ts) !! rid = None)
  /\
  await_full ref rid (pre ++ Cancel rid :: gap) st1 = None
  /\
  (let ts := pre ++ Cancel rid :: gap ++ [Expire rid] in
   await_full ref rid (ts ++ post) st1
   = Some (timeout_result, run_turns st1 ts)
   /\ pending_responses (run_turns st1 ts) !! rid = None).
Proof.
  intros Hok1 Hrid1 Hfut1 Hpre Hgap.
  assert (Hcancel : forall st2,
    table_ok_full st2 ->
    pending_responses st2 !! rid = Some ref ->
    futures st2 !! ref = Some FPending ->
    let st3 := handle_turn st2 (Cancel rid) in
    table_ok_full st3
    /\ pending_responses st3 !! rid = Some ref
    /\ futures st3 !! ref = Some FCancelled).
  { intros st2 Hok2 Hrid2 Hfut2 st3. subst st3.
    rewrite handle_turn_cancel, Hrid2, Hfut2.
    split; [|split].
    - unfold table_ok_full. st_simpl. apply table_inv_full_cancel. exact Hok2.
    - exact Hrid2.
    - st_simpl. apply list_lookup_insert_eq.
      eapply lookup_lt_Some. exact Hfut2. }
  split; [|split; [|split]].
  - destruct (await_full_through st1 rid ref FPending pre []
                Hok1 Hrid1 Hfut1 Hpre) as (Hw & Hok2 & Hrid2 & Hfut2).
    rewrite app_nil_r in Hw. rewrite Hw. cbn [await_full].
    rewrite (poll_full_waiting _ ref rid FPending Hrid2 Hfut2); auto.
  - intros k status rest Hk Hp ts. subst ts.
    set (t := Tx (Json (JList (k :: status :: rest)))).
    rewrite <- app_assoc. cbn [app].
    destruct (await_full_through st1 rid ref FPending pre (t :: post)
                Hok1 Hrid1 Hfut1 Hpre) as (Hw & Hok2 & Hrid2 & Hfut2).
    rewrite Hw, run_turns_app.
    set (st2 := run_turns st1 pre) in *.
    cbn [await_full].
    rewrite (poll_full_waiting _ ref rid FPending Hrid2 Hfut2) by auto.
    change (run_turns st2 [t]) with (handle_turn st2 t).
    assert (E : handle_turn st2 t
                = set_pending_responses (delete rid (pending_responses st2))
                    (set_futures
                       (<[ref := FDone status (payload_of rest)]>
                          (futures st2))
                       (set_logbook
                          (logbook st2
                             ++ [LogRx k status (payload_of rest)]) st2))).
    { subst t. rewrite handle_turn_tx, Hp, handle_response. cbn zeta.
      rewrite Hk, Hrid2, Hfut2. reflexivity. }
    rewrite E. split.
    + apply await_full_settled. unfold poll_full. st_simpl.
      rewrite list_lookup_insert_eq by (eapply lookup_lt_Some; exact Hfut2).
      reflexivity.
    + st_simpl. apply lookup_delete_eq.
  - destruct (await_full_through st1 rid ref FPending pre (Cancel rid :: gap)
                Hok1 Hrid1 Hfut1 Hpre) as (Hw & Hok2 & Hrid2 & Hfut2).
    rewrite Hw. set (st2 := run_turns st1 pre) in *.
    cbn [await_full].
    rewrite (poll_full_waiting _ ref rid FPending Hrid2 Hfut2) by auto.
    destruct (Hcancel st2 Hok2 Hrid2 Hfut2) as (Hok3 & Hrid3 & Hfut3).
    destruct (await_full_through _ rid ref FCancelled gap []
                Hok3 Hrid3 Hfut3 Hgap) as (Hw' & Hok4 & Hrid4 & Hfut4).
    rewrite app_nil_r in Hw'. rewrite Hw'. cbn [await_full].
    rewrite (poll_full_waiting _ ref rid FCancelled Hrid4 Hfut4); auto.
  - intros ts. subst ts.
    destruct (await_full_through st1 rid ref FPending pre
                (Cancel rid :: (gap ++ [Expire rid]) ++ post)
                Hok1 Hrid1 Hfut1 Hpre) as (Hw & Hok2 & Hrid2 & Hfut2).
    rewrite <- app_assoc. cbn [app]. rewrite Hw.
    rewrite run_turns_app.
    set (st2 := run_turns st1 pre) in *.
    cbn [await_full].
    rewrite (poll_full_waiting _ ref rid FPending Hrid2 Hfut2) by auto.
    destruct (Hcancel st2 Hok2 Hrid2 Hfut2) as (Hok3 & Hrid3 & Hfut3).
    change (run_turns st2 (Cancel rid :: gap ++ [Expire rid]))
      with (run_turns (handle_turn st2 (Cancel rid)) (gap ++ [Expire rid])).
    set (st3 := handle_turn st2 (Cancel rid)) in *.
    rewrite <- app_assoc. cbn [app].
    destruct (await_full_through st3 rid ref FCancelled gap
                (Expire rid :: post) Hok3 Hrid3 Hfut3 Hgap)
      as (Hw' & Hok4 & Hrid4 & Hfut4).
    rewrite Hw', run_turns_app.
    set (st4 := run_turns st3 gap) in *.
    cbn [await_full].
    rewrite (poll_full_waiting _ ref rid FCancelled Hrid4 Hfut4) by auto.
    change (run_turns st4 [Expire rid]) with (handle_turn st4 (Expire rid)).
    assert (E : handle_turn st4 (Expire rid)
                = set_logbook (logbook st4 ++ [LogTimeout rid])
                    (set_pending_responses
                       (delete rid (pending_responses st4)) st4)).
    { rewrite handle_turn_expire, Hrid4, Hfut4. reflexivity. }
    rewrite E. split.
    + apply await_full_settled. unfold poll_full. st_simpl.
      rewrite Hfut4, lookup_delete_eq. reflexivity.
    + st_simpl. apply lookup_delete_eq.
Qed.

(** What [send] makes of a command that waits, after its write. *)
Lemma send_full_begins st subsystem cmd args :
  table_ok_full st ->
  sendable st subsystem cmd args ->
  exists st1,
    send_begin_full subsystem cmd args true None st
    = (Return (request_id st + 1, Some (length (futures st))), st1)
    /\ table_ok_full st1
    /\ pending_responses st1 !! (request_id st + 1)
       = Some (length (futures st))
    /\ futures st1 !! length (futures st) = Some FPending
    /\ synced st1 = synced st.
Proof.
  intros Hok Hsend.
  destruct (send_begin_eval subsystem cmd args true st)
    as (st1 & E & Hc & Hp & Hf & _ & _ & _ & Hs & _).
  exists st1. rewrite (send_begin_full_ok _ _ _ _ _ Hsend).
  split; [exact E|]. split; [|split; [|split]].
  - unfold table_ok_full. rewrite Hc, Hp, Hf.
    apply table_inv_full_submit. exact Hok.
  - rewrite Hp. apply lookup_insert_eq.
  - rewrite Hf, lookup_app_r by lia. rewrite Nat.sub_diag. reflexivity.
  - exact Hs.
Qed.

(** X21: a command that [send] can log and encode, sent with waiting
    enabled over a link that takes the write, gets the id [request_id + 1]
    and stays suspended while no turn concerns that id; a response frame
    carrying the id whose line cannot be printed is such a turn, it is
    refused and the call waits on.  A response frame with the id whose line
    prints makes the call return the status and the payload of the frame, the
    empty mapping when the frame has two elements.  When the time of the call
    is up its future is cancelled, the call stays suspended over the turns
    that follow, and it returns [("error", {"code": "timeout"})] in the turn
    in which it resumes.  The id is no longer in the pending-request table
    when the call returns. *)
Theorem send_full_resolved_once (st : state) (subsystem cmd : string)
    (args : json) (pre gap post : list turn) :
  table_ok_full st ->
  sendable st subsystem cmd args ->
  let rid := request_id st + 1 in
  Forall (fun t => keeps rid FPending t = true) pre ->
  Forall (fun t => keeps rid FCancelled t = true) gap ->
  send_full subsystem cmd args true None pre st = None
  /\
  (forall k status rest,
      table_key k = Return (Some rid) ->
      prints (tx_line (Json (JList (k :: status :: rest)))) = true ->
      exists st',
        send_full subsystem cmd args true None
          (pre ++ Tx (Json (JList (k :: status :: rest))) :: post) st
        = Some (Return (status,
                        match rest with p :: _ => p | [] => JObj [] end), st')
        /\ pending_responses st' !! rid = None)
  /\
  send_full subsystem cmd args true None (pre ++ Cancel rid :: gap) st = None
  /\
  (exists st',
      send_full subsystem cmd args true None
        (pre ++ Cancel rid :: gap ++ Expire rid :: post) st
      = Some (Return (JStr "error", JObj [("code", JStr "timeout")]), st')
      /\ pending_responses st' !! rid = None).
Proof.
  intros Hok Hsend rid Hpre Hgap.
  destruct (send_full_begins st subsystem cmd args Hok Hsend)
    as (st1 & E & Hok1 & Hrid1 & Hfut1 & _).
  destruct (await_full_resolved st1 rid _ pre gap post Hok1 Hrid1 Hfut1
              Hpre Hgap) as (Hnone & Hresp & Hwait & Htime).
  unfold send_full. rewrite E.
  split; [|split; [|split]].
  - fold rid. rewrite Hnone. reflexivity.
  - intros k status rest Hk Hp.
    destruct (Hresp k status rest Hk Hp) as (Hw & Hgone).
    rewrite <- app_assoc in Hw. cbn [app] in Hw.
    eexists. fold rid. rewrite Hw. split; [reflexivity | exact Hgone].
  - fold rid. rewrite Hwait. reflexivity.
  - cbv zeta in Htime. destruct Htime as (Hw & Hgone).
    rewrite <- !app_assoc in Hw. cbn [app] in Hw.
    rewrite <- app_assoc in Hw. cbn [app] in Hw.
    eexists. fold rid. rewrite Hw. split; [reflexivity | exact Hgone].
Qed.

(** *** A command sent without waiting *)

(** X3: [send] with [wait=False] never suspends and makes no future and no
    table entry, so a response of the watch to that command finds no entry
    under its id.  It takes the next id; when its line does not print it
    raises before anything is logged or written; when the line prints but the
    text of the command does not encode it raises after the line; when the
    link refuses the write it raises what the link raised; otherwise it writes
    the frame [[id, subsystem, cmd]], with the arguments as a fourth element
    only when they are truthy, and returns [("ok", {})]. *)
Theorem send_without_wait (st : state) (subsystem cmd : string) (args : json)
    (link : option exn) (ts : list turn) :
  table_ok_full st ->
  let rid := request_id st + 1 in
  let line := command_line rid subsystem cmd args in
  let text := command_text rid subsystem cmd args in
  let logged :=
    set_logbook
      (logbook st
         ++ [LogTx rid subsystem cmd
               (if py_truthy args then args else JList [])])
      (set_request_id rid st) in
  exists r st1,
    send_full subsystem cmd args false link ts st = Some (r, st1)
    /\ pending_responses st1 = pending_responses st
    /\ futures st1 = futures st
    /\ pending_responses st1 !! rid = None
    /\ (prints line = false ->
        r = Raise print_error /\ st1 = set_request_id rid st)
    /\ (prints line = true ->
        forall e, encode_utf8 text = Raise e -> r = Raise e /\ st1 = logged)
    /\ (prints line = true ->
        has_surrogate text = false ->
        match link with
        | Some e => r = Raise e /\ st1 = logged
        | None =>
            r = Return (JStr "ok", JObj [])
            /\ st1 = set_outbox (outbox st ++ [ToRx text]) logged
        end).
Proof.
  intros Hok rid line text logged.
  assert (Hfree : pending_responses st !! rid = None).
  { destruct (pending_responses st !! rid) as [ref|] eqn:R; [|reflexivity].
    pose proof Hok as (_ & _ & Hc). apply Hc in R. subst rid. lia. }
  subst line text logged. unfold command_line, command_text.
  unfold send_full, send_begin_full, log_full, write_full.
  run_monad. st_simpl. fold rid.
  destruct (prints _) eqn:P; cbn beta iota; st_simpl.
  - destruct (encode_utf8 _) as [enc|err] eqn:En; cbn beta iota; st_simpl.
    + destruct (has_surrogate
                  (dumps false
                     (JList ([JInt rid; JStr subsystem; JStr cmd]
                               ++ (if py_truthy args then [args] else [])))))
        eqn:S.
      { destruct (encode_utf8_refused _ S) as (n & i & j & E').
        rewrite E' in En. discriminate. }
      rewrite (encode_utf8_clean _ S) in En. injection En as <-.
      destruct link as [e|]; cbn beta iota; st_simpl;
        do 2 eexists; (split; [reflexivity|]); st_simpl;
        (split; [reflexivity|]); (split; [reflexivity|]);
        (split; [exact Hfree|]); (split; [discriminate|]);
        (split; [intros _ e0 He0; discriminate|]);
        intros _ _; split; reflexivity.
    + do 2 eexists; (split; [reflexivity|]); st_simpl.
      split; [reflexivity|]. split; [reflexivity|]. split; [exact Hfree|].
      split; [discriminate|]. split.
      * intros _ e0 He0. injection He0 as <-. split; reflexivity.
      * intros _ S. rewrite (encode_utf8_clean _ S) in En. discriminate.
  - do 2 eexists; (split; [reflexivity|]); st_simpl.
    split; [reflexivity|]. split; [reflexivity|]. split; [exact Hfree|].
    split; [intros _; split; reflexivity|].
    split; [discriminate | discriminate].
Qed.

(** *** What the TX callback can raise *)

(** X2: in a state the process can reach, [_on_tx_notify] raises in three
    cases only.  When its line does not print it raises [UnicodeEncodeError]
    and the state is what it was.  Otherwise the frame is a response frame,
    the line has been logged, nothing else has changed, and either the first
    element of the frame is a list or an object, which cannot be looked up in
    the table ([TypeError]), or the frame carries the id of a call whose
    future was cancelled when its time was up and which has not resumed yet:
    [set_result] refuses the cancelled future ([InvalidStateError]) and the
    entry stays in the table. *)
Theorem tx_notify_raises (ts : list turn) (data : inbound) (e : exn)
    (st' : state) :
  let st := run_turns initial_state ts in
  _on_tx_notify_full data st = (Raise e, st') ->
  (prints (tx_line data) = false /\ e = print_error /\ st' = st)
  \/
  exists k status rest,
    data = Json (JList (k :: status :: rest))
    /\ prints (tx_line data) = true
    /\ st' = set_logbook (logbook st ++ [LogRx k status (payload_of rest)]) st
    /\ ((exn_cls e = TypeError /\ (is_obj k = true \/ exists l, k = JList l))
        \/ (exn_cls e = InvalidStateError
            /\ exists rid ref,
                 table_key k = Return (Some rid)
                 /\ pending_responses st !! rid = Some ref
                 /\ futures st !! ref = Some FCancelled)).
Proof.
  intros st H.
  pose proof (run_turns_table_ok ts initial_state table_ok_full_initial)
    as (Ha & _).
  fold st in Ha.
  rewrite tx_notify_full_eq in H.
  destruct (prints (tx_line data)) eqn:P.
  2:{ left. injection H as <- <-. repeat split. }
  right.
  destruct data as [text|msg]; [discriminate|].
  unfold _on_tx_notify in H.
  destruct (is_fetch_request msg); [discriminate|].
  destruct msg as [| | | | |[|k [|status rest]]|]; try discriminate.
  exists k, status, rest. split; [reflexivity|]. split; [reflexivity|].
  fold (payload_of rest) in H.
  unfold table_find, set_result in H. run_monad. st_simpl.
  destruct (table_key k) as [[z|]|err] eqn:K; cbn beta iota in H.
  - destruct (pending_responses st !! z) as [ref|] eqn:Z;
      cbn beta iota in H; [|discriminate].
    st_simpl.
    destruct (Ha z ref Z) as [Hf|Hf]; rewrite Hf in H; [discriminate|].
    injection H as <- <-. split; [reflexivity|].
    right. split; [reflexivity|]. exists z, ref. repeat split; assumption.
  - discriminate.
  - injection H as <- <-. split; [reflexivity|]. left.
    destruct k; try discriminate; injection K as <-; (split; [reflexivity|]).
    + right. eexists. reflexivity.
    + left. reflexivity.
Qed.

(** *** A response to a call that is over *)

(** X5: a response frame with the id of a call, its line printing.  Once a
    first response has been taken, and once the call has resumed after its
    time was up, the id has no entry: the frame is only logged, nothing is
    raised and no result is set a second time.  But in the turns between the
    cancellation of the future and the resumption of the call the entry is
    still there: the frame is logged, [set_result] raises
    [InvalidStateError], and the entry and the cancelled future stay as they
    are. *)
Theorem response_after_settlement (st : state) (rid : Z) (ref : nat)
    (status : json) (rest : list json) :
  table_ok_full st ->
  pending_responses st !! rid = Some ref ->
  let frame := Json (JList (JInt rid :: status :: rest)) in
  let logged s :=
    set_logbook (logbook s ++ [LogRx (JInt rid) status (payload_of rest)]) s in
  prints (tx_line frame) = true ->
  (futures st !! ref = Some FPending ->
   forall status0 rest0,
     prints (tx_line (Json (JList (JInt rid :: status0 :: rest0)))) = true ->
     let st1 :=
       handle_turn st (Tx (Json (JList (JInt rid :: status0 :: rest0)))) in
     futures st1 !! ref = Some (FDone status0 (payload_of rest0))
     /\ _on_tx_notify_full frame st1 = (Return tt, logged st1))
  /\
  (futures st !! ref = Some FCancelled ->
   _on_tx_notify_full frame st
   = (Raise (Exn InvalidStateError "invalid state"), logged st)
   /\ let st2 := handle_turn st (Expire rid) in
      _on_tx_notify_full frame st2 = (Return tt, logged st2)).
Proof.
  intros Hok Hrid frame logged Hp.
  assert (Hfree : forall s,
    pending_responses s !! rid = None ->
    _on_tx_notify_full frame s = (Return tt, logged s)).
  { intros s Hs. subst frame. rewrite tx_notify_full_eq, Hp.
    apply response_without_entry. exact Hs. }
  split.
  - intros Hfut status0 rest0 Hp0 st1.
    assert (E : st1
                = set_pending_responses (delete rid (pending_responses st))
                    (set_futures
                       (<[ref := FDone status0 (payload_of rest0)]>
                          (futures st))
                       (set_logbook
                          (logbook st
                             ++ [LogRx (JInt rid) status0 (payload_of rest0)])
                          st))).
    { subst st1. rewrite handle_turn_tx, Hp0, handle_response. cbn zeta.
      cbn [table_key]. rewrite Hrid, Hfut. reflexivity. }
    split.
    + rewrite E. st_simpl. apply list_lookup_insert_eq.
      eapply lookup_lt_Some. exact Hfut.
    + apply Hfree. rewrite E. st_simpl. apply lookup_delete_eq.
  - intros Hfut. split.
    + subst frame. rewrite tx_notify_full_eq, Hp.
      unfold _on_tx_notify, is_fetch_request, table_find, set_result.
      run_monad. st_simpl. cbn [table_key]. cbn beta iota.
      rewrite Hrid. cbn beta iota. st_simpl. rewrite Hfut. reflexivity.
    + intros st2. apply Hfree. subst st2.
      rewrite handle_turn_expire, Hrid, Hfut. st_simpl.
      apply lookup_delete_eq.
Qed.

(** *** What [sync] returns *)

Lemma sync_end_full_eval st status data :
  sync_end_full (status, data) st
  = if str_eq status "ok" then
      match data with
      | JObj d =>
          let osv := dict_get_default "os" (JStr "?") d in
          let proto := dict_get_default "protocol" (JStr "?") d in
          if prints [Fmt osv; Fmt proto]
          then (Return true,
                set_synced true
                  (set_logbook (logbook st ++ [LogSynced osv proto]) st))
          else (Raise print_error, st)
      | _ =>
          (Raise (Exn AttributeError
                    (String.append "'"
                       (String.append (type_name data)
                          "' object has no attribute 'get'"))), st)
      end
    else if prints [Fmt data]
         then (Return false,
               set_logbook (logbook st ++ [LogSyncFailed data]) st)
         else (Raise print_error, st).
Proof.
  unfold sync_end_full, log_full. cbn [fst snd].
  destruct (str_eq status "ok").
  - destruct data; try reflexivity.
    unfold py_get. run_monad. cbv zeta.
    destruct (prints _); reflexivity.
  - run_monad. destruct (prints _); reflexivity.
Qed.

(** [sync] up to the point where it waits, and what it resumes with. *)
Lemma sync_full_waits st utc tz :
  table_ok_full st ->
  prints [Text utc; Text tz] = true ->
  sendable st "sys" "sync" (sync_args utc tz) ->
  exists st1 ref,
    (forall ts,
        sync_full utc tz None ts st
        = match await_full ref (request_id st + 1) ts st1 with
          | Some (r, st2) => Some (sync_end_full r st2)
          | None => None
          end)
    /\ table_ok_full st1
    /\ pending_responses st1 !! (request_id st + 1) = Some ref
    /\ futures st1 !! ref = Some FPending
    /\ synced st1 = synced st.
Proof.
  intros Hok Hline Hsend.
  set (st0 := set_logbook (logbook st ++ [LogSync utc tz]) st).
  destruct (send_full_begins st0 "sys" "sync" (sync_args utc tz) Hok Hsend)
    as (st1 & E & Hok1 & Hrid1 & Hfut1 & Hs1).
  exists st1, (length (futures st0)).
  split; [|split; [|split; [|split]]; assumption].
  intros ts. unfold sync_full, sync_begin_full, log_full, bind.
  rewrite Hline. unfold log, modify. fold st0. rewrite E. reflexivity.
Qed.

(** X9: what [sync] makes of the answer to its handshake, for a command
    that can be logged and encoded, over a link that takes the write.  [sync]
    waits while no turn concerns its id; a reply whose line cannot be printed
    is refused by the callback and [sync] waits on.  A reply "ok" with an
    object, or with no payload at all, makes [sync] print its line, set the
    synced flag and give [True]; when the value under "os" or "protocol" is a
    text with a lone surrogate, [print] raises before the flag is set.  A
    reply "ok" whose payload is not an object makes [sync] raise an
    [AttributeError] without setting the flag.  A reply with any other status
    gives [False] without setting the flag, or raises in [print] when the
    payload is a text with a lone surrogate.  When the time of the command is
    up, [sync] gives [False] in the turn in which [send] resumes. *)
Theorem handshake_results (st : state) (utc tz : string)
    (pre gap post : list turn) :
  table_ok_full st ->
  prints [Text utc; Text tz] = true ->
  sendable st "sys" "sync" (sync_args utc tz) ->
  let rid := request_id st + 1 in
  let reply l := Json (JList (JInt rid :: l)) in
  let answered l := sync_full utc tz None (pre ++ Tx (reply l) :: post) st in
  let kept (st' : state) := synced st' = true -> synced st = true in
  Forall (fun t => keeps rid FPending t = true) pre ->
  Forall (fun t => keeps rid FCancelled t = true) gap ->
  (forall rest d,
      payload_of rest = JObj d ->
      prints (tx_line (reply (JStr "ok" :: rest))) = true ->
      let line :=
        [Fmt (dict_get_default "os" (JStr "?") d);
         Fmt (dict_get_default "protocol" (JStr "?") d)] in
      exists st',
        answered (JStr "ok" :: rest)
        = Some (if prints line then Return true else Raise print_error, st')
        /\ if prints line then synced st' = true else kept st')
  /\
  (forall p rest,
      is_obj p = false ->
      prints (tx_line (reply (JStr "ok" :: p :: rest))) = true ->
      exists e st',
        answered (JStr "ok" :: p :: rest) = Some (Raise e, st')
        /\ exn_cls e = AttributeError
        /\ kept st')
  /\
  (forall status rest,
      status <> JStr "ok" ->
      prints (tx_line (reply (status :: rest))) = true ->
      exists st',
        answered (status :: rest)
        = Some (if prints [Fmt (payload_of rest)]
                then Return false else Raise print_error, st')
        /\ kept st')
  /\
  (forall l,
      prints (tx_line (reply l)) = false ->
      sync_full utc tz None (pre ++ [Tx (reply l)]) st = None)
  /\
  sync_full utc tz None (pre ++ Cancel rid :: gap) st = None
  /\
  (exists st',
      sync_full utc tz None (pre ++ Cancel rid :: gap ++ Expire rid :: post) st
      = Some (Return false, st')
      /\ kept st').
Proof.
  intros Hok Hline Hsend rid reply answered kept Hpre Hgap.
  destruct (sync_full_waits st utc tz Hok Hline Hsend)
    as (st1 & ref & Hsync & Hok1 & Hrid1 & Hfut1 & Hs1).
  fold rid in Hsync, Hrid1.
  destruct (await_full_resolved st1 rid ref pre gap post Hok1 Hrid1 Hfut1
              Hpre Hgap) as (_ & Hresp & Hwait & Htime).
  assert (Hback : forall ts, synced (run_turns st1 ts) = true ->
                             synced st = true).
  { intros ts H. apply run_turns_synced in H. rewrite Hs1 in H. exact H. }
  assert (Hans : forall status rest,
    prints (tx_line (reply (status :: rest))) = true ->
    answered (status :: rest)
    = Some (sync_end_full (status, payload_of rest)
              (run_turns st1 (pre ++ [Tx (reply (status :: rest))])))).
  { intros status rest Hp. subst answered. cbn beta. rewrite Hsync.
    destruct (Hresp (JInt rid) status rest eq_refl Hp) as (Hw & _).
    rewrite <- app_assoc in Hw. cbn [app] in Hw.
    subst reply. cbn beta. rewrite Hw. reflexivity. }
  split; [|split; [|split; [|split; [|split]]]].
  - intros rest d Hd Hp line.
    rewrite (Hans _ _ Hp), sync_end_full_eval, Hd. cbn [str_eq String.eqb].
    change (str_eq (JStr "ok") "ok") with true. cbv zeta. fold line.
    destruct (prints line); eexists; (split; [reflexivity|]).
    + reflexivity.
    + unfold kept; apply Hback.
  - intros p rest Hobj Hp.
    rewrite (Hans _ _ Hp), sync_end_full_eval.
    change (str_eq (JStr "ok") "ok") with true. cbn [payload_of].
    destruct p; try discriminate;
      (do 2 eexists; split; [reflexivity|]; split; [reflexivity|];
       unfold kept; apply Hback).
  - intros status rest Hne Hp.
    rewrite (Hans _ _ Hp), sync_end_full_eval.
    assert (Hs : str_eq status "ok" = false).
    { destruct (str_eq status "ok") eqn:S; [|reflexivity].
      apply str_eq_spec in S. contradiction. }
    rewrite Hs.
    destruct (prints [Fmt (payload_of rest)]); eexists;
      (split; [reflexivity|]); unfold kept; apply Hback.
  - intros l Hp. rewrite Hsync.
    assert (Hpre' : Forall (fun t => keeps rid FPending t = true)
                      (pre ++ [Tx (reply l)])).
    { apply Forall_app. split; [exact Hpre|]. constructor; [|constructor].
      subst reply. cbn beta. destruct l as [|status rest]; [reflexivity|].
      cbn [keeps]. rewrite Hp. reflexivity. }
    destruct (await_full_resolved st1 rid ref _ [] [] Hok1 Hrid1 Hfut1
                Hpre' (List.Forall_nil _)) as (Hnone & _).
    rewrite Hnone. reflexivity.
  - rewrite Hsync, Hwait. reflexivity.
  - cbv zeta in Htime. destruct Htime as (Hw & _).
    rewrite <- !app_assoc in Hw. cbn [app] in Hw.
    rewrite <- app_assoc in Hw. cbn [app] in Hw.
    rewrite Hsync, Hw. unfold timeout_result. rewrite sync_end_full_eval.
    eexists. split; [reflexivity|]. unfold kept. apply Hback.
Qed.

(** *** The run loop *)

Lemma run_full_app daemon evs1 evs2 s :
  run_full daemon (evs1 ++ evs2) s
  = run_full daemon evs2 (run_full daemon evs1 s).
Proof. unfold run_full. apply fold_left_app. Qed.

(** Once [run] has raised, it is over. *)
Lemma run_full_failed daemon evs e st :
  fst (run_full daemon evs (Failed e, st)) = Failed e.
Proof.
  revert st. induction evs as [|ev evs IH]; intros st; [reflexivity|].
  unfold run_full in *. cbn [fold_left].
  destruct ev as [t|e'|found|notify utc tz link| |[|[e'|]]];
    cbn [step_full]; apply IH.
Qed.

(** C8 at inputs where the code departs from it.  In daemon mode the loop
    does not go on for ever.  First, the watch answers the handshake of a new
    session with [[1, "ok", 5]]: [sync] raises [AttributeError], which
    neither [connect] nor [run] catches, and [run] is over whatever follows.
    Second, after a session that was lost and the two waits that follow it,
    [find_device] raises: [run] is over as well.  In interactive mode a
    failed connect does not end the loop: after the wait of five seconds the
    loop connects again, and a session can follow; the loop ends when the
    command line is left, and after a disconnect at the next line that is
    entered. *)
Theorem run_loop_ends :
  let utc := "2026-01-01T00:00:00Z" in
  let tz := "+03:00" in
  let good := Turn (Tx (Json (JList [JInt 1; JStr "ok"; JObj []]))) in
  (forall evs,
      fst (run_full true
             ([Linked None utc tz None;
               Turn (Tx (Json (JList [JInt 1; JStr "ok"; JInt 5])))] ++ evs)
             (AtConnect, initial_state))
      = Failed (Exn AttributeError "'int' object has no attribute 'get'"))
  /\
  (forall e evs,
      fst (run_full true [Linked None utc tz None; good; Turn Lost; Awake]
             (AtConnect, initial_state))
      = AtReconnect
      /\ fst (run_full true
                ([Linked None utc tz None; good; Turn Lost; Awake; Awake;
                  FindRaises e] ++ evs)
                (AtConnect, initial_state))
         = Failed e)
  /\
  (forall found st,
      fst (run_full false [NoLink found] (AtConnect, st)) = AtRetry
      /\ fst (run_full false [NoLink found; Awake] (AtConnect, st))
         = AtConnect)
  /\
  fst (run_full false [NoLink true; Awake; Linked None utc tz None; good]
         (AtConnect, initial_state))
  = AtCli
  /\
  fst (run_full false
         [Linked None utc tz None; good; Turn Lost; Line (Entered None)]
         (AtConnect, initial_state))
  = Over.
Proof.
  cbv zeta. split; [|split; [|split; [|split]]].
  - intros evs. rewrite run_full_app.
    match goal with
    | |- fst (run_full _ _ ?s) = _ =>
        let s' := eval vm_compute in s in change s with s'
    end.
    apply run_full_failed.
  - intros e evs. split; [vm_compute; reflexivity|].
    rewrite run_full_app.
    match goal with
    | |- fst (run_full _ _ ?s) = _ =>
        let s' := eval vm_compute in s in change s with s'
    end.
    apply run_full_failed.
  - intros found st. split; reflexivity.
  - vm_compute. reflexivity.
  - vm_compute. reflexivity.
Qed.

(** *** Texts of characters below 128 *)

Lemma ascii_only_app a b :
  ascii_only (String.append a b) = ascii_only a && ascii_only b.
Proof.
  induction a as [|c a IH]; [reflexivity|].
  change ((code c <? 128) && ascii_only (String.append a b)
          = ((code c <? 128) && ascii_only a) && ascii_only b).
  rewrite IH. apply andb_assoc.
Qed.

Lemma ascii_only_concat sep l :
  ascii_only sep = true ->
  Forall (fun s => ascii_only s = true) l ->
  ascii_only (String.concat sep l) = true.
Proof.
  intros Hsep H. induction H as [|s l Hs Hl IH]; [reflexivity|].
  cbn [String.concat]. destruct l as [|s' l']; [exact Hs|].
  rewrite !ascii_only_app, Hs, Hsep, IH. reflexivity.
Qed.

Lemma ascii_code_points s :
  ascii_only s = true -> Forall (fun n => n < 128) (code_points s).
Proof.
  induction s as [|c s IH]; intros H; [constructor|].
  cbn [ascii_only] in H. apply andb_true_iff in H as [Hc Hs].
  cbn [code_points]. cbv zeta. rewrite Hc.
  constructor; [apply Z.ltb_lt; exact Hc | apply IH; exact Hs].
Qed.

Lemma small_no_surrogate l :
  Forall (fun n => n < 128) l -> existsb surrogate l = false.
Proof.
  induction 1 as [|n l Hn _ IH]; [reflexivity|].
  cbn [existsb]. rewrite IH, orb_false_r. unfold surrogate.
  apply andb_false_iff. left. apply Z.leb_gt. lia.
Qed.

Lemma ascii_no_surrogate s :
  ascii_only s = true -> has_surrogate s = false.
Proof.
  intros H. apply small_no_surrogate, ascii_code_points, H.
Qed.

Lemma ascii_text_prints s :
  ascii_only s = true -> piece_prints (Text s) = true.
Proof.
  intros H. cbn [piece_prints]. rewrite (ascii_no_surrogate s H). reflexivity.
Qed.

Lemma code_ascii_of_N n :
  (n < 128)%N -> (code (ascii_of_N n) <? 128) = true.
Proof.
  intros H. unfold code. rewrite N_ascii_embedding by lia.
  apply Z.ltb_lt. lia.
Qed.

Lemma hex_digit_ascii n :
  0 <= n < 16 -> (code (hex_digit n) <? 128) = true.
Proof.
  intros H. unfold hex_digit. apply code_ascii_of_N.
  destruct (n <? 10); lia.
Qed.

Lemma land_15 n : 0 <= Z.land n 15 < 16.
Proof.
  change 15 with (Z.ones 4). rewrite Z.land_ones by lia.
  apply Z.mod_pos_bound. reflexivity.
Qed.

Lemma ascii_u_escape n : ascii_only (u_escape n) = true.
Proof.
  unfold u_escape. cbn [ascii_only].
  rewrite !hex_digit_ascii by apply land_15. reflexivity.
Qed.

Lemma ascii_short_escape c e :
  short_escape c = Some e -> ascii_only e = true.
Proof.
  unfold short_escape. cbv zeta.
  repeat match goal with
         | |- context [if ?b then _ else _] => destruct b
         end; intros [= <-]; reflexivity.
Qed.

Lemma ascii_escape_code_point n : ascii_only (escape_code_point n) = true.
Proof.
  unfold escape_code_point.
  destruct (n <? 128) eqn:Hn.
  - cbv zeta. destruct (short_escape _) as [e|] eqn:E.
    + eapply ascii_short_escape. exact E.
    + destruct ((32 <=? n) && (n <=? 126)) eqn:R; [|apply ascii_u_escape].
      cbn [str1 ascii_only]. rewrite code_ascii_of_N; [reflexivity|].
      apply Z.ltb_lt in Hn. lia.
  - destruct (n <? 65536); [apply ascii_u_escape|].
    cbv zeta. rewrite ascii_only_app, !ascii_u_escape. reflexivity.
Qed.

Lemma ascii_escape_ascii s : ascii_only (escape_ascii s) = true.
Proof.
  unfold escape_ascii. apply ascii_only_concat; [reflexivity|].
  apply Forall_map, Forall_forall. intros n _.
  apply ascii_escape_code_point.
Qed.

Lemma ascii_escape_plain s :
  ascii_only s = true -> ascii_only (escape_plain s) = true.
Proof.
  induction s as [|c s IH]; intros H; [reflexivity|].
  cbn [ascii_only] in H. apply andb_true_iff in H as [Hc Hs].
  cbn [escape_plain]. rewrite ascii_only_app, (IH Hs), andb_true_r.
  destruct (short_escape c) as [e|] eqn:E.
  - eapply ascii_short_escape. exact E.
  - destruct (code c <? 32); [apply ascii_u_escape|].
    cbn [str1 ascii_only]. rewrite Hc. reflexivity.
Qed.

Lemma ascii_quote_true s : ascii_only (quote true s) = true.
Proof.
  unfold quote. cbn [ascii_only]. rewrite ascii_only_app, ascii_escape_ascii.
  reflexivity.
Qed.

Lemma ascii_quote_false s :
  ascii_only s = true -> ascii_only (quote false s) = true.
Proof.
  intros H. unfold quote. cbn [ascii_only].
  rewrite ascii_only_app, (ascii_escape_plain s H). reflexivity.
Qed.

Lemma ascii_string_of_uint d :
  ascii_only (DecimalString.NilEmpty.string_of_uint d) = true.
Proof. induction d; cbn; try rewrite IHd; reflexivity. Qed.

Lemma ascii_str_of_int z : ascii_only (str_of_int z) = true.
Proof.
  unfold str_of_int, NilZero.string_of_int, NilZero.string_of_uint.
  destruct (Z.to_int z) as [d|d]; destruct d; cbn [ascii_only];
    try reflexivity;
    match goal with
    | |- context [NilEmpty.string_of_uint ?d] =>
        rewrite (ascii_string_of_uint d)
    end; reflexivity.
Qed.

Lemma ascii_encode_error_text n i j :
  ascii_only (encode_error_text n i j) = true.
Proof.
  unfold encode_error_text.
  destruct (i =? j); cbn [String.concat];
    rewrite !ascii_only_app, ?ascii_u_escape, !ascii_str_of_int; reflexivity.
Qed.

Lemma ascii_error_body msg : ascii_only (error_body msg) = true.
Proof.
  unfold error_body.
  change (dumps true (JObj [("error", JStr msg)]))
    with (String.append "{"
            (String.append
               (String.append (quote true "error")
                  (String.append ": " (quote true msg))) "}")).
  rewrite !ascii_only_app, !ascii_quote_true. reflexivity.
Qed.

(** A reply under an integer id with a body of characters below 128 is a
    text of such characters. *)
Lemma ascii_reply_text n status body :
  ascii_only body = true ->
  ascii_only (reply_text (JInt n) status body) = true.
Proof.
  intros H. unfold reply_text.
  change (dumps false
            (JObj [("id", JInt n); ("status", JInt status);
                   ("body", JStr body)]))
    with (String.append "{"
            (String.append
               (String.append
                  (String.append (quote false "id")
                     (String.append ": " (str_of_int n)))
                  (String.append ", "
                     (String.append
                        (String.append (quote false "status")
                           (String.append ": " (str_of_int status)))
                        (String.append ", "
                           (String.append (quote false "body")
                              (String.append ": " (quote false body)))))))
               "}")).
  rewrite !ascii_only_app, !ascii_str_of_int, (ascii_quote_false body H).
  reflexivity.
Qed.

(** *** The fetch proxy *)

Lemma send_fetch_response_full_sent rid status body st :
  piece_prints (Fmt rid) = true ->
  has_surrogate (reply_text rid status body) = false ->
  exists entries,
    _send_fetch_response_full rid status body None st
    = (Return tt, emit entries [reply_frame rid status body] st).
Proof.
  intros Hrid Hclean.
  unfold _send_fetch_response_full, reply_frame, write_full, log_full, bind,
    lift.
  fold (reply_text rid status body).
  rewrite (encode_utf8_clean _ Hclean).
  unfold prints. cbn [forallb]. rewrite Hrid. cbn [piece_prints andb].
  unfold write_gatt_char, modify.
  destruct (500 <? _).
  - eexists [_]. unfold log, modify, emit, set_outbox, set_logbook.
    cbn -[json_dumps String.length reply_text]. reflexivity.
  - exists []. unfold ret, emit, set_outbox, set_logbook.
    cbn -[json_dumps String.length reply_text]. rewrite app_nil_r.
    reflexivity.
Qed.

Lemma send_fetch_response_full_refused rid status body link st e :
  encode_utf8 (reply_text rid status body) = Raise e ->
  _send_fetch_response_full rid status body link st = (Raise e, st).
Proof.
  intros H. unfold _send_fetch_response_full, bind, lift.
  fold (reply_text rid status body). rewrite H. reflexivity.
Qed.

Lemma fetch_try_full_eval http req n st :
  f_id req = JInt n ->
  fetch_try_full http req None st
  = match http_call http req with
    | Raise e => (Raise e, st)
    | Return resp =>
        match proxied_body req resp with
        | Raise e => (Raise e, st)
        | Return body =>
            (log (LogFetchDone (JInt n) (status_code resp)) >>
             _send_fetch_response_full (JInt n) (status_code resp) body None)
              st
        end
    end.
Proof.
  intros Hid.
  unfold fetch_try_full, request_data_full, http_call, proxied_body,
    try_except, log_full, call_json.
  rewrite Hid. unfold prints. cbn [forallb piece_prints andb].
  unfold bind, lift, ret.
  destruct (f_body req) as [b|]; [destruct (String.eqb b "")|];
    try destruct (encode_utf8 b) as [enc|err]; try reflexivity;
    match goal with
    | |- context [http ?m ?u ?x] => destruct (http m u x) as [resp|e]
    end; try reflexivity;
    (destruct (wants_filter req); [|reflexivity];
     destruct (resp_json resp) as [v|]; cbn [exn_cls handles_filter_failure];
     [|reflexivity];
     destruct (filter_fields (f_fields req) v []) as [filtered|e];
     [reflexivity|];
     destruct (handles_filter_failure (exn_cls e)); reflexivity).
Qed.

Lemma fetch_timeout_reply n st :
  exists entries,
    (log_full [Fmt (JInt n)] (LogFetchTimeout (JInt n)) >>
     _send_fetch_response_full (JInt n) 408 (sq "{'error':'timeout'}") None)
      st
    = (Return tt,
       emit entries [reply_frame (JInt n) 408 (sq "{'error':'timeout'}")] st).
Proof.
  unfold bind. rewrite log_full_prints by reflexivity. rewrite log_emit.
  destruct (send_fetch_response_full_sent (JInt n) 408
              (sq "{'error':'timeout'}")
              (emit [LogFetchTimeout (JInt n)] [] st) eq_refl) as [en E].
  { apply ascii_no_surrogate, ascii_reply_text. reflexivity. }
  rewrite E, emit_emit. eexists. reflexivity.
Qed.

Lemma fetch_error_reply n msg st :
  has_surrogate msg = false ->
  exists entries,
    (log_full [Fmt (JInt n); Text msg] (LogFetchError (JInt n) msg) >>
     _send_fetch_response_full (JInt n) 0
       (dumps true (JObj [("error", JStr msg)])) None) st
    = (Return tt, emit entries [reply_frame (JInt n) 0 (error_body msg)] st).
Proof.
  intros Hmsg. unfold bind. rewrite log_full_prints.
  2:{ unfold prints. cbn [forallb piece_prints]. rewrite Hmsg. reflexivity. }
  rewrite log_emit. fold (error_body msg).
  destruct (send_fetch_response_full_sent (JInt n) 0 (error_body msg)
              (emit [LogFetchError (JInt n) msg] [] st) eq_refl) as [en E].
  { apply ascii_no_surrogate, ascii_reply_text, ascii_error_body. }
  rewrite E, emit_emit. eexists. reflexivity.
Qed.

Lemma fetch_error_unprintable n msg body st :
  has_surrogate msg = true ->
  (log_full [Fmt (JInt n); Text msg] (LogFetchError (JInt n) msg) >>
   _send_fetch_response_full (JInt n) 0 body None) st
  = (Raise print_error, st).
Proof.
  intros Hmsg. unfold bind. rewrite log_full_refused; [reflexivity|].
  unfold prints. cbn [forallb piece_prints]. rewrite Hmsg. reflexivity.
Qed.

Lemma emit_nothing st : emit [] [] st = st.
Proof.
  unfold emit, set_outbox, set_logbook. cbn. rewrite !app_nil_r.
  destruct st; reflexivity.
Qed.

(** What the handler makes of a request with an integer id whose first line
    prints, over a link that takes the writes: the reply of the [try] when
    the [try] gets to the end, and otherwise the reply of the [except] clause
    that catches what it raised, unless the text of the exception cannot be
    printed. *)
Lemma handle_fetch_full_eval http req n st :
  f_id req = JInt n ->
  prints (fetch_line req) = true ->
  let handled := _handle_fetch_full true http req None None st in
  match fetch_attempt http req (JInt n) with
  | Return (status, body) =>
      exists entries,
        handled
        = (Return tt, emit entries [reply_frame (JInt n) status body] st)
  | Raise e =>
      match exn_cls e with
      | RequestsTimeout =>
          exists entries,
            handled
            = (Return tt,
               emit entries
                 [reply_frame (JInt n) 408 (sq "{'error':'timeout'}")] st)
      | _ =>
          if has_surrogate (exn_msg e)
          then exists entries, handled = (Raise print_error, emit entries [] st)
          else exists entries,
                 handled
                 = (Return tt,
                    emit entries
                      [reply_frame (JInt n) 0 (error_body (exn_msg e))] st)
      end
  end.
Proof.
  intros Hid Hline handled. subst handled.
  unfold fetch_line in Hline. rewrite Hid in Hline.
  assert (Hcaught : forall e entries,
    match exn_cls e with
    | RequestsTimeout =>
        exists entries',
          (log_full [Fmt (JInt n)] (LogFetchTimeout (JInt n)) >>
           _send_fetch_response_full (JInt n) 408 (sq "{'error':'timeout'}")
             None) (emit entries [] st)
          = (Return tt,
             emit entries'
               [reply_frame (JInt n) 408 (sq "{'error':'timeout'}")] st)
    | _ =>
        if has_surrogate (exn_msg e)
        then exists entries',
               (log_full [Fmt (JInt n); Text (exn_msg e)]
                  (LogFetchError (JInt n) (exn_msg e)) >>
                _send_fetch_response_full (JInt n) 0
                  (dumps true (JObj [("error", JStr (exn_msg e))])) None)
                 (emit entries [] st)
               = (Raise print_error, emit entries' [] st)
        else exists entries',
               (log_full [Fmt (JInt n); Text (exn_msg e)]
                  (LogFetchError (JInt n) (exn_msg e)) >>
                _send_fetch_response_full (JInt n) 0
                  (dumps true (JObj [("error", JStr (exn_msg e))])) None)
                 (emit entries [] st)
               = (Return tt,
                  emit entries'
                    [reply_frame (JInt n) 0 (error_body (exn_msg e))] st)
    end).
  { intros e entries.
    assert (Hother :
      if has_surrogate (exn_msg e)
      then exists entries',
             (log_full [Fmt (JInt n); Text (exn_msg e)]
                (LogFetchError (JInt n) (exn_msg e)) >>
              _send_fetch_response_full (JInt n) 0
                (dumps true (JObj [("error", JStr (exn_msg e))])) None)
               (emit entries [] st)
             = (Raise print_error, emit entries' [] st)
      else exists entries',
             (log_full [Fmt (JInt n); Text (exn_msg e)]
                (LogFetchError (JInt n) (exn_msg e)) >>
              _send_fetch_response_full (JInt n) 0
                (dumps true (JObj [("error", JStr (exn_msg e))])) None)
               (emit entries [] st)
             = (Return tt,
                emit entries'
                  [reply_frame (JInt n) 0 (error_body (exn_msg e))] st)).
    { destruct (has_surrogate (exn_msg e)) eqn:S.
      - rewrite (fetch_error_unprintable _ _ _ _ S). eexists. reflexivity.
      - destruct (fetch_error_reply n (exn_msg e) (emit entries [] st) S)
          as [en E].
        rewrite E, emit_emit. eexists. reflexivity. }
    destruct (exn_cls e); try exact Hother.
    destruct (fetch_timeout_reply n (emit entries [] st)) as [en E].
    rewrite E, emit_emit. eexists. reflexivity. }
  remember (_handle_fetch_full true http req None None st) as handled
    eqn:Hh.
  unfold _handle_fetch_full in Hh. cbv zeta in Hh. rewrite Hid in Hh.
  unfold bind at 1 in Hh.
  rewrite (log_full_prints _ _ _ Hline), log_emit in Hh. cbn [negb] in Hh.
  unfold try_except in Hh. rewrite (fetch_try_full_eval _ _ n _ Hid) in Hh.
  unfold fetch_attempt.
  set (st0 := emit [LogFetch (JInt n) (f_method req) (f_url req)] [] st)
    in *.
  destruct (http_call http req) as [resp|e].
  2:{ specialize (Hcaught e [LogFetch (JInt n) (f_method req) (f_url req)]).
      fold st0 in Hcaught. rewrite Hh.
      destruct (exn_cls e); exact Hcaught. }
  destruct (proxied_body req resp) as [body|e].
  2:{ specialize (Hcaught e [LogFetch (JInt n) (f_method req) (f_url req)]).
      fold st0 in Hcaught. rewrite Hh.
      destruct (exn_cls e); exact Hcaught. }
  unfold bind at 1 in Hh. rewrite log_emit in Hh. subst st0.
  rewrite emit_emit in Hh. cbn [app] in Hh.
  destruct (encode_utf8 (reply_text (JInt n) (status_code resp) body))
    as [enc|e] eqn:En.
  - assert (S : has_surrogate (reply_text (JInt n) (status_code resp) body)
                = false).
    { destruct (has_surrogate _) eqn:S; [|reflexivity].
      destruct (encode_utf8_refused _ S) as (c & i & j & E').
      rewrite E' in En. discriminate. }
    destruct (send_fetch_response_full_sent (JInt n) (status_code resp) body
                (emit [LogFetch (JInt n) (f_method req) (f_url req);
                       LogFetchDone (JInt n) (status_code resp)] [] st)
                eq_refl S) as [en E].
    rewrite E, emit_emit in Hh. eexists. exact Hh.
  - rewrite (send_fetch_response_full_refused _ _ _ _ _ _ En) in Hh.
    cbn beta iota in Hh.
    specialize (Hcaught e [LogFetch (JInt n) (f_method req) (f_url req);
                            LogFetchDone (JInt n) (status_code resp)]).
    rewrite Hh. destruct (exn_cls e); exact Hcaught.
Qed.

(** A completed call: the body goes back with the status of the response
    when the reply encodes, and the request is answered with status 0 and
    the text of the [UnicodeEncodeError] when it does not. *)
Lemma handle_fetch_full_body http req n st resp body :
  f_id req = JInt n ->
  prints (fetch_line req) = true ->
  http_call http req = Return resp ->
  proxied_body req resp = Return body ->
  let text := reply_text (JInt n) (status_code resp) body in
  (has_surrogate text = false ->
   exists entries,
     _handle_fetch_full true http req None None st
     = (Return tt,
        emit entries [reply_frame (JInt n) (status_code resp) body] st))
  /\
  (forall e,
      encode_utf8 text = Raise e ->
      exists entries,
        _handle_fetch_full true http req None None st
        = (Return tt,
           emit entries [reply_frame (JInt n) 0 (error_body (exn_msg e))] st)).
Proof.
  intros Hid Hline Hhttp Hbody text.
  pose proof (handle_fetch_full_eval http req n st Hid Hline) as H.
  cbv zeta in H. unfold fetch_attempt in H. rewrite Hhttp, Hbody in H.
  fold text in H. split.
  - intros S. rewrite (encode_utf8_clean _ S) in H. exact H.
  - intros e En. rewrite En in H.
    destruct (encode_utf8_raise _ _ En) as (_ & c & i & j & ->).
    cbn [exn_cls exn_msg] in *.
    rewrite (ascii_no_surrogate _ (ascii_encode_error_text c i j)) in H.
    exact H.
Qed.

Lemma proxied_body_object req resp d :
  wants_filter req = true ->
  resp_json resp = Some (JObj d) ->
  proxied_body req resp
  = Return (dumps false (JObj (select_fields (f_fields req) d))).
Proof.
  intros W J. unfold proxied_body. rewrite W, J, filter_fields_object.
  reflexivity.
Qed.

Lemma proxied_body_raw req resp :
  wants_filter req = false \/ resp_json resp = None ->
  proxied_body req resp = Return (resp_text resp).
Proof.
  intros H. unfold proxied_body.
  destruct (wants_filter req); [|reflexivity].
  destruct H as [H|H]; [discriminate|]. rewrite H. reflexivity.
Qed.



Lemma filter_fields_raises fields v acc e :
  filter_fields fields v acc = Raise e ->
  exn_cls e = KeyError
  \/ (exn_cls e = TypeError /\ ascii_only (exn_msg e) = true).
Proof.
  revert acc. induction fields as [|k fields IH]; intros acc H; cbn in H;
    [discriminate|].
  destruct (py_contains v k) as [[|]|e1] eqn:C.
  - destruct (py_getitem v k) as [x|e2] eqn:G.
    + eapply IH; exact H.
    + injection H as <-. destruct v; cbn in G; try discriminate;
        try (injection G as <-; right; split; reflexivity).
      destruct (dict_get k kvs); [discriminate|].
      injection G as <-. left; reflexivity.
  - eapply IH; exact H.
  - injection H as <-. destruct v; cbn in C; try discriminate;
      injection C as <-; right; split; reflexivity.
Qed.

Lemma proxied_body_raises req resp e :
  proxied_body req resp = Raise e ->
  exn_cls e = TypeError /\ ascii_only (exn_msg e) = true.
Proof.
  unfold proxied_body.
  destruct (wants_filter req); [|discriminate].
  destruct (resp_json resp) as [v|]; [|discriminate].
  destruct (filter_fields (f_fields req) v []) as [filtered|e0] eqn:F;
    [discriminate|].
  destruct (filter_fields_raises _ _ _ _ F) as [C|[C A]]; rewrite C;
    cbn [handles_filter_failure]; [discriminate|].
  intros [= <-]. split; assumption.
Qed.

Lemma handle_fetch_full_unprinted installed http req link1 link2 st :
  prints (fetch_line req) = false ->
  _handle_fetch_full installed http req link1 link2 st
  = (Raise print_error, st).
Proof.
  intros H. unfold _handle_fetch_full. cbv zeta. unfold bind at 1.
  fold (fetch_line req). rewrite (log_full_refused _ _ _ H). reflexivity.
Qed.

Lemma handle_fetch_full_not_installed http req n st :
  f_id req = JInt n ->
  prints (fetch_line req) = true ->
  exists entries,
    _handle_fetch_full false http req None None st
    = (Return tt,
       emit entries
         [reply_frame (JInt n) 0 (sq "{'error':'requests not installed'}")]
         st).
Proof.
  intros Hid Hline. unfold _handle_fetch_full. cbv zeta. unfold bind at 1.
  fold (fetch_line req). rewrite (log_full_prints _ _ _ Hline), log_emit.
  cbn [negb]. rewrite Hid.
  destruct (send_fetch_response_full_sent (JInt n) 0
              (sq "{'error':'requests not installed'}")
              (emit [LogFetch (JInt n) (f_method req) (f_url req)] [] st)
              eq_refl) as [en E].
  { apply ascii_no_surrogate, ascii_reply_text. reflexivity. }
  rewrite E, emit_emit. eexists. reflexivity.
Qed.

Lemma handle_fetch_full_one_reply (installed : bool) (http : http_client)
    (req : fetch_request) (st : state) (n : Z) :
  f_id req = JInt n ->
  (forall e,
      http_call http req = Raise e ->
      exn_cls e = RequestsTimeout \/ has_surrogate (exn_msg e) = false) ->
  prints (fetch_line req) = true ->
  exists status body entries,
    _handle_fetch_full installed http req None None st
    = (Return tt, emit entries [reply_frame (JInt n) status body] st)
    /\ (status = 0 \/ status = 408
        \/ exists resp,
             http_call http req = Return resp
             /\ status = status_code resp).
Proof.
  intros Hid Hmsg Hline. destruct installed.
  2:{ destruct (handle_fetch_full_not_installed http req n st Hid Hline)
        as [en E].
      do 2 eexists. exists en. split; [exact E | left; reflexivity]. }
  pose proof (handle_fetch_full_eval http req n st Hid Hline) as H.
  cbv zeta in H. unfold fetch_attempt in H.
  assert (Hcaught : forall e,
    exn_cls e = RequestsTimeout \/ has_surrogate (exn_msg e) = false ->
    match exn_cls e with
    | RequestsTimeout =>
        exists entries,
          _handle_fetch_full true http req None None st
          = (Return tt,
             emit entries
               [reply_frame (JInt n) 408 (sq "{'error':'timeout'}")] st)
    | _ =>
        if has_surrogate (exn_msg e)
        then exists entries,
               _handle_fetch_full true http req None None st
               = (Raise print_error, emit entries [] st)
        else exists entries,
               _handle_fetch_full true http req None None st
               = (Return tt,
                  emit entries
                    [reply_frame (JInt n) 0 (error_body (exn_msg e))] st)
    end ->
    exists status body entries,
      _handle_fetch_full true http req None None st
      = (Return tt, emit entries [reply_frame (JInt n) status body] st)
      /\ (status = 0 \/ status = 408
          \/ exists resp,
               http_call http req = Return resp
               /\ status = status_code resp)).
  { intros e He Hm.
    destruct (exn_cls e) eqn:C;
      try (destruct He as [He|He]; [discriminate|]; rewrite He in Hm;
           destruct Hm as [en E]; do 2 eexists; exists en;
           split; [exact E | left; reflexivity]).
    destruct Hm as [en E]. do 2 eexists. exists en.
    split; [exact E | right; left; reflexivity]. }
  destruct (http_call http req) as [resp|e] eqn:Hhttp.
  2:{ exact (Hcaught e (Hmsg e eq_refl) H). }
  destruct (proxied_body req resp) as [body|e] eqn:Hbody.
  2:{ apply (Hcaught e); [|exact H].
      destruct (proxied_body_raises _ _ _ Hbody) as [_ A].
      right. apply ascii_no_surrogate, A. }
  destruct (encode_utf8 (reply_text (JInt n) (status_code resp) body))
    as [enc|e] eqn:En.
  - destruct H as [en E]. do 2 eexists. exists en. split; [exact E|].
    right; right. exists resp. split; reflexivity.
  - apply (Hcaught e); [|exact H].
    destruct (encode_utf8_raise _ _ En) as (_ & c & i & j & ->).
    right. apply ascii_no_surrogate, ascii_encode_error_text.
Qed.

(** X6: a fetch request with the field types of the wire interface, its id
    an integer, over a link that takes the writes, when the text of whatever
    the HTTP call raises can be printed.  When the first line of the handler
    does not print, the handler raises before its [try] and nothing is
    written.  When it prints, the handler ends normally after writing exactly
    one frame, a reply that carries the id of the request; its status is the
    status of the HTTP response when the call completed and the body could be
    used, and 0 or 408 otherwise.  Beyond that frame and lines of the log
    nothing changes: the pending-request table, the futures, the chunk buffer
    and the session flags are left alone. *)
Theorem fetch_always_one_reply (installed : bool) (http : http_client)
    (req : fetch_request) (st : state) (n : Z) :
  f_id req = JInt n ->
  (forall e,
      http_call http req = Raise e ->
      exn_cls e = RequestsTimeout \/ has_surrogate (exn_msg e) = false) ->
  (prints (fetch_line req) = false ->
   _handle_fetch_full installed http req None None st
   = (Raise print_error, st))
  /\
  (prints (fetch_line req) = true ->
   exists status body entries,
     _handle_fetch_full installed http req None None st
     = (Return tt, emit entries [reply_frame (JInt n) status body] st)
     /\ (status = 0 \/ status = 408
         \/ exists resp,
              http_call http req = Return resp
              /\ status = status_code resp)).
Proof.
  intros Hid Hmsg. split; [apply handle_fetch_full_unprinted|].
  intros Hline. apply handle_fetch_full_one_reply; assumption.
Qed.

(** X7: a request with an integer id, whose first line prints, that could
    not be carried out is answered all the same over a link that takes the
    write: with status 408 and the body [{"error":"timeout"}] when the HTTP
    call timed out; with status 0 and the text of the exception, serialised
    with non-ASCII characters escaped, when it failed in another way and that
    text can be printed; and with status 0 and
    [{"error":"requests not installed"}], without any HTTP call, when the
    [requests] library is missing.  When the text of the exception holds a
    lone surrogate, the [except] clause raises in [print] and nothing is
    written; when the first line of the handler does not print, the handler
    raises before its [try], whatever the library and the link, and nothing
    is written either. *)
Theorem fetch_failure_replies (http : http_client) (req : fetch_request)
    (st : state) (n : Z) :
  f_id req = JInt n ->
  let handled := _handle_fetch_full true http req None None st in
  (prints (fetch_line req) = true ->
   (forall e,
       http_call http req = Raise e ->
       exn_cls e = RequestsTimeout ->
       exists entries,
         handled
         = (Return tt,
            emit entries
              [reply_frame (JInt n) 408 (sq "{'error':'timeout'}")] st))
   /\
   (forall e,
       http_call http req = Raise e ->
       exn_cls e <> RequestsTimeout ->
       if has_surrogate (exn_msg e)
       then exists entries, handled = (Raise print_error, emit entries [] st)
       else exists entries,
              handled
              = (Return tt,
                 emit entries
                   [reply_frame (JInt n) 0
                      (dumps true (JObj [("error", JStr (exn_msg e))]))] st))
   /\
   (exists entries,
       _handle_fetch_full false http req None None st
       = (Return tt,
          emit entries
            [reply_frame (JInt n) 0
               (sq "{'error':'requests not installed'}")] st)))
  /\
  (prints (fetch_line req) = false ->
   forall installed link1 link2,
     _handle_fetch_full installed http req link1 link2 st
     = (Raise print_error, st)).
Proof.
  intros Hid handled. split.
  - intros Hline.
    pose proof (handle_fetch_full_eval http req n st Hid Hline) as H.
    cbv zeta in H. unfold fetch_attempt in H. fold handled in H.
    split; [|split].
    + intros e Hhttp C. rewrite Hhttp, C in H. exact H.
    + intros e Hhttp C. rewrite Hhttp in H. fold (error_body (exn_msg e)).
      destruct (exn_cls e); try exact H. contradiction.
    + apply handle_fetch_full_not_installed; assumption.
  - intros Hline installed link1 link2.
    apply handle_fetch_full_unprinted. exact Hline.
Qed.

(** *** From the frame to the reply *)

Lemma fetch_request_of_id d req :
  fetch_request_of d = Some req ->
  f_id req = dict_get_default "id" (JInt 0) d.
Proof.
  unfold fetch_request_of.
  repeat match goal with
         | |- context [match ?x with _ => _ end] => destruct x
         end; try discriminate.
  intros [= <-]. reflexivity.
Qed.

Lemma fetch_request_of_url d req :
  fetch_request_of d = Some req ->
  dict_get_default "url" (JStr "") d = JStr (f_url req).
Proof.
  unfold fetch_request_of.
  destruct (dict_get_default "method" (JStr "GET") d); try discriminate.
  destruct (dict_get_default "url" (JStr "") d); try discriminate.
  repeat match goal with
         | |- context [match ?x with _ => _ end] => destruct x
         end; try discriminate.
  all: intros [= <-]; reflexivity.
Qed.


End Bridge.

(** ** Instances *)

Lemma bin_notify_short_ignored_witness :
  (length [x2a] < 2)%nat
  /\ _on_bin_notify [x2a] initial_state = (Return tt, initial_state).
Proof.
  split; [cbn; lia|].
  apply (bin_notify_short_ignored [x2a] initial_state). cbn. lia.
Defined.

Lemma chunks_reassemble_witness :
  let st := set_bin_expected_size 1024 (set_bin_buffer [xff; xff] initial_state) in
  let p := repeat x01 250 in
  let q := repeat x02 24 in
  let st' :=
    feed [x00 :: x00 :: p; x01 :: x00 :: p; x02 :: x00 :: p;
          x07 :: x00 :: p; x04 :: x00 :: q] st in
  bin_buffer st' = p ++ p ++ p ++ p ++ q
  /\ length (bin_buffer st') = 1024%nat
  /\ is_complete st' = true.
Proof.
  intros st p q.
  apply (proj2 (proj2 chunks_reassemble)
           st p p p p q x01 x00 x02 x00 x07 x00 x04 x00);
    try reflexivity; vm_compute; discriminate.
Defined.

Lemma send_binary_chunks_witness :
  let data := repeat x5a 1024 in
  0 < 250
  /\ chunk_count (len data) 250 <= 65536
  /\ map length (chunks 5 250 data) = [250; 250; 250; 250; 24]%nat
  /\ send_binary data 250 initial_state
     = (Return (Some tt),
        set_logbook [LogBinarySent 1024 5]
          (set_outbox (numbered 0 (chunks 5 250 data)) initial_state)).
Proof.
  intros data.
  assert (H1 : 0 < 250) by lia.
  assert (H2 : chunk_count (len data) 250 <= 65536)
    by (apply Z.leb_le; vm_compute; reflexivity).
  pose proof (send_binary_chunks data 250 initial_state H1 H2) as H.
  cbv zeta in H. destruct H as (Hrun & _ & _ & _ & Hex).
  split; [exact H1|]. split; [exact H2|]. split.
  - apply (Hex eq_refl eq_refl).
  - exact Hrun.
Defined.

(** A blob of 65537 bytes pushed one byte per chunk needs 65537 chunks; the
    loop writes 65536 of them and [struct.pack] raises on the next number. *)
Lemma send_binary_overflow_counterexample :
  let data := repeat x00 (Z.to_nat 65537) in
  chunk_count (len data) 1 = 65537
  /\ exists st',
       send_binary data 1 initial_state = (Raise struct_error, st')
       /\ Z.of_nat (length (outbox st')) = 65536.
Proof.
  intros data.
  assert (Hlen : len data = 65537).
  { unfold len, data. rewrite repeat_length. lia. }
  clearbody data.
  assert (Hcount : chunk_count (len data) 1 = 65537)
    by (rewrite Hlen; reflexivity).
  split; [exact Hcount|].
  destruct (send_binary_overflow data 1 initial_state) as (st' & E & Hn);
    [lia | lia |].
  exists st'. split; [exact E|].
  rewrite Hn. change (length (outbox initial_state)) with O. lia.
Qed.


(** The example session ends up connecting again after the lost session. *)
Example example_session_reconnects :
  fst (run no_float_repr true example_session (Connecting, initial_state))
  = Connecting.
Proof. vm_compute. reflexivity. Qed.

(** The whole way of a fetch request: the frame is recognised, the task runs,
    one reply goes out. *)
Example fetch_pipeline :
  let st1 := handle_event no_float_repr initial_state
               (TxNotify (Json example_fetch_frame)) in
  spawned st1 = [example_fetch_frame]
  /\ exists st2,
       run_fetch_task no_float_repr true (example_http example_response) st1
       = Some (Return tt, st2)
       /\ spawned st2 = []
       /\ outbox st2
          = [reply_frame no_float_repr (JInt 3) 200 (sq "{'a': 1, 'b': 2}")].
Proof.
  split; [reflexivity|]. eexists. split; [vm_compute; reflexivity|].
  split; reflexivity.
Qed.

(** A handshake answered with a payload that is not an object makes
    [data.get] raise inside [sync], and with it [connect] and [run]. *)
Example malformed_handshake_reply :
  fst (run no_float_repr true
         [ConnectSucceeds "2026-01-01T00:00:00Z" "+03:00";
          Loop (TxNotify (Json (JList [JInt 1; JStr "ok"; JInt 5])))]
         (Connecting, initial_state))
  = Crashed (Exn AttributeError "'int' object has no attribute 'get'").
Proof. vm_compute. reflexivity. Qed.

(** The text of the frames that go out. *)
Example command_frame_text :
  outbox (snd (send_begin no_float_repr "sys" "info" (JList []) true
                 initial_state))
  = [ToRx (sq "[1, 'sys', 'info']")]
  /\ outbox (snd (sync_begin no_float_repr "2026-01-01T00:00:00Z" "+03:00"
                    initial_state))
     = [ToRx (sq "[1, 'sys', 'sync', ['2.7', '2026-01-01T00:00:00Z', '+03:00']]")].
Proof. split; reflexivity. Qed.

Example reply_frame_text :
  reply_frame no_float_repr (JInt 3) 200 (sq "{'a': 1, 'b': 2}")
  = ToRx (sq "{'id': 3, 'status': 200, 'body': '{\'a\': 1, \'b\': 2}'}")
  /\ reply_frame no_float_repr (JInt 3) 408 (sq "{'error':'timeout'}")
     = ToRx (sq "{'id': 3, 'status': 408, 'body': '{\'error\':\'timeout\'}'}").
Proof. split; reflexivity. Qed.

(** Sequence numbers on the wire, low byte first. *)
Example sequence_number_bytes :
  pack_H 0 = Return [x00; x00]
  /\ pack_H 4 = Return [x04; x00]
  /\ pack_H 258 = Return [x02; x01]
  /\ pack_H 65535 = Return [xff; xff]
  /\ pack_H 65536 = Raise struct_error
  /\ unpack_H x02 x01 = 258.
Proof. repeat split. Qed.

(** ** Instances of the further properties *)

(** 600 bytes in chunks of 250, read back over a buffer that held two stale
    bytes. *)
Lemma binary_push_round_trip_witness :
  let data := repeat x5a 600 in
  let st := set_bin_expected_size 600 (set_bin_buffer [xff; xff] initial_state) in
  0 < 250
  /\ chunk_count (len data) 250 <= 65536
  /\ exists ps,
       outbox (snd (send_binary data 250 initial_state)) = [] ++ ps
       /\ Z.of_nat (length ps) = 3
       /\ bin_buffer (feed (bin_frames ps) st) = data
       /\ is_complete (feed (bin_frames ps) st) = true.
Proof.
  intros data st.
  assert (H1 : 0 < 250) by reflexivity.
  assert (H2 : chunk_count (len data) 250 <= 65536)
    by (vm_compute; discriminate).
  split; [exact H1|]. split; [exact H2|].
  destruct (binary_push_round_trip data 250 initial_state st H1 H2)
    as (ps & Ho & Hn & Hb & Hc).
  exists ps. split; [exact Ho|]. split; [exact Hn|]. split; [exact Hb|].
  apply Hc. reflexivity.
Defined.

(** Three and a half hours behind UTC. *)
Lemma local_timezone_format_witness :
  -86400 < -12600 < 86400
  /\ get_local_timezone (-12600) = "-03:30"
  /\ get_local_timezone 19800 = "+05:30"
  /\ get_local_timezone (-59) = "-00:00".
Proof.
  assert (H1 : -86400 < -12600 < 86400) by (split; reflexivity).
  split; [exact H1|].
  split; [exact (proj1 (local_timezone_format (-12600) H1))|].
  split; reflexivity.
Defined.

Lemma split_args_at_space_witness :
  let a := "say  hi " in
  let b := sq " 'a b'  7" in
  sp_in_quote
    (split_scan example_int example_float a (SplitState [] "" false None))
  = false
  /\ _split_args example_int example_float (String.append a (String " " b))
     = [JStr "say"; JStr "hi"; JStr "a b"; JInt 7].
Proof.
  intros a b.
  assert (H : sp_in_quote
                (split_scan example_int example_float a
                   (SplitState [] "" false None)) = false) by reflexivity.
  split; [exact H|].
  exact (split_args_at_space example_int example_float a b H).
Defined.

Lemma split_args_words_witness :
  let words := ["launch"; "clock"; "42"; "TRUE"] in
  Forall (fun w => plain w = true /\ w <> "") words
  /\ _split_args example_int example_float "launch clock 42 TRUE"
     = [JStr "launch"; JStr "clock"; JInt 42; JBool true].
Proof.
  intros words.
  assert (H : Forall (fun w => plain w = true /\ w <> "") words).
  { repeat (constructor; [split; [reflexivity | discriminate]|]).
    constructor. }
  split; [exact H|].
  exact (split_args_words example_int example_float words H).
Defined.

(** A numeral between quotes is sent as a number. *)
Lemma split_args_quoted_witness :
  is_quote dquote = true
  /\ lacks dquote "42" = true
  /\ _split_args example_int example_float (sq "'42'") = [JInt 42]
  /\ _split_args example_int example_float (sq "'42") = [JInt 42].
Proof.
  assert (H1 : is_quote dquote = true) by reflexivity.
  assert (H2 : lacks dquote "42" = true) by reflexivity.
  split; [exact H1|]. split; [exact H2|].
  exact (split_args_quoted example_int example_float dquote "42" H1 H2).
Defined.



Lemma push_announces_sizes_witness :
  let files := [("a.bax", repeat x01 300); ("b.png", repeat x02 10)] in
  List.NoDup (map fst files)
  /\ files_obj files = [("a.bax", JInt 300); ("b.png", JInt 10)]
  /\ len (blob_of files) = 310
  /\ push_args no_float_repr "demo" files
     = JList [JStr "demo"; JStr "*";
              JStr (sq "{'a.bax': 300, 'b.png': 10}")].
Proof.
  intros files.
  assert (H : List.NoDup (map fst files)).
  { constructor; [intros [E | []]; discriminate E|].
    constructor; [intros []|]. constructor. }
  split; [exact H|].
  destruct (push_announces_sizes no_float_repr "demo" files H)
    as (Hobj & Hlen & _ & Hmany).
  split; [exact Hobj|]. split; [exact Hlen|].
  rewrite Hmany by discriminate. reflexivity.
Defined.




(** ** Instances for the bridge with its failures *)

(** A response nobody waits for, with a line that prints and with a line
    that does not. *)
Lemma unmatched_response_changes_nothing_witness :
  let plain_frame := Json (JList [JInt 7; JStr "ok"]) in
  let odd_frame :=
    Json (JList [JInt 7; JStr "ok"; JObj [("name", JStr lone_surrogate)]]) in
  pending_responses initial_state !! 7 = None
  /\ _on_tx_notify_full no_float_repr plain_frame initial_state
     = (Return tt,
        set_logbook [LogRx (JInt 7) (JStr "ok") (JObj [])] initial_state)
  /\ _on_tx_notify_full no_float_repr odd_frame initial_state
     = (Raise print_error, initial_state).
Proof.
  intros plain_frame odd_frame.
  assert (H : pending_responses initial_state !! 7 = None) by reflexivity.
  split; [exact H|]. split.
  - exact (proj1 (unmatched_response_changes_nothing no_float_repr
                    initial_state 7 (JStr "ok") [] H)).
  - exact (proj1 (unmatched_response_changes_nothing no_float_repr
                    initial_state 7 (JStr "ok")
                    [JObj [("name", JStr lone_surrogate)]] H)).
Defined.

(** The text of the command of [send_response_lost] and of the reply the
    call never gets. *)
Example lost_response_trace :
  let reply :=
    Json (JList [JInt 1; JStr "ok"; JObj [("name", JStr lone_surrogate)]]) in
  prints (tx_line no_float_repr reply) = false
  /\ send_full no_float_repr "sys" "info" JNull true None
       [Tx reply; Cancel 1; Expire 1] initial_state
     = Some (Return (JStr "error", JObj [("code", JStr "timeout")]),
             State 1 ∅ [FCancelled] [] 0 false false []
               [ToRx (sq "[1, 'sys', 'info']")]
               [LogTx 1 "sys" "info" (JList []); LogTimeout 1]).
Proof. split; vm_compute; reflexivity. Qed.

(** A command with waiting enabled: other traffic, a reply that cannot be
    printed, then the reply that is taken; and the same command running out
    of time, with a late reply between the cancellation and the
    resumption. *)
Lemma send_full_resolved_once_witness :
  let pre :=
    [Bin [x00; x00; x01];
     Tx (Json (JList [JInt 9; JStr "ok"]));
     Tx (Json (JList [JInt 1; JStr "ok"; JStr lone_surrogate]));
     Call "app" "list" JNull true None;
     Lost] in
  let gap := [Tx (Json (JList [JInt 1; JStr "ok"]))] in
  let frame := JList [JInt 1; JStr "ok"; JObj [("foo", JInt 1)]] in
  table_ok_full initial_state
  /\ sendable no_float_repr initial_state "sys" "info" (JList [])
  /\ Forall (fun t => keeps no_float_repr 1 FPending t = true) pre
  /\ Forall (fun t => keeps no_float_repr 1 FCancelled t = true) gap
  /\ send_full no_float_repr "sys" "info" (JList []) true None pre
       initial_state = None
  /\ (exists st',
        send_full no_float_repr "sys" "info" (JList []) true None
          (pre ++ [Tx (Json frame)]) initial_state
        = Some (Return (JStr "ok", JObj [("foo", JInt 1)]), st')
        /\ pending_responses st' !! 1 = None)
  /\ send_full no_float_repr "sys" "info" (JList []) true None
       (pre ++ Cancel 1 :: gap) initial_state = None
  /\ (exists st',
        send_full no_float_repr "sys" "info" (JList []) true None
          (pre ++ Cancel 1 :: gap ++ [Expire 1]) initial_state
        = Some (Return (JStr "error", JObj [("code", JStr "timeout")]), st')
        /\ pending_responses st' !! 1 = None).
Proof.
  intros pre gap frame.
  assert (H1 : table_ok_full initial_state) by exact table_ok_full_initial.
  assert (H2 : sendable no_float_repr initial_state "sys" "info" (JList []))
    by (split; reflexivity).
  assert (H3 : Forall (fun t => keeps no_float_repr 1 FPending t = true) pre)
    by (repeat constructor).
  assert (H4 : Forall (fun t => keeps no_float_repr 1 FCancelled t = true) gap)
    by (repeat constructor).
  destruct (send_full_resolved_once no_float_repr initial_state "sys" "info"
              (JList []) pre gap [] H1 H2 H3 H4)
    as (Hnone & Hresp & Hwait & Htime).
  split; [exact H1|]. split; [exact H2|]. split; [exact H3|].
  split; [exact H4|]. split; [exact Hnone|].
  split; [|split; [exact Hwait | exact Htime]].
  exact (Hresp (JInt 1) (JStr "ok") [JObj [("foo", JInt 1)]] eq_refl eq_refl).
Defined.

(** A command sent without waiting, from the initial state. *)
Lemma send_without_wait_witness :
  table_ok_full initial_state
  /\ send_full no_float_repr "sys" "ping" JNull false None [] initial_state
     = Some (Return (JStr "ok", JObj []),
             State 1 ∅ [] [] 0 false false []
               [ToRx (sq "[1, 'sys', 'ping']")]
               [LogTx 1 "sys" "ping" (JList [])]).
Proof.
  assert (H1 : table_ok_full initial_state) by exact table_ok_full_initial.
  split; [exact H1|].
  destruct (send_without_wait no_float_repr initial_state "sys" "ping" JNull
              None [] H1) as (r & st1 & E & _ & _ & _ & _ & _ & Hok).
  destruct (Hok eq_refl eq_refl) as [-> ->]. exact E.
Defined.

(** The reply to the command with id 1 comes after the future of the call
    was cancelled and before the call has resumed. *)
Lemma tx_notify_raises_witness :
  let ts := [Call "sys" "info" JNull true None; Cancel 1] in
  let data := Json (JList [JInt 1; JStr "ok"]) in
  let e := Exn InvalidStateError "invalid state" in
  let st := run_turns no_float_repr initial_state ts in
  let st' := set_logbook (logbook st ++ [LogRx (JInt 1) (JStr "ok") (JObj [])])
               st in
  _on_tx_notify_full no_float_repr data st = (Raise e, st')
  /\ pending_responses st' !! 1 = Some 0%nat
  /\ ((prints (tx_line no_float_repr data) = false
       /\ e = print_error /\ st' = st)
      \/ exists k status rest,
           data = Json (JList (k :: status :: rest))
           /\ prints (tx_line no_float_repr data) = true
           /\ st' = set_logbook
                      (logbook st ++ [LogRx k status (payload_of rest)]) st
           /\ ((exn_cls e = TypeError
                /\ (is_obj k = true \/ exists l, k = JList l))
               \/ (exn_cls e = InvalidStateError
                   /\ exists rid ref,
                        table_key k = Return (Some rid)
                        /\ pending_responses st !! rid = Some ref
                        /\ futures st !! ref = Some FCancelled))).
Proof.
  intros ts data e st st'.
  assert (H : _on_tx_notify_full no_float_repr data
                (run_turns no_float_repr initial_state ts)
              = (Raise e, st')) by (vm_compute; reflexivity).
  split; [exact H|]. split; [vm_compute; reflexivity|].
  exact (tx_notify_raises no_float_repr ts data e st' H).
Defined.

(** A response to the command with id 1: after a first response, in the gap
    after the cancellation, and after the call has resumed. *)
Lemma response_after_settlement_witness :
  let frame := Json (JList [JInt 1; JStr "ok"; JObj [("late", JInt 1)]]) in
  let logged s :=
    set_logbook
      (logbook s ++ [LogRx (JInt 1) (JStr "ok") (JObj [("late", JInt 1)])])
      s in
  let st := run_turns no_float_repr initial_state
              [Call "sys" "info" JNull true None] in
  let st1 := handle_turn no_float_repr st (Tx (Json (JList [JInt 1; JStr "ok"]))) in
  let stc := handle_turn no_float_repr st (Cancel 1) in
  let st2 := handle_turn no_float_repr stc (Expire 1) in
  table_ok_full st
  /\ pending_responses st !! 1 = Some 0%nat
  /\ _on_tx_notify_full no_float_repr frame st1 = (Return tt, logged st1)
  /\ _on_tx_notify_full no_float_repr frame stc
     = (Raise (Exn InvalidStateError "invalid state"), logged stc)
  /\ _on_tx_notify_full no_float_repr frame st2 = (Return tt, logged st2).
Proof.
  intros frame logged st st1 stc st2.
  assert (H1 : table_ok_full st)
    by exact (run_turns_table_ok no_float_repr _ _ table_ok_full_initial).
  assert (H2 : pending_responses st !! 1 = Some 0%nat)
    by (vm_compute; reflexivity).
  assert (H1c : table_ok_full stc)
    by exact (handle_turn_table_ok no_float_repr _ _ H1).
  assert (H2c : pending_responses stc !! 1 = Some 0%nat)
    by (vm_compute; reflexivity).
  split; [exact H1|]. split; [exact H2|].
  destruct (response_after_settlement no_float_repr st 1 0%nat (JStr "ok")
              [JObj [("late", JInt 1)]] H1 H2 eq_refl) as [Htaken _].
  destruct (response_after_settlement no_float_repr stc 1 0%nat (JStr "ok")
              [JObj [("late", JInt 1)]] H1c H2c eq_refl) as [_ Hgap].
  split; [exact (proj2 (Htaken eq_refl (JStr "ok") [] eq_refl))|].
  exact (Hgap eq_refl).
Defined.

(** A handshake answered "ok" with an object, and one answered "ok" with a
    number where the object should be. *)
Lemma handshake_results_witness :
  let utc := "2026-01-01T00:00:00Z" in
  let tz := "+03:00" in
  let pre := [Tx (Json (JList [JInt 1; JStr "ok"; JStr lone_surrogate]))] in
  let good :=
    Tx (Json (JList [JInt 1; JStr "ok"; JObj [("protocol", JStr "2.7")]])) in
  let bad := Tx (Json (JList [JInt 1; JStr "ok"; JInt 5])) in
  table_ok_full initial_state
  /\ prints [Text utc; Text tz] = true
  /\ sendable no_float_repr initial_state "sys" "sync" (sync_args utc tz)
  /\ Forall (fun t => keeps no_float_repr 1 FPending t = true) pre
  /\ (exists st',
        sync_full no_float_repr utc tz None (pre ++ [good]) initial_state
        = Some (Return true, st')
        /\ synced st' = true)
  /\ (exists e st',
        sync_full no_float_repr utc tz None (pre ++ [bad]) initial_state
        = Some (Raise e, st')
        /\ exn_cls e = AttributeError
        /\ (synced st' = true -> synced initial_state = true))
  /\ sync_full no_float_repr utc tz None pre initial_state = None.
Proof.
  intros utc tz pre good bad.
  assert (H1 : table_ok_full initial_state) by exact table_ok_full_initial.
  assert (H2 : prints [Text utc; Text tz] = true) by reflexivity.
  assert (H3 : sendable no_float_repr initial_state "sys" "sync"
                 (sync_args utc tz)) by (split; reflexivity).
  assert (H4 : Forall (fun t => keeps no_float_repr 1 FPending t = true) pre)
    by (repeat constructor).
  destruct (handshake_results no_float_repr initial_state utc tz pre [] []
              H1 H2 H3 H4 (List.Forall_nil _))
    as (Hok & Hbad & _ & _ & _ & _).
  destruct (handshake_results no_float_repr initial_state utc tz [] [] []
              H1 H2 H3 (List.Forall_nil _) (List.Forall_nil _))
    as (_ & _ & _ & Hodd & _ & _).
  split; [exact H1|]. split; [exact H2|]. split; [exact H3|].
  split; [exact H4|].
  split; [exact (Hok [JObj [("protocol", JStr "2.7")]] _ eq_refl eq_refl)|].
  split; [exact (Hbad (JInt 5) [] eq_refl eq_refl)|].
  exact (Hodd [JStr "ok"; JStr lone_surrogate] eq_refl).
Defined.





(** The text of the frame that goes back when the reply cannot be
    encoded. *)
Example encode_failure_reply_text :
  reply_frame no_float_repr (JInt 4) 0
    (error_body no_float_repr
       "'utf-8' codec can't encode character '\ud83d' in position 44: surrogates not allowed")
  = ToRx (String.append (sq "{'id': 4, 'status': 0, 'body': '{\'error\': \'")
            (String.append
               "'utf-8' codec can't encode character '\\\\ud83d' in position 44: surrogates not allowed"
               (sq "\'}'}"))).
Proof. vm_compute. reflexivity. Qed.

(** A request answered by a server, one whose call times out, and one whose
    url cannot be printed. *)
Lemma fetch_always_one_reply_witness :
  let req :=
    FetchRequest (JInt 3) "GET" "http://example.org/abc" None None [] in
  let resp := Response 200 "hello" None in
  f_id req = JInt 3
  /\ prints (fetch_line req) = true
  /\ exists status body entries,
       _handle_fetch_full no_float_repr true (example_http resp) req
         None None initial_state
       = (Return tt,
          emit entries [reply_frame no_float_repr (JInt 3) status body]
            initial_state)
       /\ (status = 0 \/ status = 408
           \/ exists resp0,
                http_call (example_http resp) req = Return resp0
                /\ status = status_code resp0).
Proof.
  intros req resp.
  assert (H0 : f_id req = JInt 3) by reflexivity.
  assert (Hp : prints (fetch_line req) = true) by reflexivity.
  assert (Hm : forall e,
             http_call (example_http resp) req = Raise e ->
             exn_cls e = RequestsTimeout \/ has_surrogate (exn_msg e) = false)
    by (intros e H; discriminate H).
  split; [exact H0|]. split; [exact Hp|].
  exact (proj2 (fetch_always_one_reply no_float_repr true (example_http resp)
                  req initial_state 3 H0 Hm) Hp).
Defined.

(** A call that times out. *)
Lemma fetch_failure_replies_witness :
  let req :=
    FetchRequest (JInt 3) "GET" "http://example.org/abc" None None [] in
  let http : http_client :=
    fun _ _ _ => Raise (Exn RequestsTimeout "Read timed out.") in
  f_id req = JInt 3
  /\ prints (fetch_line req) = true
  /\ exists entries,
       _handle_fetch_full no_float_repr true http req None None initial_state
       = (Return tt,
          emit entries
            [reply_frame no_float_repr (JInt 3) 408 (sq "{'error':'timeout'}")]
            initial_state).
Proof.
  intros req http.
  assert (H0 : f_id req = JInt 3) by reflexivity.
  assert (Hp : prints (fetch_line req) = true) by reflexivity.
  split; [exact H0|]. split; [exact Hp|].
  exact (proj1 (proj1 (fetch_failure_replies no_float_repr http req
                         initial_state 3 H0) Hp)
           (Exn RequestsTimeout "Read timed out.") eq_refl eq_refl).
Defined.


(** The request of [fetch_non_object_body_status_0] is answered in the same
    way under both readings of the handler. *)
Example fetch_non_object_body_full :
  let req :=
    FetchRequest (JInt 7) "GET" "http://example.org/n" None (Some "json")
      ["a"] in
  let resp := Response 200 "5" (Some (JInt 5)) in
  _handle_fetch_full no_float_repr true (example_http resp) req None None
    initial_state
  = _handle_fetch no_float_repr true (example_http resp) req initial_state.
Proof. vm_compute. reflexivity. Qed.
